(** * KoreanTama / sora: job driver, artifact downloader, image transforms
      and sprite-sheet composer

    A shallow embedding of the parts of [src/sora] that the specification
    makes claims about, followed by those claims.

    - [generate.py]: [resize_image_to_match], [wait_for_completion],
      [download_outputs], [get_client], [resolve_prompt], [create_video]
      and [main] from the parsed command line on.  (The argument parser is
      not embedded.)
    - [download_video.py]: the download loop of the script.
    - [create_spritesheet.py]: [resize_with_padding] and [main].

    Conventions.
    - Python [int] is [Z]; [str] is [string]; [bytes] is [list Byte.byte];
      a [float] is an IEEE-754 binary64 value, computed with the Standard
      Library's [SpecFloat] operations at precision 53 and emax 1024.
    - A Python exception is a value of [exn]; a computation either returns,
      raises, or (for the polling loop, which may run forever) exhausts the
      fuel that bounds the number of loop iterations.
    - Effects are explicit: a world holds the files, the lines printed, the
      seconds slept and the number of status checks made.
    - The collaborators the scripts call but do not implement -- the video
      service, the operating system's refusals, [int()] and [repr()] on
      strings, and Pillow's resampling and colour-conversion kernels -- are
      records of functions, and every statement holds for all of them. *)

From Stdlib Require Import ZArith String Ascii List Lia Bool.
From Stdlib Require Import Floats.SpecFloat.
From stdpp Require Import gmap strings list pretty sorting.
Import ListNotations.
Open Scope Z_scope.

(** ** Python values and control *)

Inductive exn : Type :=
| RuntimeError (msg : string)
| ValueError (msg : string)
| TypeError (msg : string)
| ZeroDivisionError (msg : string)
| OverflowError (msg : string)
| MemoryError (msg : string)
| KeyError (msg : string)
| IndexError (msg : string)
| OSError (msg : string)      (* with FileNotFoundError, IsADirectoryError,
                                 UnidentifiedImageError, ... *)
| APIError (msg : string).    (* whatever the service client raises *)

(** [str(e)] *)
Definition exn_str (e : exn) : string :=
  match e with
  | RuntimeError m | ValueError m | TypeError m | ZeroDivisionError m
  | OverflowError m | MemoryError m | KeyError m | IndexError m | OSError m | APIError m => m
  end.

Inductive outcome (A : Type) : Type :=
| Returned (a : A)
| Raised (e : exn)
| OutOfFuel.
Arguments Returned {A} a.
Arguments Raised {A} e.
Arguments OutOfFuel {A}.

#[global] Instance outcome_ret : MRet outcome := fun A a => Returned a.
#[global] Instance outcome_bind : MBind outcome := fun A B k r =>
  match r with
  | Returned a => k a
  | Raised e => Raised e
  | OutOfFuel => OutOfFuel
  end.

(** Effectful code threads a world [W] through, and keeps the world it had
    reached when an exception propagates. *)
Definition M (W A : Type) : Type := W -> outcome A * W.

#[global] Instance M_ret {W} : MRet (M W) := fun A a w => (Returned a, w).
#[global] Instance M_bind {W} : MBind (M W) := fun A B k m w =>
  match m w with
  | (Returned a, w') => k a w'
  | (Raised e, w') => (Raised e, w')
  | (OutOfFuel, w') => (OutOfFuel, w')
  end.

Definition raise {W A} (e : exn) : M W A := fun w => (Raised e, w).
Definition out_of_fuel {W A} : M W A := fun w => (OutOfFuel, w).
Definition lift {W A} (r : outcome A) : M W A := fun w => (r, w).

(** [try: body  except Exception as e: handler(e)] *)
Definition try_except {W A} (body : M W A) (handler : exn -> M W A) : M W A :=
  fun w =>
    match body w with
    | (Raised e, w') => handler e w'
    | r => r
    end.

(** [for x in xs: body(x)] *)
Fixpoint for_each {W A} (xs : list A) (body : A -> M W unit) : M W unit :=
  match xs with
  | [] => mret tt
  | x :: xs' => _ ← body x; for_each xs' body
  end.

(** A [for] loop that updates a local variable [acc]. *)
Fixpoint for_fold {W A B} (xs : list A) (acc : B) (body : B -> A -> M W B)
  : M W B :=
  match xs with
  | [] => mret acc
  | x :: xs' => acc' ← body acc x; for_fold xs' acc' body
  end.

(** [enumerate(xs)], counting from [i] *)
Fixpoint enumerate_from {A} (i : Z) (xs : list A) : list (Z * A) :=
  match xs with
  | [] => []
  | x :: xs' => (i, x) :: enumerate_from (i + 1) xs'
  end.
Definition enumerate {A} (xs : list A) : list (Z * A) := enumerate_from 0 xs.

Definition is_Returned {A} (r : outcome A) : Prop :=
  match r with Returned _ => True | _ => False end.

(** The newline character and [str(n)] for an [int]. *)
Definition nl : string := String (ascii_of_nat 10) EmptyString.
Definition str_int (n : Z) : string := pretty n.

(** [format(s, ">4")]-style right alignment in a field of [width]. *)
Fixpoint spaces (n : nat) : string :=
  match n with
  | O => EmptyString
  | S n' => String " " (spaces n')
  end.
Definition rjust (width : nat) (s : string) : string :=
  spaces (width - String.length s) +:+ s.

(** [needle in hay] *)
Fixpoint contains (needle hay : string) : bool :=
  String.prefix needle hay ||
  match hay with
  | EmptyString => false
  | String _ hay' => contains needle hay'
  end.

(** [sep.join(l)] *)
Fixpoint join (sep : string) (l : list string) : string :=
  match l with
  | [] => EmptyString
  | [s] => s
  | s :: l' => s +:+ sep +:+ join sep l'
  end.

(** [s.endswith(suffix)] *)
Definition endswith (s suffix : string) : bool :=
  let n := String.length s in
  let k := String.length suffix in
  (k <=? n)%nat && String.eqb (String.substring (n - k) k s) suffix.

(** *** Floats (binary64) *)

Module Float.

Definition float := spec_float.
Definition prec : Z := 53.
Definition emax : Z := 1024.

Definition is_infinite (x : float) : bool :=
  match x with S754_infinity _ => true | _ => false end.

(** The sign and the magnitude of a non-zero integer. *)
Definition signed (z : Z) : bool * positive :=
  match z with
  | Zneg p => (true, p)
  | Zpos p => (false, p)
  | Z0 => (false, 1%positive)
  end.

(** [float(n)] for an [int]: round to nearest, ties to even. *)
Definition of_int (n : Z) : outcome float :=
  let x := binary_normalize prec emax n 0 false in
  if is_infinite x then Raised (OverflowError "int too large to convert to float")
  else Returned x.

(** [a / b] on two [int]s: the correctly rounded quotient of the exact
    integers. *)
Definition int_truediv (a b : Z) : outcome float :=
  if b =? 0 then Raised (ZeroDivisionError "division by zero")
  else if a =? 0 then Returned (S754_zero (b <? 0))
  else
    let '(sa, ma) := signed a in
    let '(sb, mb) := signed b in
    let x := SFdiv prec emax (S754_finite sa ma 0) (S754_finite sb mb 0) in
    if is_infinite x
    then Raised (OverflowError "integer division result too large for a float")
    else Returned x.

(** [n * x] for an [int] and a [float]. *)
Definition int_mul (n : Z) (x : float) : outcome float :=
  y ← of_int n; Returned (SFmul prec emax y x).

(** [min(a, b)]: the first argument unless the second is smaller. *)
Definition min (a b : float) : float :=
  if SFltb b a then b else a.

(** [int(x)]: truncation toward zero. *)
Definition to_int (x : float) : outcome Z :=
  match x with
  | S754_zero _ => Returned 0
  | S754_finite s m e =>
      let a := match e with
               | Zneg k => Z.shiftr (Zpos m) (Zpos k)
               | _ => Z.shiftl (Zpos m) e
               end in
      Returned (if s then - a else a)
  | S754_infinity _ =>
      Raised (OverflowError "cannot convert float infinity to integer")
  | S754_nan => Raised (ValueError "cannot convert float NaN to integer")
  end.

End Float.

(** ** Pillow images

    An image has a mode, a size and a pixel at every coordinate; a pixel
    is the list of its band values.  The modes are those an 8-bit PNG file
    decodes to; the other Pillow modes (CMYK, I;16, F, ...) are outside
    this model.  What the resampling filters and the colour conversions
    compute for each pixel is left to [kernels]. *)

Module PIL.

Inductive mode : Type := M1 | L | LA | P | RGB | RGBA.

#[global] Instance mode_eq_dec : EqDecision mode.
Proof. solve_decision. Defined.

(** [im.mode], the string the scripts compare against *)
Definition mode_name (m : mode) : string :=
  match m with
  | M1 => "1" | L => "L" | LA => "LA" | P => "P"
  | RGB => "RGB" | RGBA => "RGBA"
  end.

(** [im.getbands()] *)
Definition getbands (m : mode) : list string :=
  match m with
  | M1 => ["1"] | L => ["L"] | LA => ["L"; "A"] | P => ["P"]
  | RGB => ["R"; "G"; "B"] | RGBA => ["R"; "G"; "B"; "A"]
  end.

Definition nbands (m : mode) : nat := length (getbands m).

(** An alpha channel is a band named "A". *)
Definition has_alpha (m : mode) : bool :=
  bool_decide ("A"%string ∈ getbands m).

Definition pixel : Type := list Z.

Record image : Type := mkImage {
  im_mode : mode;
  size : Z * Z;                       (* (width, height) *)
  getpixel : Z -> Z -> pixel;         (* meaningful inside the size *)
}.

Definition width (im : image) : Z := fst (size im).
Definition height (im : image) : Z := snd (size im).

Inductive resampling : Type := NEAREST | LANCZOS.

Record kernels : Type := mkKernels {
  (** the pixels of [im] resampled to the given size with the given filter *)
  resample : resampling -> image -> Z * Z -> Z -> Z -> pixel;
  (** the pixels of [im] converted to the given mode *)
  convert_pixels : image -> mode -> Z -> Z -> pixel;
  (** the pixel a new image of a mode other than "RGB" and "RGBA" is filled
      with, for a colour (the scripts create no such image) *)
  fill_ink : mode -> pixel -> outcome pixel;
}.

(** *** Arguments of the C functions

    The sizes and the colour values are parsed as C integers before any
    other test. *)

Definition INT_MAX : Z := 2147483647.
Definition INT_MIN : Z := -2147483648.
Definition LLONG_MAX : Z := 9223372036854775807.
Definition LLONG_MIN : Z := -9223372036854775808.

(** An [int] passed for a C [int] (where a C [long] has 64 bits) *)
Definition c_int (v : Z) : outcome Z :=
  if (v <? LLONG_MIN) || (LLONG_MAX <? v)
  then Raised (OverflowError "Python int too large to convert to C long")
  else if INT_MAX <? v
  then Raised (OverflowError "signed integer is greater than maximum")
  else if v <? INT_MIN
  then Raised (OverflowError "signed integer is less than minimum")
  else Returned v.

(** An [int] passed for a C [long long] *)
Definition c_long_long (v : Z) : outcome Z :=
  if (v <? LLONG_MIN) || (LLONG_MAX <? v)
  then Raised (OverflowError "int too big to convert")
  else Returned v.

(** The widest line the storage takes; a wider one raises [MemoryError].
    (An allocation that the machine cannot satisfy raises it too: that is
    outside this model.) *)
Definition MAX_XSIZE : Z := INT_MAX / 4 - 1.

(** A value stored in a byte. *)
Definition clip8 (v : Z) : Z :=
  if v <=? 0 then 0 else if v <? 256 then v else 255.

(** The pixel an "RGB" or "RGBA" image is filled with, for a colour given as
    a tuple: three values and an optional alpha, 255 when it is left out,
    each clipped to a byte; a tuple of one value stands for that [int],
    whose four low bytes are red, green, blue and alpha. *)
Definition rgba_ink (color : pixel) : outcome pixel :=
  match color with
  | [v] =>
      v ← c_long_long v;
      Returned [Z.land v 255; Z.land (Z.shiftr v 8) 255;
                Z.land (Z.shiftr v 16) 255; Z.land (Z.shiftr v 24) 255]
  | [r; g; b] =>
      r ← c_long_long r; g ← c_int g; b ← c_int b;
      Returned [clip8 r; clip8 g; clip8 b; 255]
  | [r; g; b; a] =>
      r ← c_long_long r; g ← c_int g; b ← c_int b; a ← c_int a;
      Returned [clip8 r; clip8 g; clip8 b; clip8 a]
  | _ =>
      Raised (TypeError "color must be int, or tuple of one, three or four elements")
  end.

(** The encoded form of an image ([im.save(buf, format="PNG")], or a
    ".png" file): PNG is lossless, so the encoding is the image. *)
Inductive encoded : Type := PNG (im : image).

Section Operations.
Context (K : kernels).

(** The pixel [Image.new] fills with. *)
Definition ink (m : mode) (color : pixel) : outcome pixel :=
  match m with
  | RGB => p ← rgba_ink color; Returned (firstn 3 p)
  | RGBA => rgba_ink color
  | _ => fill_ink K m color
  end.

(** [Image.new(mode, size, color)] for a colour given as a tuple: the
    size is tested, then parsed, the storage is made and filled with the
    ink of the colour. *)
Definition new (m : mode) (sz : Z * Z) (color : pixel) : outcome image :=
  if (fst sz <? 0) || (snd sz <? 0)
  then Raised (ValueError "Width and height must be >= 0")
  else
    xsize ← c_int (fst sz);
    ysize ← c_int (snd sz);
    if MAX_XSIZE <? xsize then Raised (MemoryError EmptyString)
    else
      p ← ink m color;
      Returned (mkImage m sz (fun _ _ => p)).

(** [im.resize(size, resample)].  An image that already has the size is
    copied.  The tests of the size come first here: an image that exists
    has sides of at least one pixel and a line within [MAX_XSIZE], so that
    for it the order of the tests and the copy does not matter. *)
Definition resize (im : image) (sz : Z * Z) (filter : resampling)
  : outcome image :=
  xsize ← c_int (fst sz);
  ysize ← c_int (snd sz);
  if (xsize <? 1) || (ysize <? 1)
  then Raised (ValueError "height and width must be > 0")
  else if MAX_XSIZE <? xsize then Raised (MemoryError EmptyString)
  else if bool_decide (size im = sz) then Returned im
  else
    let filter := match im_mode im with
                  | M1 | P => NEAREST
                  | _ => filter
                  end in
    Returned (mkImage (im_mode im) sz (resample K filter im sz)).

(** [im.convert(mode)] *)
Definition convert (im : image) (m : mode) : image :=
  if bool_decide (im_mode im = m) then im
  else mkImage m (size im) (convert_pixels K im m).

(** [im.split()[i]] *)
Definition split_band (im : image) (i : nat) : outcome image :=
  if (i <? nbands (im_mode im))%nat
  then Returned (mkImage L (size im) (fun x y => [nth i (getpixel im x y) 0]))
  else Raised (IndexError "tuple index out of range").

(** The blend of Pillow's paste: [(a * (255 - m) + b * m) / 255], rounded. *)
Definition blend8 (m a b : Z) : Z :=
  let t := a * (255 - m) + b * m + 128 in
  Z.shiftr (Z.shiftr t 8 + t) 8.

(** The band of a transparency mask that holds the mask values. *)
Definition mask_band (m : mode) : option nat :=
  match m with
  | M1 | L => Some 0%nat
  | LA => Some 1%nat
  | RGBA => Some 3%nat
  | P | RGB => None
  end.

(** The bands of a source pixel as the destination stores them: an
    "LA" pixel pasted into "RGB" shows its luminance three times. *)
Definition source_bands (src_mode dst_mode : mode) (p : pixel) : pixel :=
  match src_mode, dst_mode with
  | LA, RGB => let l := nth 0 p 0 in [l; l; l]
  | _, _ => firstn (nbands dst_mode) p
  end.

Fixpoint blend_bands (m : Z) (dst src : pixel) : pixel :=
  match dst, src with
  | d :: dst', s :: src' => blend8 m d s :: blend_bands m dst' src'
  | _, _ => dst
  end.

(** One pixel pasted through a mask: a "1" mask selects, the others
    blend. *)
Definition paste_pixel (mask_mode : mode) (m : Z) (dst src : pixel) : pixel :=
  match mask_mode with
  | M1 => if m =? 0 then dst else src
  | _ => blend_bands m dst src
  end.

(** [dst.paste(src, box, mask)] with a 2-tuple [box]; [dst] is changed in
    place, so its new value is returned. *)
Definition paste (dst src : image) (box : Z * Z) (mask : option image)
  : outcome image :=
  let src :=
    if bool_decide (im_mode dst = im_mode src) then src
    else if bool_decide (im_mode dst = RGB)
            && (bool_decide (im_mode src = LA) || bool_decide (im_mode src = RGBA))
         then src
         else convert src (im_mode dst) in
  let '(x0, y0) := box in
  let inside x y :=
    (x0 <=? x) && (x <? x0 + width src) && (y0 <=? y) && (y <? y0 + height src) in
  let source x y :=
    source_bands (im_mode src) (im_mode dst) (getpixel src (x - x0) (y - y0)) in
  match mask with
  | None =>
      Returned (mkImage (im_mode dst) (size dst) (fun x y =>
        if inside x y then source x y else getpixel dst x y))
  | Some mk =>
      match mask_band (im_mode mk) with
      | None => Raised (ValueError "bad transparency mask")
      | Some b =>
          if negb (bool_decide (size mk = size src))
          then Raised (ValueError "images do not match")
          else
            Returned (mkImage (im_mode dst) (size dst) (fun x y =>
              if inside x y
              then paste_pixel (im_mode mk)
                     (nth b (getpixel mk (x - x0) (y - y0)) 0)
                     (getpixel dst x y) (source x y)
              else getpixel dst x y))
      end
  end.

(** [im.save(buf, format="PNG")]: every mode of this model is one the
    PNG writer accepts. *)
Definition save_png (im : image) : outcome encoded := Returned (PNG im).

End Operations.

End PIL.

(** ** The world the scripts run in *)

(** What a file holds: arbitrary bytes, or the encoding of an image. *)
Inductive file : Type :=
| Bytes (data : list Byte.byte)
| ImageFile (im : PIL.image).

(** A job record as the service reports it.  [progress] is [None] when the
    attribute is absent or [None]. *)
Inductive job_error : Type :=
| ErrNone                            (* absent, or [None] *)
| ErrWithMessage (message : string)  (* a true object with [.message] *)
| ErrOther (str : string).           (* any other object, shown by [str()] *)

Record job : Type := mkJob {
  id : string;
  status : string;
  progress : option Z;
  error : job_error;
}.

(** What a call to the service comes back with: an answer, or the message
    of the error the client raises. *)
Inductive reply (A : Type) : Type :=
| Ok (a : A)
| Fails (msg : string).
Arguments Ok {A} a.
Arguments Fails {A} msg.

Definition of_reply {A} (r : reply A) : outcome A :=
  match r with
  | Ok a => Returned a
  | Fails msg => Raised (APIError msg)
  end.

(** The response to a content request; [read] yields its bytes. *)
Record response : Type := mkResponse {
  read : reply (list Byte.byte);
}.

(** The video service behind [client.videos]: the answer to the [n]-th
    [retrieve] of a job, and the response to the request for a variant. *)
Record service : Type := mkService {
  retrieve : string -> nat -> reply job;
  download_content : string -> string -> reply response;
}.

(** The operating system's refusals, by their message: [None] when the
    call goes through. *)
Record os : Type := mkOs {
  makedirs_error : string -> option string;
  open_wb_error : string -> option string;
}.

(** The builtins whose results on strings are taken as given: [int(s)] and
    [repr(s)]. *)
Record builtins : Type := mkBuiltins {
  int_of_str : string -> outcome Z;
  repr_str : string -> string;
}.

(** An [OSError] of a system call on a file: its text gives the error
    number, the description and the file name, quoted as [repr] does. *)
Definition os_error (B : builtins) (errno : Z) (strerror filename : string) : exn :=
  OSError ("[Errno " +:+ str_int errno +:+ "] " +:+ strerror +:+ ": "
             +:+ repr_str B filename).

(** [s.split(sep)] for a one-character separator *)
Fixpoint split (sep : ascii) (s : string) : list string :=
  match s with
  | EmptyString => [EmptyString]
  | String c s' =>
      if Ascii.eqb c sep then EmptyString :: split sep s'
      else match split sep s' with
           | [] => [String c EmptyString]
           | hd :: tl => String c hd :: tl
           end
  end.

(** [f"{x:.1f}"] for a float: one decimal, the exact binary value rounded
    to nearest, ties to even. *)
Definition round_half_even (num den : Z) : Z :=
  let q := num / den in
  let r := num mod den in
  match Z.compare (2 * r) den with
  | Lt => q
  | Gt => q + 1
  | Eq => if Z.even q then q else q + 1
  end.

Definition format_1f (x : Float.float) : string :=
  match x with
  | S754_zero s => (if s then "-0.0" else "0.0")%string
  | S754_finite s m e =>
      let tenths := match e with
                    | Zneg k => round_half_even (10 * Zpos m) (2 ^ Zpos k)
                    | _ => 10 * Zpos m * 2 ^ e
                    end in
      (if s then "-" else "")%string
      +:+ str_int (tenths / 10) +:+ "." +:+ str_int (tenths mod 10)
  | S754_infinity s => (if s then "-inf" else "inf")%string
  | S754_nan => "nan"%string
  end.

(** ** [generate.py] *)

Module Generate.

Record world : Type := mkWorld {
  checks : nat;                 (* [retrieve] calls made so far *)
  slept : list Z;               (* the arguments of [time.sleep], in order *)
  stdout : list string;         (* one entry per [print] *)
  files : gmap string file;     (* the files, by path *)
}.

Definition print (line : string) : M world unit := fun w =>
  (Returned tt, mkWorld (checks w) (slept w) (stdout w ++ [line]) (files w)).

(** The most seconds [time.sleep] takes: CPython keeps the duration as a
    signed 64-bit count of nanoseconds. *)
Definition max_sleep : Z := 9223372036.

(** [time.sleep(secs)] for an [int]: the conversion to the clock's unit comes
    first, the test of the sign after it. *)
Definition sleep (secs : Z) : M world unit := fun w =>
  if (secs <? - max_sleep) || (max_sleep <? secs)
  then (Raised (OverflowError "timestamp too large to convert to C _PyTime_t"), w)
  else if secs <? 0
  then (Raised (ValueError "sleep length must be non-negative"), w)
  else (Returned tt, mkWorld (checks w) (slept w ++ [secs]) (stdout w) (files w)).

(** The seconds slept so far. *)
Definition time_slept (w : world) : Z := foldr Z.add 0 (slept w).

(** [client.videos.retrieve(video_id)] *)
Definition videos_retrieve (S : service) (video_id : string) : M world job :=
  fun w =>
    (of_reply (retrieve S video_id (checks w)),
     mkWorld (Datatypes.S (checks w)) (slept w) (stdout w) (files w)).

(** [client.videos.download_content(video_id=..., variant=...)] *)
Definition videos_download_content (S : service) (video_id variant : string)
  : M world response :=
  lift (of_reply (download_content S video_id variant)).

(** [os.makedirs(path, exist_ok=True)] *)
Definition makedirs (O : os) (path : string) : M world unit :=
  match makedirs_error O path with
  | Some msg => raise (OSError msg)
  | None => mret tt
  end.

(** [open(path, "wb")]: the file is created, or emptied. *)
Definition open_wb (O : os) (path : string) : M world unit := fun w =>
  match open_wb_error O path with
  | Some msg => (Raised (OSError msg), w)
  | None =>
      (Returned tt,
       mkWorld (checks w) (slept w) (stdout w) (<[path := Bytes []]> (files w)))
  end.

(** [f.write(data)] on the file just opened at [path], and its closing *)
Definition write (path : string) (data : list Byte.byte) : M world unit :=
  fun w =>
    (Returned tt,
     mkWorld (checks w) (slept w) (stdout w) (<[path := Bytes data]> (files w))).

(** [Image.open(path)], with the pixels loaded.  The texts name the path as
    the program gives it; releases of Pillow that resolve the path first
    name it from the root of the file system.  A world holds files only: a
    path that names a directory is not among them (the script's own world,
    below, knows the directories). *)
Definition Image_open (B : builtins) (path : string) : M world PIL.image := fun w =>
  match files w !! path with
  | None => (Raised (os_error B 2 "No such file or directory" path), w)
  | Some (Bytes _) =>
      (Raised (OSError ("cannot identify image file " +:+ repr_str B path)), w)
  | Some (ImageFile im) => (Returned im, w)
  end.

Definition OUTPUT_DIR : string := "output".

(** *** [resize_image_to_match] *)

Definition WHITE : PIL.pixel := [255; 255; 255].

(** [width, height = map(int, target_size.split("x"))] *)
Definition parse_size (B : builtins) (target_size : string)
  : outcome (Z * Z) :=
  let int := int_of_str B in
  match split "x" target_size with
  | [] => Raised (ValueError "not enough values to unpack (expected 2, got 0)")
  | [a] =>
      _ ← int a;
      Raised (ValueError "not enough values to unpack (expected 2, got 1)")
  | [a; b] =>
      width ← int a;
      height ← int b;
      Returned (width, height)
  | a :: b :: c :: _ =>
      _ ← int a;
      _ ← int b;
      _ ← int c;
      Raised (ValueError "too many values to unpack (expected 2)")
  end.

Definition resize_image_to_match (K : PIL.kernels) (B : builtins)
    (image_path target_size : string) : M world PIL.encoded :=
  '(width, height) ← lift (parse_size B target_size);
  img ← Image_open B image_path;
  (* Use NEAREST resampling to preserve pixel art crispness *)
  img_resized ← lift (PIL.resize K img (width, height) PIL.NEAREST);
  (* Convert to RGB if RGBA *)
  img_resized ←
    (if String.eqb (PIL.mode_name (PIL.im_mode img_resized)) "RGBA" then
       (* Composite onto white background *)
       bg ← lift (PIL.new K PIL.RGB (PIL.size img_resized) WHITE);
       alpha ← lift (PIL.split_band img_resized 3);
       lift (PIL.paste K bg img_resized (0, 0) (Some alpha))
     else mret img_resized);
  lift (PIL.save_png img_resized).

(** *** [wait_for_completion] *)

Definition progress_str (j : job) : string :=
  match progress j with
  | Some p => str_int p +:+ "%"
  | None => "?"
  end.

Definition error_msg (j : job) : string :=
  match error j with
  | ErrNone => "None"
  | ErrWithMessage m => m
  | ErrOther s => s
  end.

Definition failed_message (j : job) : string :=
  "Video generation failed: " +:+ error_msg j.

Definition timeout_message (timeout : Z) (video_id : string) : string :=
  "Timed out after " +:+ str_int timeout +:+ "s waiting for video " +:+ video_id.

Section Polling.
Context (S : service) (video_id : string) (poll_interval timeout : Z).

(** The [while] loop, entered with the current value of [elapsed];
    [fuel] bounds the number of iterations. *)
Fixpoint poll (fuel : nat) (elapsed : Z) : M world job :=
  if negb (elapsed <? timeout)
  then raise (RuntimeError (timeout_message timeout video_id))
  else
    match fuel with
    | O => out_of_fuel
    | Datatypes.S fuel' =>
        job ← videos_retrieve S video_id;
        _ ← print ("  [" +:+ rjust 4 (str_int elapsed) +:+ "s] Status: "
                     +:+ status job +:+ ", Progress: " +:+ progress_str job);
        if String.eqb (status job) "completed" then
          _ ← print "  Video generation complete!";
          mret job
        else if String.eqb (status job) "failed" then
          raise (RuntimeError (failed_message job))
        else
          _ ← sleep poll_interval;
          poll fuel' (elapsed + poll_interval)
    end.

Definition wait_for_completion (fuel : nat) : M world job :=
  _ ← print (nl +:+ "Waiting for video to finish (polling every "
                +:+ str_int poll_interval +:+ "s, timeout "
                +:+ str_int timeout +:+ "s)...");
  poll fuel 0.

End Polling.

(** *** [download_outputs] *)

(** [f"{len(data) / 1024:.1f}"] *)
Definition kilobytes (data : list Byte.byte) : string :=
  match Float.int_truediv (Z.of_nat (length data)) 1024 with
  | Returned x => format_1f x
  | _ => EmptyString
  end.

Definition variants_of (prompt_name video_id : string) : list (string * string) :=
  let base := OUTPUT_DIR +:+ "/" +:+ prompt_name +:+ "_" +:+ video_id in
  [ ("spritesheet", base +:+ "_spritesheet.png");
    ("thumbnail", base +:+ "_thumbnail.png");
    ("video", base +:+ ".mp4") ]%string.

(** The body of the loop over the variants: the [try] statement. *)
Definition download_variant (S : service) (O : os) (video_id : string)
    (item : string * string) : M world unit :=
  let '(variant, filepath) := item in
  try_except
    (_ ← print ("  Downloading " +:+ variant +:+ "...");
     response ← videos_download_content S video_id variant;
     data ← lift (of_reply (read response));
     _ ← open_wb O filepath;
     _ ← write filepath data;
     print ("    Saved: " +:+ filepath +:+ " (" +:+ kilobytes data +:+ " KB)"))
    (fun e => print ("    Skipped " +:+ variant +:+ ": " +:+ exn_str e)).

Definition download_outputs (S : service) (O : os)
    (video_id prompt_name : string) : M world (list (string * string)) :=
  _ ← makedirs O OUTPUT_DIR;
  let variants := variants_of prompt_name video_id in
  _ ← for_each variants (download_variant S O video_id);
  mret variants.

End Generate.

(** ** [download_video.py]: the body of the script after its argument check *)

Module DownloadVideo.
Import Generate.

Definition output_dir : string := "output".

(** [f"{output_dir}/{video_id}_{variant}.{ext}"] *)
Definition filepath_of (video_id variant : string) : string :=
  let ext := (if String.eqb variant "video" then "mp4" else "png")%string in
  output_dir +:+ "/" +:+ video_id +:+ "_" +:+ variant +:+ "." +:+ ext.

(** The body of the loop over the variants: the [try] statement. *)
Definition download_variant (S : service) (O : os) (video_id variant : string)
  : M world unit :=
  try_except
    (_ ← print ("Downloading " +:+ variant +:+ "...");
     resp ← videos_download_content S video_id variant;
     let filepath := filepath_of video_id variant in
     _ ← open_wb O filepath;
     data ← lift (of_reply (read resp));
     _ ← write filepath data;
     print ("  Saved: " +:+ filepath))
    (fun e => print ("  Failed: " +:+ exn_str e)).

Definition VARIANTS : list string := ["video"; "thumbnail"; "spritesheet"]%string.

Definition download_video (S : service) (O : os) (video_id : string)
  : M world unit :=
  _ ← makedirs O output_dir;
  for_each VARIANTS (download_variant S O video_id).

End DownloadVideo.

(** ** [create_spritesheet.py] *)

Module CreateSpritesheet.

(** *** The directory tree under the working directory *)

#[warnings="-register-all"]
Inductive node : Type :=
| File (f : file)
| Dir (entries : list (string * node)).

(** A relative [Path], by its parts. *)
Definition path : Type := list string.

Definition path_str (p : path) : string :=
  match p with
  | [] => "."
  | _ => join "/" p
  end.

(** [p.name] *)
Definition name (p : path) : string := List.last p EmptyString.

(** [p.parent] *)
Definition parent (p : path) : path := removelast p.

Record world : Type := mkWorld {
  cwd : list (string * node);
  stdout : list string;
}.

Definition print (line : string) : M world unit := fun w =>
  (Returned tt, mkWorld (cwd w) (stdout w ++ [line])).

Fixpoint lookup_entry (nm : string) (es : list (string * node)) : option node :=
  match es with
  | [] => None
  | (k, v) :: es' => if String.eqb k nm then Some v else lookup_entry nm es'
  end.

Fixpoint set_entry (nm : string) (n : node) (es : list (string * node))
  : list (string * node) :=
  match es with
  | [] => [(nm, n)]
  | (k, v) :: es' =>
      if String.eqb k nm then (nm, n) :: es' else (k, v) :: set_entry nm n es'
  end.

Fixpoint resolve (p : path) (n : node) : option node :=
  match p with
  | [] => Some n
  | part :: p' =>
      match n with
      | Dir es =>
          match lookup_entry part es with
          | Some c => resolve p' c
          | None => None
          end
      | File _ => None
      end
  end.

(** [p.is_dir()] *)
Definition is_dir (w : world) (p : path) : bool :=
  match resolve p (Dir (cwd w)) with
  | Some (Dir _) => true
  | _ => false
  end.

(** The error of a system call on a path that leads nowhere: [ENOTDIR]
    when a file stands on the way, [ENOENT] when a name is missing.  The
    text names the whole path, [full]. *)
Fixpoint lookup_error (B : builtins) (full : string) (p : path) (n : node) : exn :=
  match p, n with
  | part :: p', Dir es =>
      match lookup_entry part es with
      | Some c => lookup_error B full p' c
      | None => os_error B 2 "No such file or directory" full
      end
  | _ :: _, File _ => os_error B 20 "Not a directory" full
  | [], _ => os_error B 2 "No such file or directory" full
  end.

(** [p.iterdir()], in the order the directory lists its entries *)
Definition iterdir (B : builtins) (p : path) : M world (list path) := fun w =>
  match resolve p (Dir (cwd w)) with
  | Some (Dir es) => (Returned (map (fun e => p ++ [fst e]) es), w)
  | Some (File _) => (Raised (os_error B 20 "Not a directory" (path_str p)), w)
  | None => (Raised (lookup_error B (path_str p) p (Dir (cwd w))), w)
  end.

(** The names that match the pattern "frame_*.png". *)
Definition matches_frame_png (nm : string) : bool :=
  String.prefix "frame_" nm && endswith nm ".png"
  && (String.length "frame_.png" <=? String.length nm)%nat.

(** [folder.glob("frame_*.png")] *)
Definition glob_frames (folder : path) : M world (list path) := fun w =>
  match resolve folder (Dir (cwd w)) with
  | Some (Dir es) =>
      (Returned (map (fun e => folder ++ [fst e])
                   (List.filter (fun e => matches_frame_png (fst e)) es)), w)
  | _ => (Returned [], w)
  end.

(** The order of paths: that of their parts, read as strings. *)
Fixpoint path_leb (p q : path) : bool :=
  match p, q with
  | [], _ => true
  | _ :: _, [] => false
  | a :: p', b :: q' =>
      match String.compare a b with
      | Lt => true
      | Gt => false
      | Eq => path_leb p' q'
      end
  end.

(** [sorted(paths)] *)
Definition sorted (ps : list path) : list path := merge_sort path_leb ps.

(** [Image.open(p)].  The texts name the path as the program gives it;
    releases of Pillow that resolve the path first name it from the root of
    the file system. *)
Definition Image_open (B : builtins) (p : path) : M world PIL.image := fun w =>
  match resolve p (Dir (cwd w)) with
  | Some (File (ImageFile im)) => (Returned im, w)
  | Some (File (Bytes _)) =>
      (Raised (OSError ("cannot identify image file "
                          +:+ repr_str B (path_str p))), w)
  | Some (Dir _) => (Raised (os_error B 21 "Is a directory" (path_str p)), w)
  | None => (Raised (lookup_error B (path_str p) p (Dir (cwd w))), w)
  end.

(** [p.mkdir(parents=True, exist_ok=True)], inside the directory [es]; the
    error names the whole path, [full]. *)
Fixpoint mkdir_parents (B : builtins) (full : string) (p : path)
    (es : list (string * node)) : outcome (list (string * node)) :=
  match p with
  | [] => Returned es
  | part :: p' =>
      match lookup_entry part es with
      | None =>
          sub ← mkdir_parents B full p' [];
          Returned (set_entry part (Dir sub) es)
      | Some (Dir sub) =>
          sub' ← mkdir_parents B full p' sub;
          Returned (set_entry part (Dir sub') es)
      | Some (File _) =>
          Raised (match p' with
                  | [] => os_error B 17 "File exists" full
                  | _ :: _ => os_error B 20 "Not a directory" full
                  end)
      end
  end.

(** Writing the file [f] at the path [p], inside the directory [es]; the
    error names the whole path, [full]. *)
Fixpoint write_file (B : builtins) (full : string) (p : path) (f : file)
    (es : list (string * node)) : outcome (list (string * node)) :=
  match p with
  | [] => Raised (os_error B 21 "Is a directory" full)
  | [nm] =>
      match lookup_entry nm es with
      | Some (Dir _) => Raised (os_error B 21 "Is a directory" full)
      | _ => Returned (set_entry nm (File f) es)
      end
  | part :: p' =>
      match lookup_entry part es with
      | Some (Dir sub) =>
          sub' ← write_file B full p' f sub;
          Returned (set_entry part (Dir sub') es)
      | Some (File _) => Raised (os_error B 20 "Not a directory" full)
      | None => Raised (os_error B 2 "No such file or directory" full)
      end
  end.

Definition mkdir (B : builtins) (p : path) : M world unit := fun w =>
  match mkdir_parents B (path_str p) p (cwd w) with
  | Returned es => (Returned tt, mkWorld es (stdout w))
  | Raised e => (Raised e, w)
  | OutOfFuel => (OutOfFuel, w)
  end.

(** [im.save(p)] for a path that ends in ".png" *)
Definition save (B : builtins) (im : PIL.image) (p : path) : M world unit := fun w =>
  match write_file B (path_str p) p (ImageFile im) (cwd w) with
  | Returned es => (Returned tt, mkWorld es (stdout w))
  | Raised e => (Raised e, w)
  | OutOfFuel => (OutOfFuel, w)
  end.

(** *** Configurable parameters and paths *)

Definition FRAME_SIZE : Z := 128.
Definition BACKGROUND_COLOR : PIL.pixel := [255; 255; 255].   (* white *)

Definition INPUT_DIR : path := ["output"; "sprite_frames"]%string.
Definition OUTPUT_FILE : path := ["output"; "spritesheet.png"]%string.

(** *** [resize_with_padding] *)

(** [int(side * scale)] for [scale = min(target_size / img_width,
    target_size / img_height)] *)
Definition scaled_size (img_width img_height target_size : Z)
  : outcome (Z * Z) :=
  sx ← Float.int_truediv target_size img_width;
  sy ← Float.int_truediv target_size img_height;
  let scale := Float.min sx sy in
  new_width ← Float.int_mul img_width scale ≫= Float.to_int;
  new_height ← Float.int_mul img_height scale ≫= Float.to_int;
  Returned (new_width, new_height).

Definition resize_with_padding (K : PIL.kernels) (image : PIL.image)
    (target_size : Z) (bg_color : PIL.pixel) : outcome PIL.image :=
  (* Calculate scale to fit within target while maintaining aspect ratio *)
  let '(img_width, img_height) := PIL.size image in
  '(new_width, new_height) ← scaled_size img_width img_height target_size;
  (* Resize maintaining aspect ratio *)
  resized ← PIL.resize K image (new_width, new_height) PIL.LANCZOS;
  (* Create background and center the image *)
  bg ← PIL.new K PIL.RGBA (target_size, target_size) (bg_color ++ [255]);
  let x_offset := (target_size - new_width) / 2 in
  let y_offset := (target_size - new_height) / 2 in
  PIL.paste K bg resized (x_offset, y_offset)
    (if String.eqb (PIL.mode_name (PIL.im_mode resized)) "RGBA"
     then Some resized else None).

(** *** [main] *)

(** The body of the loading loop, on [animations] and [max_frames]. *)
Definition load_folder (acc : gmap string (list path) * Z) (folder : path)
  : M world (gmap string (list path) * Z) :=
  let '(animations, max_frames) := acc in
  found ← glob_frames folder;
  let frames := sorted found in
  _ ← print ("  " +:+ name folder +:+ ": "
               +:+ str_int (Z.of_nat (length frames)) +:+ " frames");
  mret (<[name folder := frames]> animations,
        Z.max max_frames (Z.of_nat (length frames))).

(** The loading loop: [animations] and [max_frames] after the folders. *)
Definition load_frames (animation_folders : list path)
  : M world (gmap string (list path) * Z) :=
  for_fold animation_folders ((∅ : gmap string (list path)), 0) load_folder.

(** The body of the inner loop up to the paste: the frame, resized and
    flattened to "RGB". *)
Definition prepare_frame (K : PIL.kernels) (B : builtins)
    (folder frame_path : path) : M world PIL.image :=
  (* Load frame *)
  frame ← Image_open B frame_path;
  (* Use aspect-ratio-preserving resize for hatching animation *)
  frame_resized ←
    lift (if String.eqb (name folder) "hatching"
          then resize_with_padding K frame FRAME_SIZE BACKGROUND_COLOR
          else PIL.resize K frame (FRAME_SIZE, FRAME_SIZE) PIL.LANCZOS);
  (* Convert to RGB if necessary (handles RGBA) *)
  if String.eqb (PIL.mode_name (PIL.im_mode frame_resized)) "RGBA" then
    (* Create white background and paste with alpha *)
    bg ← lift (PIL.new K PIL.RGB (FRAME_SIZE, FRAME_SIZE) BACKGROUND_COLOR);
    alpha ← lift (PIL.split_band frame_resized 3);
    lift (PIL.paste K bg frame_resized (0, 0) (Some alpha))
  else if negb (String.eqb (PIL.mode_name (PIL.im_mode frame_resized)) "RGB") then
    mret (PIL.convert K frame_resized PIL.RGB)
  else
    mret frame_resized.

(** The pasting loops: the sheet after every frame of every folder. *)
Definition paste_frames (K : PIL.kernels) (B : builtins)
    (animation_folders : list path)
    (animations : gmap string (list path)) (spritesheet : PIL.image)
  : M world PIL.image :=
  for_fold (enumerate animation_folders) spritesheet
    (fun spritesheet '(row, folder) =>
       frames ← match animations !! name folder with
                | Some frames => mret frames
                | None => raise (KeyError (name folder))
                end;
       for_fold (enumerate frames) spritesheet
         (fun spritesheet '(col, frame_path) =>
            frame_resized ← prepare_frame K B folder frame_path;
            (* Calculate position and paste *)
            let x := col * FRAME_SIZE in
            let y := row * FRAME_SIZE in
            lift (PIL.paste K spritesheet frame_resized (x, y) None))).

Definition main (K : PIL.kernels) (B : builtins) : M world unit :=
  (* Get animation folders sorted alphabetically *)
  entries ← iterdir B INPUT_DIR;
  animation_folders ← (fun w => (Returned (sorted (List.filter (is_dir w) entries)), w));
  if bool_decide (animation_folders = []) then
    print ("No animation folders found in " +:+ path_str INPUT_DIR)
  else
    _ ← print ("Found " +:+ str_int (Z.of_nat (length animation_folders))
                 +:+ " animations: ["
                 +:+ join ", " (map (fun f => repr_str B (name f)) animation_folders)
                 +:+ "]");
    (* Load all frames and find max frame count *)
    '(animations, max_frames) ← load_frames animation_folders;
    if max_frames =? 0 then
      print "No frames found in any animation folder"
    else
      (* Create sprite sheet canvas *)
      let num_animations := Z.of_nat (length animation_folders) in
      let sheet_width := FRAME_SIZE * max_frames in
      let sheet_height := FRAME_SIZE * num_animations in
      _ ← print (nl +:+ "Creating sprite sheet: " +:+ str_int sheet_width +:+ "x"
                   +:+ str_int sheet_height +:+ " (" +:+ str_int max_frames
                   +:+ " columns x " +:+ str_int num_animations +:+ " rows)");
      spritesheet ← lift (PIL.new K PIL.RGB (sheet_width, sheet_height)
                            BACKGROUND_COLOR);
      (* Paste frames at calculated positions *)
      spritesheet ← paste_frames K B animation_folders animations spritesheet;
      (* Save sprite sheet *)
      _ ← mkdir B (parent OUTPUT_FILE);
      _ ← save B spritesheet OUTPUT_FILE;
      print (nl +:+ "Saved sprite sheet to " +:+ path_str OUTPUT_FILE).

End CreateSpritesheet.

(** ** Sample collaborators, for the examples

    A nearest-neighbour resampler, a band-shuffling colour conversion, a
    reader of plain decimal literals and a quoting [repr]. *)

Module Samples.
Import PIL.

Definition nearest (_ : resampling) (im : image) (sz : Z * Z) (x y : Z) : pixel :=
  getpixel im (x * width im / fst sz) (y * height im / snd sz).

Definition shuffle (im : image) (m : mode) (x y : Z) : pixel :=
  let p := getpixel im x y in
  let v := nth 0 p 0 in
  match im_mode im, m with
  | RGBA, RGB => firstn 3 p
  | RGB, RGBA => p ++ [255]
  | LA, RGB => [v; v; v]
  | LA, RGBA => [v; v; v; nth 1 p 0]
  | _, RGB => [v; v; v]
  | _, RGBA => [v; v; v; 255]
  | _, _ => repeat v (nbands m)
  end.

(** A fill for the other modes: the colour, cut or padded with zeros to
    the bands of the mode. *)
Definition plain (m : mode) (color : pixel) : outcome pixel :=
  Returned (firstn (nbands m) (color ++ repeat 0 (nbands m))).

Definition kernels : PIL.kernels := mkKernels nearest shuffle plain.

Definition digit (c : ascii) : option Z :=
  let n := Z.of_nat (nat_of_ascii c) - 48 in
  if (0 <=? n) && (n <=? 9) then Some n else None.

Fixpoint digits (acc : Z) (s : string) : option Z :=
  match s with
  | EmptyString => Some acc
  | String c s' => d ← digit c; digits (10 * acc + d) s'
  end.

Definition decimal (s : string) : outcome Z :=
  match s with
  | EmptyString => Raised (ValueError "invalid literal for int()")
  | _ => match digits 0 s with
         | Some n => Returned n
         | None => Raised (ValueError "invalid literal for int()")
         end
  end.

Definition quote (s : string) : string := "'" +:+ s +:+ "'".

Definition builtins : builtins := mkBuiltins decimal quote.

(** An image of one colour. *)
Definition solid (m : mode) (w h : Z) (color : pixel) : image :=
  mkImage m (w, h) (fun _ _ => color).

Definition no_refusals : os := mkOs (fun _ => None) (fun _ => None).

(** A directory of [n] frames, all the image [im]. *)
Definition frame_name (i : nat) : string :=
  "frame_" +:+ pretty (Z.of_nat i) +:+ ".png".

Definition frames (n : nat) (im : image) : CreateSpritesheet.node :=
  CreateSpritesheet.Dir
    (map (fun i => (frame_name i, CreateSpritesheet.File (ImageFile im))) (seq 0 n)).

Definition red : image := solid RGB 64 64 [200; 30; 30].
Definition glass : image := solid RGBA 64 64 [30; 30; 200; 128].

(** The scenario of the specification: "walk" with three frames and
    "idle" with two. *)
Definition walk_and_idle : CreateSpritesheet.world :=
  CreateSpritesheet.mkWorld
    [("output"%string,
      CreateSpritesheet.Dir
        [("sprite_frames"%string,
          CreateSpritesheet.Dir
            [("walk"%string, frames 3 red); ("idle"%string, frames 2 glass)])])]
    [].

(** One animation set, "hatching", with one frame of 300 by 2 pixels. *)
Definition thin_hatching : CreateSpritesheet.world :=
  CreateSpritesheet.mkWorld
    [("output"%string,
      CreateSpritesheet.Dir
        [("sprite_frames"%string,
          CreateSpritesheet.Dir
            [("hatching"%string, frames 1 (solid RGB 300 2 [200; 30; 30]))])])]
    [].

(** Animation sets without a frame, and no animation set at all. *)
Definition empty_sets : CreateSpritesheet.world :=
  CreateSpritesheet.mkWorld
    [("output"%string,
      CreateSpritesheet.Dir
        [("sprite_frames"%string,
          CreateSpritesheet.Dir
            [("walk"%string, frames 0 red); ("idle"%string, frames 0 red)])])]
    [].

Definition no_sets : CreateSpritesheet.world :=
  CreateSpritesheet.mkWorld
    [("output"%string,
      CreateSpritesheet.Dir [("sprite_frames"%string, CreateSpritesheet.Dir [])])]
    [].

Definition no_content : string -> string -> reply response :=
  fun _ _ => Fails "404 not found".

(** A service whose jobs stay in one status. *)
Definition stuck_in (st : string) : service :=
  mkService (fun video_id _ => Ok (mkJob video_id st None ErrNone)) no_content.

(** A job that is queued, then running, then completed. *)
Definition job_at (video_id : string) (n : nat) : job :=
  match n with
  | O => mkJob video_id "queued" (Some 0) ErrNone
  | 1%nat => mkJob video_id "running" (Some 50) ErrNone
  | _ => mkJob video_id "completed" (Some 100) ErrNone
  end.

Definition finishing : service :=
  mkService (fun video_id n => Ok (job_at video_id n)) no_content.

Definition fresh : Generate.world := Generate.mkWorld 0 [] [] ∅.

(** A world with one image file, "original.png". *)
Definition with_original (im : image) : Generate.world :=
  Generate.mkWorld 0 [] [] {[ "original.png"%string := ImageFile im ]}.

(** A service that has the thumbnail and the sprite sheet of a job, and
    not its video. *)
Definition thumbnail_bytes : list Byte.byte := repeat Byte.x2a 256.
Definition spritesheet_bytes : list Byte.byte := repeat Byte.x7f 1500.

Definition without_video : service :=
  mkService (fun video_id n => Ok (job_at video_id 2))
    (fun _ variant =>
       if String.eqb variant "video" then Fails "404 not found"
       else if String.eqb variant "thumbnail"
            then Ok (mkResponse (Ok thumbnail_bytes))
            else Ok (mkResponse (Ok spritesheet_bytes))).

End Samples.

(** ** Notions used in the statements *)

(** *** The job driver *)

(** A status that ends neither in success nor in failure. *)
Definition nonterminal (s : string) : Prop :=
  s <> ("completed"%string) /\ s <> ("failed"%string).

(** The world after a check that found the job not finished, and the sleep
    that follows it. *)
Definition after_check (poll_interval : Z) (j : job) (elapsed : Z)
    (w : Generate.world) : Generate.world :=
  Generate.mkWorld (S (Generate.checks w)) (Generate.slept w ++ [poll_interval])
    (Generate.stdout w
       ++ ["  [" +:+ rjust 4 (str_int elapsed) +:+ "s] Status: "
             +:+ status j +:+ ", Progress: " +:+ Generate.progress_str j])
    (Generate.files w).

(** The number of checks that fit before the bound: the least [n] with
    [timeout <= n * poll_interval]. *)
Definition checks_before_timeout (poll_interval timeout : Z) : nat :=
  Z.to_nat ((timeout + poll_interval - 1) / poll_interval).

(** The job is found not finished at every check made before the bound:
    the [k]-th check of the poll is made after [k * poll_interval] seconds. *)
Definition never_finished (S : service) (video_id : string)
    (poll_interval timeout : Z) (w : Generate.world) : Prop :=
  forall k : nat, Z.of_nat k * poll_interval < timeout ->
    exists j, retrieve S video_id (Generate.checks w + k) = Ok j
              /\ nonterminal (status j).



(** *** The artifact downloader *)

(** What fetching one variant for [generate.py] comes to: the bytes to
    write, or the first error among the request, the reading of the
    response and the opening of the file. *)
Definition attempt (S : service) (O : os) (video_id variant filepath : string)
  : outcome (list Byte.byte) :=
  match download_content S video_id variant with
  | Fails msg => Raised (APIError msg)
  | Ok resp =>
      match read resp with
      | Fails msg => Raised (APIError msg)
      | Ok data =>
          match open_wb_error O filepath with
          | Some msg => Raised (OSError msg)
          | None => Returned data
          end
      end
  end.

(** What the loop of [generate.py] leaves for one variant: the file with
    the bytes, or the file as it was and a line that reports the error. *)
Definition variant_settled (S : service) (O : os) (video_id : string)
    (item : string * string) (before after : option file) (out : list string)
  : Prop :=
  match attempt S O video_id (fst item) (snd item) with
  | Returned data => after = Some (Bytes data)
  | Raised e =>
      after = before
      /\ In ("    Skipped " +:+ fst item +:+ ": " +:+ exn_str e) out
  | OutOfFuel => False
  end.

(** The same for [download_video.py], which opens the file before it reads
    the response. *)
Definition script_settled (S : service) (O : os) (video_id variant : string)
    (before after : option file) (out : list string) : Prop :=
  match download_content S video_id variant with
  | Fails msg => after = before /\ In ("  Failed: " +:+ msg) out
  | Ok resp =>
      match open_wb_error O (DownloadVideo.filepath_of video_id variant) with
      | Some msg => after = before /\ In ("  Failed: " +:+ msg) out
      | None =>
          match read resp with
          | Fails msg => after = Some (Bytes []) /\ In ("  Failed: " +:+ msg) out
          | Ok data => after = Some (Bytes data)
          end
      end
  end.

(** The returned mapping holds the entries that were written and no
    other. *)
Definition successes_only (S : service) (O : os) (video_id prompt_name : string)
    (returned : list (string * string)) : Prop :=
  forall variant filepath,
    In (variant, filepath) returned
    <-> In (variant, filepath) (Generate.variants_of prompt_name video_id)
        /\ is_Returned (attempt S O video_id variant filepath).

(** The returned mapping has all three variants, and the entry of a variant
    that failed is marked: it is not the plain entry of a success. *)
Definition failures_flagged (S : service) (O : os) (video_id prompt_name : string)
    (returned : list (string * string)) : Prop :=
  map fst returned = map fst (Generate.variants_of prompt_name video_id)
  /\ forall variant filepath,
       In (variant, filepath) (Generate.variants_of prompt_name video_id) ->
       (is_Returned (attempt S O video_id variant filepath) ->
        In (variant, filepath) returned)
       /\ (~ is_Returned (attempt S O video_id variant filepath) ->
           ~ In (variant, filepath) returned).

Definition returns_what_was_written (S : service) (O : os)
    (video_id prompt_name : string) (w : Generate.world) : Prop :=
  exists returned w',
    Generate.download_outputs S O video_id prompt_name w = (Returned returned, w')
    /\ (successes_only S O video_id prompt_name returned
        \/ failures_flagged S O video_id prompt_name returned).

(** *** The image transforms *)

(** The reference image prepared from the file at [image_path] has exactly
    the requested size. *)
Definition has_requested_size (K : PIL.kernels) (B : builtins)
    (image_path target_size : string) (w : Generate.world) : Prop :=
  forall img width height,
    Generate.files w !! image_path = Some (ImageFile img) ->
    Generate.parse_size B target_size = Returned (width, height) ->
    exists out w',
      Generate.resize_image_to_match K B image_path target_size w
      = (Returned (PIL.PNG out), w')
      /\ PIL.size out = (width, height).

(** The reference image prepared from the file at [image_path] carries no
    alpha channel when the source has one. *)
Definition flattens_alpha (K : PIL.kernels) (B : builtins)
    (image_path target_size : string) (w : Generate.world) : Prop :=
  forall img,
    Generate.files w !! image_path = Some (ImageFile img) ->
    PIL.has_alpha (PIL.im_mode img) = true ->
    exists out w',
      Generate.resize_image_to_match K B image_path target_size w
      = (Returned (PIL.PNG out), w')
      /\ PIL.has_alpha (PIL.im_mode out) = false.

(** *** The sprite-sheet composer *)

(** The animation sets of the input: the sub-directories of [INPUT_DIR], in
    order. *)
Definition animation_folders (w : CreateSpritesheet.world)
  : list CreateSpritesheet.path :=
  match CreateSpritesheet.resolve CreateSpritesheet.INPUT_DIR
          (CreateSpritesheet.Dir (CreateSpritesheet.cwd w)) with
  | Some (CreateSpritesheet.Dir es) =>
      CreateSpritesheet.sorted
        (List.filter (CreateSpritesheet.is_dir w)
           (map (fun e => CreateSpritesheet.INPUT_DIR ++ [fst e]) es))
  | _ => []
  end.

(** The frames of one animation set, in order. *)
Definition frames_of (w : CreateSpritesheet.world)
    (folder : CreateSpritesheet.path) : list CreateSpritesheet.path :=
  match CreateSpritesheet.resolve folder
          (CreateSpritesheet.Dir (CreateSpritesheet.cwd w)) with
  | Some (CreateSpritesheet.Dir es) =>
      CreateSpritesheet.sorted
        (map (fun e => folder ++ [fst e])
           (List.filter (fun e => CreateSpritesheet.matches_frame_png (fst e)) es))
  | _ => []
  end.

(** The largest frame count over the animation sets. *)
Definition max_frame_count (w : CreateSpritesheet.world) : Z :=
  foldr Z.max 0
    (map (fun folder => Z.of_nat (length (frames_of w folder)))
       (animation_folders w)).

(** The dictionary and the maximum that the loading loop builds from
    [animations] and [max_frames]. *)
Definition loaded_frames (w : CreateSpritesheet.world)
    (folders : list CreateSpritesheet.path)
    (animations : gmap string (list CreateSpritesheet.path))
  : gmap string (list CreateSpritesheet.path) :=
  fold_left (fun a folder => <[CreateSpritesheet.name folder := frames_of w folder]> a)
    folders animations.

Definition loaded_max (w : CreateSpritesheet.world)
    (folders : list CreateSpritesheet.path) (max_frames : Z) : Z :=
  fold_left (fun m folder => Z.max m (Z.of_nat (length (frames_of w folder))))
    folders max_frames.

(** What preparing a frame comes to, given the directory tree. *)
Definition prepared (K : PIL.kernels) (B : builtins)
    (tree : list (string * CreateSpritesheet.node))
    (folder frame_path : CreateSpritesheet.path) : outcome PIL.image :=
  fst (CreateSpritesheet.prepare_frame K B folder frame_path
         (CreateSpritesheet.mkWorld tree [])).

(** What is found at the path of the output file. *)
Definition output_file (w : CreateSpritesheet.world)
  : option CreateSpritesheet.node :=
  CreateSpritesheet.resolve CreateSpritesheet.OUTPUT_FILE
    (CreateSpritesheet.Dir (CreateSpritesheet.cwd w)).

(** The letterbox claim for one image: a square result, the long edge of
    the content on the edge of the canvas and the content centred, the two
    paddings of an axis differing by one pixel at most. *)
Definition letterboxed (K : PIL.kernels) (image : PIL.image) (target_size : Z)
    (bg_color : PIL.pixel) : Prop :=
  exists out new_width new_height,
    CreateSpritesheet.resize_with_padding K image target_size bg_color
    = Returned out
    /\ CreateSpritesheet.scaled_size (PIL.width image) (PIL.height image)
         target_size = Returned (new_width, new_height)
    /\ PIL.size out = (target_size, target_size)
    /\ Z.max new_width new_height = target_size
    /\ let left := (target_size - new_width) / 2 in
       let top := (target_size - new_height) / 2 in
       0 <= (target_size - new_width - left) - left <= 1
       /\ 0 <= (target_size - new_height - top) - top <= 1.

(** ** Further sample collaborators *)

Module MoreSamples.


(** A service that cannot be reached from the [n]-th check on. *)
Definition unreachable_after (n : nat) : service :=
  mkService
    (fun video_id k =>
       if (k <? n)%nat then Ok (mkJob video_id "running" (Some 10) ErrNone)
       else Fails "connection reset")
    Samples.no_content.

End MoreSamples.

(** ** Further notions used in the statements *)

(** [c in s], for a character *)
Fixpoint occurs (c : ascii) (s : string) : bool :=
  match s with
  | EmptyString => false
  | String d s' => Ascii.eqb d c || occurs c s'
  end.

(** What the pasting loops come to, given the directory tree. *)
Definition pasted (K : PIL.kernels) (B : builtins)
    (tree : list (string * CreateSpritesheet.node))
    (folders : list CreateSpritesheet.path)
    (animations : gmap string (list CreateSpritesheet.path))
    (spritesheet : PIL.image) : outcome PIL.image :=
  fst (CreateSpritesheet.paste_frames K B folders animations spritesheet
         (CreateSpritesheet.mkWorld tree [])).

(** The sheet [main] composes from a tree with frames: the canvas, then the
    pasting loops. *)
Definition sheet_of (K : PIL.kernels) (B : builtins)
    (w : CreateSpritesheet.world) : outcome PIL.image :=
  canvas ← PIL.new K PIL.RGB
             (CreateSpritesheet.FRAME_SIZE * max_frame_count w,
              CreateSpritesheet.FRAME_SIZE * Z.of_nat (length (animation_folders w)))
             CreateSpritesheet.BACKGROUND_COLOR;
  pasted K B (CreateSpritesheet.cwd w) (animation_folders w)
    (loaded_frames w (animation_folders w) ∅) canvas.

(** ** [generate.py]: the prompts, the submission and the script

    The part of [generate.py] around the functions above: the prompt
    presets, [get_client], [resolve_prompt], [create_video] and the body
    of [main] after the command line has been parsed. *)

Module GenerateRun.

(** The prompts, by preset name, in the order of the dictionary. *)
Definition PROMPT_PRESETS : list (string * string) :=
  [
    ("flying",
      "Animate this pixel art bird character flying with a smooth wing-flapping "
      +:+ "cycle. The bird flaps its wings up and down in a looping flight animation. "
      +:+ "Pure white #FFFFFF background. Flat 2D side view, perfectly orthographic. "
      +:+ "No rotation, no zoom, no camera movement, no perspective shift. "
      +:+ "The character stays the exact same size, scale, and position throughout "
      +:+ "every frame. No shadows, no gradients, no environmental elements. "
      +:+ "Pixel art style preserved exactly.");
    ("idle",
      "Animate this pixel art bird character with a visible breathing animation. "
      +:+ "The bird's chest and belly visibly expand and contract in a slow, rhythmic "
      +:+ "breathing motion. The body gently puffs up as it inhales, then deflates slightly "
      +:+ "as it exhales. Feathers subtly ruffle with each breath. "
      +:+ "Pure white #FFFFFF background. Flat 2D side view, perfectly orthographic. "
      +:+ "No rotation, no zoom, no camera movement. The character stays the exact same "
      +:+ "size and scale throughout. No shadows, no gradients, no environmental elements. "
      +:+ "Pixel art style preserved exactly.");
    ("walking",
      "Animate this pixel art bird character walking to the right with a cute "
      +:+ "bouncing walk cycle. The feet alternate in a stepping motion. "
      +:+ "Pure white #FFFFFF background. Flat 2D side view, perfectly orthographic. "
      +:+ "No rotation, no zoom, no camera movement. The character stays the exact same "
      +:+ "size and scale throughout. No shadows, no gradients, no environmental elements. "
      +:+ "Pixel art style preserved exactly.");
    ("pecking",
      "Animate this pixel art bird character pecking at the ground repeatedly. "
      +:+ "The bird leans forward and taps its beak down, then returns upright, in a loop. "
      +:+ "Pure white #FFFFFF background. Flat 2D side view, perfectly orthographic. "
      +:+ "No rotation, no zoom, no camera movement. The character stays the exact same "
      +:+ "size and scale throughout. No shadows, no gradients, no environmental elements. "
      +:+ "Pixel art style preserved exactly.");
    ("eating",
      "Animate this pixel art bird character eating. The bird opens and closes its beak "
      +:+ "in a chewing motion while small crumb particles fall from its beak. The bird looks "
      +:+ "content while munching. No actual food item shown, just the eating action with crumbs. "
      +:+ "Pure white #FFFFFF background. Flat 2D side view, perfectly orthographic. "
      +:+ "No rotation, no zoom, no camera movement. The character stays the exact same "
      +:+ "size and scale throughout. No shadows, no gradients, no environmental elements. "
      +:+ "Pixel art style preserved exactly.");
    ("surprised",
      "Animate this pixel art bird character reacting to being touched. The bird first "
      +:+ "jumps slightly with wide surprised eyes and ruffled feathers, then transitions into "
      +:+ "a happy expression with eyes closing contentedly and a slight wiggle of joy. "
      +:+ "The reaction goes from startled to pleased. "
      +:+ "Pure white #FFFFFF background. Flat 2D side view, perfectly orthographic. "
      +:+ "No rotation, no zoom, no camera movement. The character stays the exact same "
      +:+ "size and scale throughout. No shadows, no gradients, no environmental elements. "
      +:+ "Pixel art style preserved exactly.");
    ("hungry",
      "Animate this pixel art bird character looking hungry. The bird's belly visibly "
      +:+ "rumbles and shakes. The bird looks down at its stomach with a sad, longing expression. "
      +:+ "Small motion lines appear around the belly to show rumbling. The bird occasionally "
      +:+ "glances around hopefully looking for food. "
      +:+ "Pure white #FFFFFF background. Flat 2D side view, perfectly orthographic. "
      +:+ "No rotation, no zoom, no camera movement. The character stays the exact same "
      +:+ "size and scale throughout. No shadows, no gradients, no environmental elements. "
      +:+ "Pixel art style preserved exactly.");
    ("hatching",
      "Animate a pixel art egg slowly cracking and hatching into this bird character. "
      +:+ "The egg starts whole, then small cracks appear and spread across the shell. "
      +:+ "The egg wobbles and shakes as the bird inside pushes. Pieces of shell break off "
      +:+ "gradually until the bird emerges, looking around with fresh curious eyes. "
      +:+ "Pure white #FFFFFF background. Flat 2D side view, perfectly orthographic. "
      +:+ "No rotation, no zoom, no camera movement. The egg and bird stay the exact same "
      +:+ "size and scale throughout. No shadows, no gradients, no environmental elements. "
      +:+ "Pixel art style preserved exactly.")
  ]%string.

(** [d.get(k)] on a dictionary kept as the list of its items *)
Fixpoint dict_get {V : Type} (d : list (string * V)) (k : string) : option V :=
  match d with
  | [] => None
  | (k', v) :: d' => if String.eqb k' k then Some v else dict_get d' k
  end.

(** The keyword arguments of [client.videos.create]. *)
Record submission : Type := mkSubmission {
  sub_model : string;
  sub_input_reference : string * PIL.encoded * string;
  sub_prompt : string;
  sub_size : string;
  sub_seconds : Z;
}.

(** An [OpenAI] client: the video service it talks to, and what
    [videos.create] answers to a submission -- the id of the new job. *)
Record client : Type := mkClient {
  videos : service;
  videos_create : submission -> reply string;
}.

(** What the script finds around it: the API key in the environment once
    [load_dotenv()] has run, the client made for a key, the directories
    that exist, the text of a file ([read_text()], or its error) and
    [str.strip()]. *)
Record environment : Type := mkEnvironment {
  api_key : option string;
  OpenAI : string -> client;
  is_dir : string -> bool;
  read_text : file -> outcome string;
  strip : string -> string;
}.

(** The parsed command line: [args.prompt], [args.image], [args.model],
    [args.size] and [args.seconds]. *)
Record args : Type := mkArgs {
  args_prompt : string;
  args_image : string;
  args_model : string;
  args_size : string;
  args_seconds : Z;
}.

(** The world of the functions above, and the submissions made so far. *)
Record world : Type := mkWorld {
  base : Generate.world;
  submitted : list submission;
}.

(** A step of the functions above, in this world. *)
Definition on_base {A : Type} (m : M Generate.world A) : M world A := fun w =>
  let '(r, b) := m (base w) in (r, mkWorld b (submitted w)).

Definition print (line : string) : M world unit := on_base (Generate.print line).

(** [Path(p).exists()] *)
Definition path_exists (E : environment) (p : string) : M world bool := fun w =>
  (Returned (bool_decide (is_Some (Generate.files (base w) !! p)) || is_dir E p), w).

(** [Path(p).read_text()] *)
Definition path_read_text (B : builtins) (E : environment) (p : string)
  : M world string := fun w =>
  (match Generate.files (base w) !! p with
   | Some f => read_text E f
   | None =>
       if is_dir E p then Raised (os_error B 21 "Is a directory" p)
       else Raised (os_error B 2 "No such file or directory" p)
   end, w).

(** [client.videos.create(...)], and the [id] of the job it returns *)
Definition videos_create_id (c : client) (s : submission) : M world string := fun w =>
  (of_reply (videos_create c s), mkWorld (base w) (submitted w ++ [s])).

(** How the script ends when no exception escapes: at the end of [main],
    or in [sys.exit]. *)
Inductive ending : Type :=
| Finished
| Exit (code : Z).

(** [get_client]: the client, or [None] when the function has left through
    [sys.exit(1)]. *)
Definition get_client (E : environment) : M world (option client) :=
  match api_key E with
  | Some (String c key as api_key) => mret (Some (OpenAI E api_key))
  | _ =>
      _ ← print "Error: OPENAI_API_KEY not found.";
      _ ← print "Set it in a .env file (OPENAI_API_KEY=sk-...) or export it.";
      mret None
  end.

Definition resolve_prompt (B : builtins) (E : environment) (prompt_input : string)
  : M world string :=
  (* Check presets first *)
  match dict_get PROMPT_PRESETS prompt_input with
  | Some text =>
      _ ← print ("Using preset prompt: '" +:+ prompt_input +:+ "'");
      mret text
  | None =>
      (* Check if it's a file *)
      is_file ← (if endswith prompt_input ".txt" then path_exists E prompt_input
                 else mret false);
      if is_file : bool then
        _ ← print ("Loading prompt from file: " +:+ prompt_input);
        text ← path_read_text B E prompt_input;
        mret (strip E text)
      else
        (* Otherwise treat as raw prompt text *)
        _ ← print "Using custom prompt text.";
        mret prompt_input
  end.

(** [resize_image_to_match] where a path may name a directory: once the
    size is parsed, [Image.open] refuses a directory. *)
Definition resize_image_to_match (K : PIL.kernels) (B : builtins) (E : environment)
    (image_path target_size : string) : M world PIL.encoded := fun w =>
  if is_dir E image_path
     && bool_decide (Generate.files (base w) !! image_path = None)
  then (_ ← Generate.parse_size B target_size;
        Raised (os_error B 21 "Is a directory" image_path), w)
  else on_base (Generate.resize_image_to_match K B image_path target_size) w.

Definition create_video (K : PIL.kernels) (B : builtins) (E : environment)
    (c : client) (prompt image_path model size : string) (seconds : Z)
  : M world string :=
  image_buf ← resize_image_to_match K B E image_path size;
  _ ← print (nl +:+ "Submitting video generation job...");
  _ ← print ("  Model:    " +:+ model);
  _ ← print ("  Size:     " +:+ size);
  _ ← print ("  Duration: " +:+ str_int seconds +:+ "s");
  _ ← print ("  Image:    " +:+ image_path);
  _ ← print ("  Prompt:   " +:+ String.substring 0 80 prompt
               +:+ (if (80 <? String.length prompt)%nat then "..." else EmptyString));
  video_id ← videos_create_id c
               (mkSubmission model ("image.png"%string, image_buf, "image/png"%string)
                  prompt size seconds);
  _ ← print ("  Video ID: " +:+ video_id);
  mret video_id.

(** The defaults of [wait_for_completion]: [poll_interval] and [timeout]. *)
Definition DEFAULT_POLL_INTERVAL : Z := 10.
Definition DEFAULT_TIMEOUT : Z := 600.

(** [main], from the parsed command line on; [fuel] bounds the iterations
    of the polling loop. *)
Definition main (K : PIL.kernels) (B : builtins) (E : environment) (O : os)
    (a : args) (fuel : nat) : M world ending :=
  image_exists ← path_exists E (args_image a);
  if negb image_exists then
    _ ← print ("Error: Image file not found: " +:+ args_image a);
    mret (Exit 1)
  else
    prompt ← resolve_prompt B E (args_prompt a);
    (* Determine a short name for output files *)
    let prompt_name :=
      match dict_get PROMPT_PRESETS (args_prompt a) with
      | Some _ => args_prompt a
      | None => "custom"%string
      end in
    client ← get_client E;
    match client with
    | None => mret (Exit 1)
    | Some client =>
        video_id ← create_video K B E client prompt (args_image a) (args_model a)
                     (args_size a) (args_seconds a);
        _ ← on_base (Generate.wait_for_completion (videos client) video_id
                       DEFAULT_POLL_INTERVAL DEFAULT_TIMEOUT fuel);
        _ ← print (nl +:+ "Downloading outputs...");
        variants ← on_base (Generate.download_outputs (videos client) O video_id
                              prompt_name);
        _ ← print (nl +:+ "Done! Files saved to " +:+ Generate.OUTPUT_DIR +:+ "/");
        _ ← print ("  Sprite sheet: "
                     +:+ default "N/A"%string (dict_get variants "spritesheet"));
        mret Finished
    end.

End GenerateRun.

(** A client whose jobs are all called "video_1", and an environment with
    a key, no directory and files of plain text. *)
Module RunSamples.

Definition client_of (S : service) : GenerateRun.client :=
  GenerateRun.mkClient S (fun _ => Ok "video_1"%string).

Definition environment_of (S : service) : GenerateRun.environment :=
  GenerateRun.mkEnvironment (Some "sk-test"%string) (fun _ => client_of S)
    (fun _ => false)
    (fun f => match f with
              | Bytes data => Returned (string_of_list_byte data)
              | ImageFile _ => Raised (ValueError "invalid start byte")
              end)
    (fun s => s).

Definition idle_args : GenerateRun.args :=
  GenerateRun.mkArgs "idle" "original.png" "sora-2" "8x6" 4.

Definition start (im : PIL.image) : GenerateRun.world :=
  GenerateRun.mkWorld (Samples.with_original im) [].

End RunSamples.

(** The world [w] after the [lines] have been printed. *)
Definition says (w : GenerateRun.world) (lines : list string) : GenerateRun.world :=
  GenerateRun.mkWorld
    (Generate.mkWorld (Generate.checks (GenerateRun.base w))
       (Generate.slept (GenerateRun.base w))
       (Generate.stdout (GenerateRun.base w) ++ lines)
       (Generate.files (GenerateRun.base w)))
    (GenerateRun.submitted w).

(** The short name [main] gives the output files of a prompt. *)
Definition prompt_name_of (prompt_input : string) : string :=
  match GenerateRun.dict_get GenerateRun.PROMPT_PRESETS prompt_input with
  | Some _ => prompt_input
  | None => "custom"
  end.

(** * Properties *)

(** ** Strings *)

Lemma prefix_app (n b : string) : String.prefix n (n +:+ b) = true.
Proof.
  induction n as [|c n IH]; simpl; [destruct b; reflexivity|].
  destruct (ascii_dec c c); [exact IH | congruence].
Qed.

Lemma contains_here (n b : string) : contains n (n +:+ b) = true.
Proof.
  destruct n as [|c n]; simpl.
  - destruct b; simpl; reflexivity.
  - destruct (ascii_dec c c) as [_|Hne]; [|congruence].
    rewrite prefix_app. reflexivity.
Qed.

Lemma contains_later (n a h : string) :
  contains n h = true -> contains n (a +:+ h) = true.
Proof.
  intros H. induction a as [|c a IH]; simpl; [exact H|].
  rewrite IH. apply orb_true_r.
Qed.

Lemma contains_self (n : string) : contains n n = true.
Proof.
  assert (H : String.prefix n n = true).
  { induction n as [|c n IH]; simpl; [reflexivity|].
    destruct (ascii_dec c c); [exact IH | congruence]. }
  destruct n; cbn [contains]; rewrite H; reflexivity.
Qed.

Lemma contains_suffix (n a : string) : contains n (a +:+ n) = true.
Proof. apply contains_later, contains_self. Qed.

Lemma contains_infix (n a b : string) : contains n (a +:+ n +:+ b) = true.
Proof. apply contains_later, contains_here. Qed.

Lemma prefix_split (n h : string) :
  String.prefix n h = true -> exists b, h = n +:+ b.
Proof.
  revert h. induction n as [|c n IH]; intros h H; simpl in *.
  - exists h. reflexivity.
  - destruct h as [|d h]; simpl in H; [discriminate|].
    destruct (ascii_dec c d) as [Hcd|]; [|discriminate].
    subst d. destruct (IH _ H) as [b Hb]. exists b. rewrite Hb. reflexivity.
Qed.

(** [contains] decides the occurrence of [n] inside [h]. *)
Lemma contains_spec (n h : string) :
  contains n h = true <-> exists a b, h = a +:+ n +:+ b.
Proof.
  split.
  - induction h as [|c h IH]; cbn [contains]; intros H.
    + rewrite orb_false_r in H. destruct (prefix_split _ _ H) as [b Hb].
      exists EmptyString, b. exact Hb.
    + apply orb_true_iff in H as [H|H].
      * destruct (prefix_split _ _ H) as [b Hb]. exists EmptyString, b. exact Hb.
      * destruct (IH H) as (a & b & Hab). exists (String c a), b.
        rewrite Hab. reflexivity.
  - intros (a & b & Hab). rewrite Hab. apply contains_infix.
Qed.

(** ** The job driver *)

Section Driver.
Import Generate.
Context (S : service) (video_id : string) (poll_interval timeout : Z).

Lemma eqb_completed (s : string) :
  s <> ("completed"%string) -> String.eqb s "completed" = false.
Proof. intros H. apply String.eqb_neq. exact H. Qed.

Lemma eqb_failed (s : string) :
  s <> ("failed"%string) -> String.eqb s "failed" = false.
Proof. intros H. apply String.eqb_neq. exact H. Qed.

(** What [time.sleep] takes and what it refuses. *)
Lemma sleep_accepts (secs : Z) (w : world) :
  0 <= secs <= max_sleep ->
  sleep secs w
  = (Returned tt, mkWorld (checks w) (slept w ++ [secs]) (stdout w) (files w)).
Proof.
  intros H. unfold sleep.
  assert ((secs <? - max_sleep) = false) as ->
    by (apply Z.ltb_ge; unfold max_sleep in *; lia).
  assert ((max_sleep <? secs) = false) as -> by (apply Z.ltb_ge; lia).
  assert ((secs <? 0) = false) as -> by (apply Z.ltb_ge; lia).
  reflexivity.
Qed.


Lemma sleep_refuses (secs : Z) (w : world) :
  ~ 0 <= secs <= max_sleep ->
  exists e, sleep secs w = (Raised e, w) /\ forall m, e <> RuntimeError m.
Proof.
  intros H. unfold sleep.
  destruct ((secs <? - max_sleep) || (max_sleep <? secs)) eqn:Hrange.
  - eexists. split; [reflexivity|discriminate].
  - apply orb_false_iff in Hrange as [Hlow Hhigh].
    apply Z.ltb_ge in Hlow, Hhigh.
    assert ((secs <? 0) = true) as -> by (apply Z.ltb_lt; lia).
    eexists. split; [reflexivity|discriminate].
Qed.

(** One turn of the loop on a job that is not finished. *)
Lemma poll_continue fuel elapsed w j :
  elapsed < timeout ->
  0 <= poll_interval <= max_sleep ->
  retrieve S video_id (checks w) = Ok j ->
  nonterminal (status j) ->
  poll S video_id poll_interval timeout (Datatypes.S fuel) elapsed w
  = poll S video_id poll_interval timeout fuel (elapsed + poll_interval)
      (after_check poll_interval j elapsed w).
Proof.
  intros Hlt Hp Hj [Hc Hf].
  cbn [poll]. 
  assert ((elapsed <? timeout) = true) as -> by (apply Z.ltb_lt; lia).
  cbn [negb].
  unfold mbind, M_bind, videos_retrieve. rewrite Hj. cbn [of_reply].
  unfold print at 1. 
  rewrite (eqb_completed _ Hc), (eqb_failed _ Hf).
  rewrite (sleep_accepts poll_interval _ Hp). reflexivity.
Qed.

Lemma poll_timed_out fuel elapsed w :
  timeout <= elapsed ->
  poll S video_id poll_interval timeout fuel elapsed w
  = (Raised (RuntimeError (timeout_message timeout video_id)), w).
Proof.
  intros H. destruct fuel; cbn [poll];
    (assert ((elapsed <? timeout) = false) as -> by (apply Z.ltb_ge; lia));
    reflexivity.
Qed.

(** A job that is not finished at any of the [n] checks that fit before
    the bound: the loop makes exactly those checks, sleeps after each,
    and raises the timeout. *)
Lemma poll_runs_out (n : nat) : forall fuel elapsed w,
  (n <= fuel)%nat ->
  0 <= poll_interval <= max_sleep ->
  (forall k : nat, (k < n)%nat -> elapsed + Z.of_nat k * poll_interval < timeout) ->
  timeout <= elapsed + Z.of_nat n * poll_interval ->
  (forall k : nat, (k < n)%nat ->
     exists j, retrieve S video_id (checks w + k) = Ok j /\ nonterminal (status j)) ->
  exists w',
    poll S video_id poll_interval timeout fuel elapsed w
    = (Raised (RuntimeError (timeout_message timeout video_id)), w')
    /\ checks w' = (checks w + n)%nat
    /\ slept w' = slept w ++ repeat poll_interval n
    /\ files w' = files w.
Proof.
  induction n as [|n IH]; intros fuel elapsed w Hfuel Hp Hlt Hge Hjobs.
  - exists w. rewrite poll_timed_out by lia.
    rewrite Nat.add_0_r, app_nil_r. auto.
  - destruct fuel as [|fuel]; [lia|].
    destruct (Hjobs 0%nat ltac:(lia)) as (j & Hj & Hnt).
    rewrite Nat.add_0_r in Hj.
    rewrite (poll_continue fuel elapsed w j); auto.
    2:{ specialize (Hlt 0%nat ltac:(lia)). lia. }
    destruct (IH fuel (elapsed + poll_interval) (after_check poll_interval j elapsed w))
      as (w' & Hrun & Hc & Hs & Hf); auto.
    + lia.
    + intros k Hk. specialize (Hlt (Datatypes.S k) ltac:(lia)). lia.
    + lia.
    + intros k Hk. destruct (Hjobs (Datatypes.S k) ltac:(lia)) as (j' & Hj' & Hnt').
      exists j'. split; [|exact Hnt'].
      cbn [after_check checks]. rewrite <- Hj'. f_equal. lia.
    + exists w'. split; [exact Hrun|]. cbn [after_check checks slept files] in *.
      split; [lia|]. split; [|exact Hf].
      rewrite Hs, <- app_assoc. reflexivity.
Qed.

Lemma time_slept_app (w : world) (l : list Z) (w' : world) :
  slept w' = slept w ++ l ->
  time_slept w' = time_slept w + foldr Z.add 0 l.
Proof.
  unfold time_slept. intros ->. induction (slept w) as [|x xs IH]; simpl; lia.
Qed.

Lemma sum_repeat (x : Z) (n : nat) : foldr Z.add 0 (repeat x n) = Z.of_nat n * x.
Proof. induction n as [|n IH]; [reflexivity|]. cbn [repeat foldr]. lia. Qed.

Lemma checks_before_timeout_spec :
  0 < poll_interval ->
  (forall k : nat, (k < checks_before_timeout poll_interval timeout)%nat ->
     Z.of_nat k * poll_interval < timeout)
  /\ timeout <= Z.of_nat (checks_before_timeout poll_interval timeout) * poll_interval
  /\ (0 < timeout -> Z.of_nat (checks_before_timeout poll_interval timeout) * poll_interval < timeout + poll_interval).
Proof.
  intros Hp. unfold checks_before_timeout.
  set (q := (timeout + poll_interval - 1) / poll_interval).
  assert (Hq1 : poll_interval * q <= timeout + poll_interval - 1)
    by (apply Z.mul_div_le; lia).
  assert (Hq2 : timeout + poll_interval - 1 < poll_interval * Z.succ q)
    by (apply Z.mul_succ_div_gt; lia).
  destruct (Z_lt_le_dec q 0) as [Hneg|Hpos].
  - replace (Z.to_nat q) with 0%nat by lia.
    split; [intros k Hk; lia|]. split; nia.
  - rewrite Z2Nat.id by lia. split; [|split; nia].
    intros k Hk. assert (Z.of_nat k + 1 <= q) by lia. nia.
Qed.


Lemma poll_no_fuel elapsed w :
  elapsed < timeout ->
  poll S video_id poll_interval timeout 0 elapsed w = (OutOfFuel, w).
Proof.
  intros H. cbn [poll].
  assert ((elapsed <? timeout) = true) as -> by (apply Z.ltb_lt; lia).
  reflexivity.
Qed.

(** One turn of the loop on a job that is "completed". *)
Lemma poll_completed fuel elapsed w j :
  elapsed < timeout ->
  retrieve S video_id (checks w) = Ok j ->
  status j = "completed"%string ->
  exists w',
    poll S video_id poll_interval timeout (Datatypes.S fuel) elapsed w
    = (Returned j, w')
    /\ checks w' = Datatypes.S (checks w) /\ slept w' = slept w
    /\ files w' = files w.
Proof.
  intros Hlt Hj Hc. cbn [poll].
  assert ((elapsed <? timeout) = true) as -> by (apply Z.ltb_lt; lia).
  cbn [negb]. unfold mbind, M_bind, videos_retrieve. rewrite Hj. cbn [of_reply].
  unfold print at 1. rewrite Hc. cbn [String.eqb Ascii.eqb Bool.eqb].
  eexists. split; [reflexivity|]. cbn. auto.
Qed.


(** The same for any interval [time.sleep] does not take: the poll ends in
    the error of the sleep, after one check. *)
Lemma poll_sleep_raises fuel elapsed w j :
  elapsed < timeout ->
  ~ 0 <= poll_interval <= max_sleep ->
  retrieve S video_id (checks w) = Ok j ->
  nonterminal (status j) ->
  exists e w',
    poll S video_id poll_interval timeout (Datatypes.S fuel) elapsed w
    = (Raised e, w')
    /\ (forall m, e <> RuntimeError m)
    /\ checks w' = Datatypes.S (checks w) /\ slept w' = slept w
    /\ files w' = files w.
Proof.
  intros Hlt Hp Hj [Hc Hf]. cbn [poll].
  assert ((elapsed <? timeout) = true) as -> by (apply Z.ltb_lt; lia).
  cbn [negb]. unfold mbind, M_bind, videos_retrieve. rewrite Hj. cbn [of_reply].
  unfold print at 1. rewrite (eqb_completed _ Hc), (eqb_failed _ Hf).
  destruct (sleep_refuses poll_interval
              (mkWorld (Datatypes.S (checks w)) (slept w)
                 (stdout w
                    ++ ["  [" +:+ rjust 4 (str_int elapsed) +:+ "s] Status: "
                          +:+ status j +:+ ", Progress: " +:+ progress_str j])
                 (files w)) Hp) as (e & Hsleep & He).
  cbn [checks slept stdout files] in *. rewrite Hsleep.
  exists e. eexists. split; [reflexivity|]. split; [exact He|]. cbn. auto.
Qed.

End Driver.

Lemma queued_nonterminal : nonterminal "queued".
Proof. split; discriminate. Qed.

Lemma running_nonterminal : nonterminal "running".
Proof. split; discriminate. Qed.

(** The three-check scenario when the bound leaves room for the third
    check: two sleeps, then the completed record. *)
Lemma three_checks_return (S : service) (video_id : string)
    (poll_interval timeout : Z) (fuel : nat) (w : Generate.world) (j1 j2 j3 : job) :
  retrieve S video_id (Generate.checks w) = Ok j1 -> status j1 = "queued"%string ->
  retrieve S video_id (Generate.checks w + 1) = Ok j2 -> status j2 = "running"%string ->
  retrieve S video_id (Generate.checks w + 2) = Ok j3 -> status j3 = "completed"%string ->
  0 <= poll_interval <= Generate.max_sleep ->
  2 * poll_interval < timeout -> (3 <= fuel)%nat ->
  exists w',
    Generate.wait_for_completion S video_id poll_interval timeout fuel w
    = (Returned j3, w')
    /\ Generate.checks w' = (Generate.checks w + 3)%nat
    /\ Generate.slept w' = Generate.slept w ++ [poll_interval; poll_interval].
Proof.
  intros H1 S1 H2 S2 H3 S3 Hp Ht Hfuel.
  destruct fuel as [|[|[|fuel]]]; try lia.
  unfold Generate.wait_for_completion, mbind, M_bind, Generate.print at 1.
  set (w0 := Generate.mkWorld _ _ _ _).
  rewrite (poll_continue S video_id poll_interval timeout _ 0 w0 j1);
    [|lia|lia|exact H1|rewrite S1; exact queued_nonterminal].
  rewrite (poll_continue S video_id poll_interval timeout _ _ _ j2);
    [|lia|lia| |rewrite S2; exact running_nonterminal].
  2:{ cbn. rewrite <- H2. f_equal. lia. }
  edestruct (poll_completed S video_id poll_interval timeout fuel
               (0 + poll_interval + poll_interval)
               (after_check poll_interval j2 (0 + poll_interval)
                  (after_check poll_interval j1 0 w0)) j3)
    as (w' & Hrun & Hc & Hs & _); [lia| |exact S3|].
  { cbn. rewrite <- H3. f_equal. lia. }
  exists w'. split; [exact Hrun|]. rewrite Hc, Hs. cbn.
  split; [lia|]. rewrite <- app_assoc. reflexivity.
Qed.

(** C1. A poll whose first check finds the job "queued", whose second
    check finds it "running" and whose third check finds it "completed"
    returns the completed record of that third check, having slept exactly
    twice, each time for [poll_interval]. *)
Theorem poll_queued_running_completed (S : service) (video_id : string)
    (poll_interval timeout : Z) (fuel : nat) (w : Generate.world) (j1 j2 j3 : job) :
  retrieve S video_id (Generate.checks w) = Ok j1 -> status j1 = "queued"%string ->
  retrieve S video_id (Generate.checks w + 1) = Ok j2 -> status j2 = "running"%string ->
  retrieve S video_id (Generate.checks w + 2) = Ok j3 -> status j3 = "completed"%string ->
  let run := Generate.wait_for_completion S video_id poll_interval timeout fuel w in
  (* the poll gets to its third check *)
  Generate.checks (snd run) = (Generate.checks w + 3)%nat ->
  fst run = Returned j3
  /\ Generate.slept (snd run) = Generate.slept w ++ [poll_interval; poll_interval].
Proof.
  intros H1 S1 H2 S2 H3 S3 run Hthird.
  assert (Hnt1 : nonterminal (status j1)) by (rewrite S1; exact queued_nonterminal).
  assert (Hnt2 : nonterminal (status j2)) by (rewrite S2; exact running_nonterminal).
  destruct (decide (0 <= poll_interval <= Generate.max_sleep)) as [Hp|Hrefused];
    [destruct (Z_lt_le_dec (2 * poll_interval) timeout) as [Ht|Ht];
      [destruct (le_lt_dec 3 fuel) as [Hfuel|Hfuel]|]|].
  4:{ (* the first sleep is refused, or no check is made at all *)
    exfalso. subst run. revert Hthird.
    unfold Generate.wait_for_completion, mbind, M_bind, Generate.print at 1.
    set (w0 := Generate.mkWorld _ _ _ _).
    destruct (Z_lt_le_dec 0 timeout) as [Hpos|Hnpos].
    + destruct fuel as [|fuel].
      * rewrite poll_no_fuel by lia. cbn. lia.
      * destruct (poll_sleep_raises S video_id poll_interval timeout fuel 0 w0 j1)
          as (e & w' & -> & _ & Hc & _); auto. cbn [snd]. rewrite Hc. cbn. lia.
    + rewrite poll_timed_out by lia. cbn. lia. }
  - destruct (three_checks_return S video_id poll_interval timeout fuel w j1 j2 j3)
      as (w' & Hrun & _ & Hs); auto.
    subst run. rewrite Hrun. auto.
  - (* the fuel stops the loop before the third check *)
    exfalso. subst run. revert Hthird.
    unfold Generate.wait_for_completion, mbind, M_bind, Generate.print at 1.
    set (w0 := Generate.mkWorld _ _ _ _).
    destruct fuel as [|fuel]; [rewrite poll_no_fuel by lia; cbn; lia|].
    rewrite (poll_continue S video_id poll_interval timeout _ 0 w0 j1);
      [|lia|lia|exact H1|exact Hnt1].
    destruct fuel as [|fuel]; [rewrite poll_no_fuel by lia; cbn; lia|].
    rewrite (poll_continue S video_id poll_interval timeout _ _ _ j2);
      [|lia|lia| |exact Hnt2].
    2:{ cbn. rewrite <- H2. f_equal. lia. }
    destruct fuel as [|fuel]; [|lia].
    rewrite poll_no_fuel by lia. cbn. lia.
  - (* the bound is reached before the third check *)
    exfalso. subst run. revert Hthird.
    unfold Generate.wait_for_completion, mbind, M_bind, Generate.print at 1.
    set (w0 := Generate.mkWorld _ _ _ _).
    destruct (Z_lt_le_dec 0 timeout) as [Hpos|Hnpos];
      [|rewrite poll_timed_out by lia; cbn; lia].
    destruct fuel as [|fuel]; [rewrite poll_no_fuel by lia; cbn; lia|].
    rewrite (poll_continue S video_id poll_interval timeout _ 0 w0 j1);
      [|lia|lia|exact H1|exact Hnt1].
    destruct (Z_lt_le_dec poll_interval timeout) as [Hpt|Hpt];
      [|rewrite poll_timed_out by lia; cbn; lia].
    destruct fuel as [|fuel]; [rewrite poll_no_fuel by lia; cbn; lia|].
    rewrite (poll_continue S video_id poll_interval timeout _ _ _ j2);
      [|lia|lia| |exact Hnt2].
    2:{ cbn. rewrite <- H2. f_equal. lia. }
    rewrite poll_timed_out by lia. cbn. lia.
Qed.

Lemma poll_queued_running_completed_witness :
  let run := Generate.wait_for_completion Samples.finishing "video_1" 10 600 3
               Samples.fresh in
  Generate.checks (snd run) = 3%nat
  /\ fst run = Returned (Samples.job_at "video_1" 2)
  /\ Generate.slept (snd run) = [10; 10].
Proof.
  split; [vm_compute; reflexivity|].
  apply (poll_queued_running_completed Samples.finishing "video_1" 10 600 3
           Samples.fresh (Samples.job_at "video_1" 0) (Samples.job_at "video_1" 1)
           (Samples.job_at "video_1" 2));
    vm_compute; reflexivity.
Defined.

(** A job that is never found finished: once the fuel covers the checks
    that fit before the bound, the poll raises the timeout, having slept
    after each of those checks. *)
Lemma wait_times_out (S : service) (video_id : string)
    (poll_interval timeout : Z) (w : Generate.world) (fuel : nat) :
  0 < poll_interval <= Generate.max_sleep ->
  never_finished S video_id poll_interval timeout w ->
  (checks_before_timeout poll_interval timeout <= fuel)%nat ->
  exists w',
    Generate.wait_for_completion S video_id poll_interval timeout fuel w
    = (Raised (RuntimeError (Generate.timeout_message timeout video_id)), w')
    /\ Generate.checks w'
       = (Generate.checks w + checks_before_timeout poll_interval timeout)%nat
    /\ Generate.slept w'
       = Generate.slept w
           ++ repeat poll_interval (checks_before_timeout poll_interval timeout).
Proof.
  intros Hp Hnever Hfuel.
  destruct (checks_before_timeout_spec poll_interval timeout (proj1 Hp))
    as (Hlt & Hge & _).
  unfold Generate.wait_for_completion, mbind, M_bind, Generate.print at 1.
  set (w0 := Generate.mkWorld _ _ _ _).
  assert (Hjobs : forall k : nat,
             (k < checks_before_timeout poll_interval timeout)%nat ->
             exists j, retrieve S video_id (Generate.checks w0 + k) = Ok j
                       /\ nonterminal (status j)).
  { intros k Hk. apply (Hnever k), Hlt, Hk. }
  destruct (poll_runs_out S video_id poll_interval timeout
              (checks_before_timeout poll_interval timeout) fuel 0 w0
              Hfuel ltac:(lia) Hlt Hge Hjobs)
    as (w' & Hrun & Hc & Hs & _).
  exists w'. auto.
Qed.









(** ** The artifact downloader *)

Section Loop.
Import Generate.
Context {A : Type} (key : A -> string) (body : A -> M world unit).
(** what one item is owed, in terms of its own file before and after and
    of the lines printed so far *)
Context (Q : A -> option file -> option file -> list string -> Prop).

Hypothesis Q_more_output : forall x before after out more,
  Q x before after out -> Q x before after (out ++ more).

(** Every turn returns, touches no file but its own, only adds output. *)
Hypothesis body_local : forall x w,
  exists w',
    body x w = (Returned tt, w')
    /\ (forall g, g <> key x -> files w' !! g = files w !! g)
    /\ (exists more, stdout w' = stdout w ++ more)
    /\ Q x (files w !! key x) (files w' !! key x) (stdout w').

(** A loop of such turns over items with distinct files settles each item
    as if it had run alone. *)
Lemma for_each_independent (xs : list A) : forall w,
  List.NoDup (map key xs) ->
  exists w',
    for_each xs body w = (Returned tt, w')
    /\ (forall g, ~ In g (map key xs) -> files w' !! g = files w !! g)
    /\ (exists more, stdout w' = stdout w ++ more)
    /\ forall x, In x xs -> Q x (files w !! key x) (files w' !! key x) (stdout w').
Proof.
  induction xs as [|x xs IH]; intros w Hnd.
  - exists w. cbn. repeat split; auto.
    + exists []. rewrite app_nil_r. reflexivity.
    + intros x [].
  - apply List.NoDup_cons_iff in Hnd as [Hx Hnd].
    destruct (body_local x w) as (w1 & Hbody & Hframe1 & (m1 & Hout1) & HQ).
    destruct (IH w1 Hnd) as (w' & Hloop & Hframe & (m2 & Hout2) & HQs).
    exists w'. cbn [for_each]. unfold mbind, M_bind. rewrite Hbody.
    split; [exact Hloop|]. split; [|split].
    + intros g Hg. cbn [map In] in Hg.
      rewrite Hframe by tauto. apply Hframe1. intros ->. tauto.
    + exists (m1 ++ m2). rewrite Hout2, Hout1, app_assoc. reflexivity.
    + intros y [<-|Hy].
      * rewrite (Hframe (key x) Hx), Hout2. apply Q_more_output, HQ.
      * specialize (HQs y Hy).
        rewrite Hframe1 in HQs; [exact HQs|].
        intros Heq. apply Hx. rewrite <- Heq. apply in_map, Hy.
Qed.

End Loop.

Lemma append_inj_l (a x y : string) : a +:+ x = a +:+ y -> x = y.
Proof.
  induction a as [|c a IH]; cbn [String.append]; intros H; [exact H|].
  injection H as H. exact (IH H).
Qed.

Lemma variants_of_paths_distinct (prompt_name video_id : string) :
  List.NoDup (map snd (Generate.variants_of prompt_name video_id)).
Proof.
  unfold Generate.variants_of. cbn [map snd].
  repeat constructor; cbn [In]; intros H;
    repeat (destruct H as [H|H]; [apply append_inj_l in H; discriminate|]);
    exact H.
Qed.

Lemma script_paths_distinct (video_id : string) :
  List.NoDup (map (DownloadVideo.filepath_of video_id) DownloadVideo.VARIANTS).
Proof.
  unfold DownloadVideo.VARIANTS, DownloadVideo.filepath_of. cbn [map String.eqb Ascii.eqb Bool.eqb].
  repeat constructor; cbn [In]; intros H;
    repeat (destruct H as [H|H];
            [do 3 apply append_inj_l in H; discriminate|]);
    exact H.
Qed.

(** One turn of the loop of [generate.py]. *)
Lemma download_variant_local (S : service) (O : os) (video_id : string)
    (item : string * string) (w : Generate.world) :
  exists w',
    Generate.download_variant S O video_id item w = (Returned tt, w')
    /\ (forall g, g <> snd item ->
          Generate.files w' !! g = Generate.files w !! g)
    /\ (exists more, Generate.stdout w' = Generate.stdout w ++ more)
    /\ variant_settled S O video_id item
         (Generate.files w !! snd item) (Generate.files w' !! snd item)
         (Generate.stdout w').
Proof.
  destruct item as [variant filepath].
  unfold variant_settled, attempt, Generate.download_variant, try_except,
    mbind, M_bind, Generate.videos_download_content, lift, Generate.print,
    Generate.open_wb, Generate.write.
  cbn [fst snd Generate.checks Generate.slept Generate.stdout Generate.files].
  destruct (download_content S video_id variant) as [resp|msg]; cbn [of_reply].
  2:{ eexists. split; [reflexivity|]. cbn. repeat split; auto.
      - eexists. rewrite <- app_assoc. reflexivity.
      - apply in_or_app. right. left. reflexivity. }
  destruct (read resp) as [data|msg]; cbn [of_reply].
  2:{ eexists. split; [reflexivity|]. cbn. repeat split; auto.
      - eexists. rewrite <- app_assoc. reflexivity.
      - apply in_or_app. right. left. reflexivity. }
  destruct (open_wb_error O filepath) as [msg|].
  { eexists. split; [reflexivity|]. cbn. repeat split; auto.
    - eexists. rewrite <- app_assoc. reflexivity.
    - apply in_or_app. right. left. reflexivity. }
  eexists. split; [reflexivity|]. cbn. repeat split.
  - intros g Hg. rewrite !lookup_insert_ne by congruence. reflexivity.
  - eexists. rewrite <- app_assoc. reflexivity.
  - apply lookup_insert_eq.
Qed.

(** One turn of the loop of [download_video.py]. *)
Lemma script_variant_local (S : service) (O : os) (video_id variant : string)
    (w : Generate.world) :
  exists w',
    DownloadVideo.download_variant S O video_id variant w = (Returned tt, w')
    /\ (forall g, g <> DownloadVideo.filepath_of video_id variant ->
          Generate.files w' !! g = Generate.files w !! g)
    /\ (exists more, Generate.stdout w' = Generate.stdout w ++ more)
    /\ script_settled S O video_id variant
         (Generate.files w !! DownloadVideo.filepath_of video_id variant)
         (Generate.files w' !! DownloadVideo.filepath_of video_id variant)
         (Generate.stdout w').
Proof.
  unfold script_settled, DownloadVideo.download_variant, try_except,
    mbind, M_bind, Generate.videos_download_content, lift, Generate.print,
    Generate.open_wb, Generate.write.
  cbn [fst snd Generate.checks Generate.slept Generate.stdout Generate.files].
  destruct (download_content S video_id variant) as [resp|msg]; cbn [of_reply].
  2:{ eexists. split; [reflexivity|]. cbn. repeat split; auto.
      - eexists. rewrite <- app_assoc. reflexivity.
      - apply in_or_app. right. left. reflexivity. }
  destruct (open_wb_error O (DownloadVideo.filepath_of video_id variant)) as [msg|].
  { eexists. split; [reflexivity|]. cbn. repeat split; auto.
    - eexists. rewrite <- app_assoc. reflexivity.
    - apply in_or_app. right. left. reflexivity. }
  cbn [Generate.checks Generate.slept Generate.stdout Generate.files].
  destruct (read resp) as [data|msg]; cbn [of_reply].
  - eexists. split; [reflexivity|]. cbn. repeat split.
    + intros g Hg. rewrite !lookup_insert_ne by congruence. reflexivity.
    + eexists. rewrite <- app_assoc. reflexivity.
    + apply lookup_insert_eq.
  - eexists. split; [reflexivity|]. cbn. repeat split.
    + intros g Hg. rewrite !lookup_insert_ne by congruence. reflexivity.
    + eexists. rewrite <- app_assoc. reflexivity.
    + apply lookup_insert_eq.
    + apply in_or_app. right. left. reflexivity.
Qed.

Lemma variant_settled_more_output (S : service) (O : os) (video_id : string)
    (item : string * string) (before after : option file) (out more : list string) :
  variant_settled S O video_id item before after out ->
  variant_settled S O video_id item before after (out ++ more).
Proof.
  unfold variant_settled. destruct (attempt S O video_id (fst item) (snd item)); auto.
  intros [H1 H2]. split; [exact H1|]. apply in_or_app. left. exact H2.
Qed.

Lemma script_settled_more_output (S : service) (O : os) (video_id variant : string)
    (before after : option file) (out more : list string) :
  script_settled S O video_id variant before after out ->
  script_settled S O video_id variant before after (out ++ more).
Proof.
  unfold script_settled.
  destruct (download_content S video_id variant) as [resp|msg].
  - destruct (open_wb_error O _).
    + intros [H1 H2]. split; [exact H1|]. apply in_or_app. left. exact H2.
    + destruct (read resp); auto.
      intros [H1 H2]. split; [exact H1|]. apply in_or_app. left. exact H2.
  - intros [H1 H2]. split; [exact H1|]. apply in_or_app. left. exact H2.
Qed.

(** The loop of [generate.py], once the output directory is there. *)
Lemma download_outputs_settles (S : service) (O : os)
    (video_id prompt_name : string) (w : Generate.world) :
  makedirs_error O "output" = None ->
  exists w',
    Generate.download_outputs S O video_id prompt_name w
    = (Returned (Generate.variants_of prompt_name video_id), w')
    /\ forall item, In item (Generate.variants_of prompt_name video_id) ->
         variant_settled S O video_id item
           (Generate.files w !! snd item) (Generate.files w' !! snd item)
           (Generate.stdout w').
Proof.
  intros Hdir.
  unfold Generate.download_outputs, Generate.makedirs, Generate.OUTPUT_DIR.
  rewrite Hdir. unfold mbind, M_bind, mret, M_ret.
  destruct (for_each_independent snd (Generate.download_variant S O video_id)
              (variant_settled S O video_id)
              (variant_settled_more_output S O video_id)
              (download_variant_local S O video_id)
              (Generate.variants_of prompt_name video_id) w
              (variants_of_paths_distinct prompt_name video_id))
    as (w' & Hloop & _ & _ & Hall).
  exists w'. rewrite Hloop. split; [reflexivity|exact Hall].
Qed.

(** The loop of [download_video.py], once the output directory is there. *)
Lemma download_video_settles (S : service) (O : os) (video_id : string)
    (w : Generate.world) :
  makedirs_error O "output" = None ->
  exists w',
    DownloadVideo.download_video S O video_id w = (Returned tt, w')
    /\ forall variant, In variant DownloadVideo.VARIANTS ->
         script_settled S O video_id variant
           (Generate.files w !! DownloadVideo.filepath_of video_id variant)
           (Generate.files w' !! DownloadVideo.filepath_of video_id variant)
           (Generate.stdout w').
Proof.
  intros Hdir.
  unfold DownloadVideo.download_video, Generate.makedirs, DownloadVideo.output_dir.
  rewrite Hdir. unfold mbind, M_bind, mret, M_ret.
  destruct (for_each_independent (DownloadVideo.filepath_of video_id)
              (DownloadVideo.download_variant S O video_id)
              (script_settled S O video_id)
              (script_settled_more_output S O video_id)
              (script_variant_local S O video_id)
              DownloadVideo.VARIANTS w (script_paths_distinct video_id))
    as (w' & Hloop & _ & _ & Hall).
  exists w'. split; [exact Hloop|exact Hall].
Qed.

(** C4. Both download loops settle every variant on its own: once the
    output directory is there, the loop returns normally whatever fails,
    and each variant ends with its file written when its own download
    succeeds, or with its file untouched and its error reported when its
    own download fails -- whatever happened to the other variants.  So when
    only the video fails, the thumbnail and the sprite sheet are written. *)
Theorem downloads_are_independent (S : service) (O : os)
    (video_id prompt_name : string) (w : Generate.world) :
  makedirs_error O "output" = None ->
  (exists w',
     Generate.download_outputs S O video_id prompt_name w
     = (Returned (Generate.variants_of prompt_name video_id), w')
     /\ forall item, In item (Generate.variants_of prompt_name video_id) ->
          variant_settled S O video_id item
            (Generate.files w !! snd item) (Generate.files w' !! snd item)
            (Generate.stdout w'))
  /\ (exists w',
        DownloadVideo.download_video S O video_id w = (Returned tt, w')
        /\ forall variant, In variant DownloadVideo.VARIANTS ->
             script_settled S O video_id variant
               (Generate.files w !! DownloadVideo.filepath_of video_id variant)
               (Generate.files w' !! DownloadVideo.filepath_of video_id variant)
               (Generate.stdout w')).
Proof.
  intros Hdir. split.
  - apply download_outputs_settles, Hdir.
  - apply download_video_settles, Hdir.
Qed.

(** The scenario of the specification: the video is absent remotely, the
    thumbnail and the sprite sheet end up on disk. *)
Lemma downloads_are_independent_witness :
  makedirs_error Samples.no_refusals "output" = None
  /\ exists w',
       Generate.download_outputs Samples.without_video Samples.no_refusals
         "video_1" "idle" Samples.fresh
       = (Returned (Generate.variants_of "idle" "video_1"), w')
       /\ Generate.files w' !! "output/idle_video_1_thumbnail.png"%string
          = Some (Bytes Samples.thumbnail_bytes)
       /\ Generate.files w' !! "output/idle_video_1_spritesheet.png"%string
          = Some (Bytes Samples.spritesheet_bytes)
       /\ Generate.files w' !! "output/idle_video_1.mp4"%string = None
       /\ In "    Skipped video: 404 not found"%string (Generate.stdout w').
Proof.
  split; [reflexivity|].
  destruct (downloads_are_independent Samples.without_video Samples.no_refusals
              "video_1" "idle" Samples.fresh eq_refl)
    as ((w' & Hrun & Hall) & _).
  exists w'. split; [exact Hrun|].
  pose proof (Hall ("thumbnail", "output/idle_video_1_thumbnail.png")%string
                ltac:(vm_compute; tauto)) as Ht.
  pose proof (Hall ("spritesheet", "output/idle_video_1_spritesheet.png")%string
                ltac:(vm_compute; tauto)) as Hs.
  pose proof (Hall ("video", "output/idle_video_1.mp4")%string
                ltac:(vm_compute; tauto)) as [Hv Hout].
  repeat split; [exact Ht|exact Hs|exact Hv|exact Hout].
Defined.

(** C9, as the specification words it, fails: when the video cannot be
    downloaded the returned mapping still has its entry, unmarked. *)
Lemma returned_mapping_not_what_was_written :
  ~ returns_what_was_written Samples.without_video Samples.no_refusals
      "video_1" "idle" Samples.fresh.
Proof.
  intros (returned & w' & Hrun & Hclaim).
  destruct (download_outputs_settles Samples.without_video Samples.no_refusals
              "video_1" "idle" Samples.fresh eq_refl)
    as (w1 & Hrun1 & _).
  rewrite Hrun1 in Hrun. injection Hrun as <- _.
  destruct Hclaim as [Honly|[_ Hflag]].
  - destruct (Honly "video" "output/idle_video_1.mp4"%string) as [Hin _].
    destruct Hin as [_ Hret]; [vm_compute; tauto|exact Hret].
  - destruct (Hflag "video" "output/idle_video_1.mp4"%string) as [_ Hnot];
      [vm_compute; tauto|].
    apply Hnot; [intros Hret; exact Hret|vm_compute; tauto].
Qed.

(** C9, amended. Once the output directory is there, the downloader returns
    the mapping it intended to write -- the three variants "spritesheet",
    "thumbnail" and "video", each with its intended path -- whatever the
    service answered and whatever was written: a failure shows in the
    printed report only. *)
Theorem returned_mapping_is_intended (S : service) (O : os)
    (video_id prompt_name : string) (w : Generate.world) :
  makedirs_error O "output" = None ->
  let base := ("output/" +:+ prompt_name +:+ "_" +:+ video_id)%string in
  exists w',
    Generate.download_outputs S O video_id prompt_name w
    = (Returned (Generate.variants_of prompt_name video_id), w')
    /\ forall variant filepath,
         In (variant, filepath) (Generate.variants_of prompt_name video_id)
         <-> (variant = "spritesheet"%string
              /\ filepath = (base +:+ "_spritesheet.png")%string)
             \/ (variant = "thumbnail"%string
                 /\ filepath = (base +:+ "_thumbnail.png")%string)
             \/ (variant = "video"%string /\ filepath = (base +:+ ".mp4")%string).
Proof.
  intros Hdir base.
  destruct (download_outputs_settles S O video_id prompt_name w Hdir)
    as (w' & Hrun & _).
  exists w'. split; [exact Hrun|].
  intros variant filepath. unfold Generate.variants_of, Generate.OUTPUT_DIR.
  cbn [In String.append]. subst base. cbn [String.append].
  split.
  - intros [H|[H|[H|[]]]]; injection H as <- <-; tauto.
  - intros [[-> ->]|[[-> ->]|[-> ->]]]; tauto.
Qed.

Lemma returned_mapping_is_intended_witness :
  makedirs_error Samples.no_refusals "output" = None
  /\ exists w',
       Generate.download_outputs Samples.without_video Samples.no_refusals
         "video_1" "idle" Samples.fresh
       = (Returned [ ("spritesheet", "output/idle_video_1_spritesheet.png");
                     ("thumbnail", "output/idle_video_1_thumbnail.png");
                     ("video", "output/idle_video_1.mp4") ]%string, w').
Proof.
  split; [reflexivity|].
  destruct (returned_mapping_is_intended Samples.without_video Samples.no_refusals
              "video_1" "idle" Samples.fresh eq_refl) as (w' & Hrun & _).
  exists w'. exact Hrun.
Defined.

(** ** The image transforms *)

Lemma mode_is_RGBA (m : PIL.mode) :
  String.eqb (PIL.mode_name m) "RGBA" = bool_decide (m = PIL.RGBA).
Proof. destruct m; reflexivity. Qed.

Lemma mode_is_RGB (m : PIL.mode) :
  String.eqb (PIL.mode_name m) "RGB" = bool_decide (m = PIL.RGB).
Proof. destruct m; reflexivity. Qed.

(** *** C integers *)

Lemma c_int_in_range (v : Z) :
  PIL.INT_MIN <= v <= PIL.INT_MAX -> PIL.c_int v = Returned v.
Proof.
  intros H. unfold PIL.c_int, PIL.INT_MIN, PIL.INT_MAX, PIL.LLONG_MIN, PIL.LLONG_MAX in *.
  assert ((v <? -9223372036854775808) = false) as -> by (apply Z.ltb_ge; lia).
  assert ((9223372036854775807 <? v) = false) as -> by (apply Z.ltb_ge; lia).
  assert ((2147483647 <? v) = false) as -> by (apply Z.ltb_ge; lia).
  assert ((v <? -2147483648) = false) as -> by (apply Z.ltb_ge; lia).
  reflexivity.
Qed.

Lemma c_int_refused (v : Z) :
  ~ PIL.INT_MIN <= v <= PIL.INT_MAX ->
  exists msg, PIL.c_int v = Raised (OverflowError msg).
Proof.
  intros H. unfold PIL.c_int.
  destruct ((v <? PIL.LLONG_MIN) || (PIL.LLONG_MAX <? v)); [eauto|].
  destruct (PIL.INT_MAX <? v) eqn:Hhigh; [eauto|].
  destruct (v <? PIL.INT_MIN) eqn:Hlow; [eauto|].
  apply Z.ltb_ge in Hhigh, Hlow. lia.
Qed.

Lemma c_int_returned (v x : Z) :
  PIL.c_int v = Returned x -> x = v /\ PIL.INT_MIN <= v <= PIL.INT_MAX.
Proof.
  intros H.
  destruct (decide (PIL.INT_MIN <= v <= PIL.INT_MAX)) as [Hin|Hout].
  - rewrite (c_int_in_range v Hin) in H. injection H as <-. auto.
  - destruct (c_int_refused v Hout) as [msg Hmsg]. congruence.
Qed.

Lemma c_long_long_byte (v : Z) : 0 <= v <= 255 -> PIL.c_long_long v = Returned v.
Proof.
  intros H. unfold PIL.c_long_long, PIL.LLONG_MIN, PIL.LLONG_MAX.
  assert ((v <? -9223372036854775808) = false) as -> by (apply Z.ltb_ge; lia).
  assert ((9223372036854775807 <? v) = false) as -> by (apply Z.ltb_ge; lia).
  reflexivity.
Qed.

Lemma clip8_byte (v : Z) : 0 <= v <= 255 -> PIL.clip8 v = v.
Proof.
  intros H. unfold PIL.clip8.
  destruct (Z.leb_spec v 0); [lia|].
  destruct (Z.ltb_spec v 256); lia.
Qed.

(** The ink of a colour of three byte values: those values, and an alpha
    of 255 for "RGBA". *)
Lemma rgba_ink_three (r g b : Z) :
  0 <= r <= 255 -> 0 <= g <= 255 -> 0 <= b <= 255 ->
  PIL.rgba_ink [r; g; b] = Returned [r; g; b; 255].
Proof.
  intros Hr Hg Hb. unfold PIL.rgba_ink.
  rewrite (c_long_long_byte r Hr).
  rewrite (c_int_in_range g), (c_int_in_range b)
    by (unfold PIL.INT_MIN, PIL.INT_MAX; lia).
  cbn [mbind outcome_bind].
  rewrite !clip8_byte by assumption. reflexivity.
Qed.

Lemma rgba_ink_four (r g b a : Z) :
  0 <= r <= 255 -> 0 <= g <= 255 -> 0 <= b <= 255 -> 0 <= a <= 255 ->
  PIL.rgba_ink [r; g; b; a] = Returned [r; g; b; a].
Proof.
  intros Hr Hg Hb Ha. unfold PIL.rgba_ink.
  rewrite (c_long_long_byte r Hr).
  rewrite (c_int_in_range g), (c_int_in_range b), (c_int_in_range a)
    by (unfold PIL.INT_MIN, PIL.INT_MAX; lia).
  cbn [mbind outcome_bind].
  rewrite !clip8_byte by assumption. reflexivity.
Qed.

(** *** [Image.new] and [resize] *)

Lemma new_blank (K : PIL.kernels) (m : PIL.mode) (sz : Z * Z) (color p : PIL.pixel) :
  0 <= fst sz <= PIL.MAX_XSIZE -> 0 <= snd sz <= PIL.INT_MAX ->
  PIL.ink K m color = Returned p ->
  PIL.new K m sz color = Returned (PIL.mkImage m sz (fun _ _ => p)).
Proof.
  intros Hw Hh Hink. unfold PIL.new.
  assert ((fst sz <? 0) = false) as -> by (apply Z.ltb_ge; lia).
  assert ((snd sz <? 0) = false) as -> by (apply Z.ltb_ge; lia).
  cbn [orb].
  rewrite (c_int_in_range (fst sz)), (c_int_in_range (snd sz))
    by (unfold PIL.MAX_XSIZE, PIL.INT_MIN, PIL.INT_MAX in *;
        change (2147483647 / 4 - 1) with 536870910 in *; lia).
  cbn [mbind outcome_bind].
  assert ((PIL.MAX_XSIZE <? fst sz) = false) as -> by (apply Z.ltb_ge; lia).
  rewrite Hink. reflexivity.
Qed.

Lemma new_returned (K : PIL.kernels) (m : PIL.mode) (sz : Z * Z)
    (color : PIL.pixel) (im : PIL.image) :
  PIL.new K m sz color = Returned im ->
  exists p, PIL.ink K m color = Returned p
            /\ im = PIL.mkImage m sz (fun _ _ => p).
Proof.
  unfold PIL.new.
  destruct ((fst sz <? 0) || (snd sz <? 0)); [discriminate|].
  destruct (PIL.c_int (fst sz)) as [xsize| |]; cbn [mbind outcome_bind];
    try discriminate.
  destruct (PIL.c_int (snd sz)) as [ysize| |]; cbn [mbind outcome_bind];
    try discriminate.
  destruct (PIL.MAX_XSIZE <? xsize); [discriminate|].
  destruct (PIL.ink K m color) as [p| |]; cbn [mbind outcome_bind];
    try discriminate.
  intros [= <-]. exists p. auto.
Qed.

(** [resize] gives an image of the size asked for, in the mode it had. *)
Lemma resize_size (K : PIL.kernels) (im : PIL.image) (sz : Z * Z)
    (filter : PIL.resampling) :
  1 <= fst sz <= PIL.MAX_XSIZE -> 1 <= snd sz <= PIL.INT_MAX ->
  exists out,
    PIL.resize K im sz filter = Returned out
    /\ PIL.size out = sz /\ PIL.im_mode out = PIL.im_mode im.
Proof.
  intros Hw Hh. unfold PIL.resize.
  rewrite (c_int_in_range (fst sz)), (c_int_in_range (snd sz))
    by (unfold PIL.MAX_XSIZE, PIL.INT_MIN, PIL.INT_MAX in *;
        change (2147483647 / 4 - 1) with 536870910 in *; lia).
  cbn [mbind outcome_bind].
  assert ((fst sz <? 1) = false) as -> by (apply Z.ltb_ge; lia).
  assert ((snd sz <? 1) = false) as -> by (apply Z.ltb_ge; lia).
  assert ((PIL.MAX_XSIZE <? fst sz) = false) as -> by (apply Z.ltb_ge; lia).
  cbn [orb]. case_bool_decide as Heq.
  - exists im. auto.
  - eexists. split; [reflexivity|]. split; reflexivity.
Qed.

(** An image that has the size asked for comes back as it is. *)
Lemma resize_same_size (K : PIL.kernels) (im : PIL.image) (sz : Z * Z)
    (filter : PIL.resampling) :
  PIL.size im = sz ->
  1 <= fst sz <= PIL.MAX_XSIZE -> 1 <= snd sz <= PIL.INT_MAX ->
  PIL.resize K im sz filter = Returned im.
Proof.
  intros Hsize Hw Hh. unfold PIL.resize.
  rewrite (c_int_in_range (fst sz)), (c_int_in_range (snd sz))
    by (unfold PIL.MAX_XSIZE, PIL.INT_MIN, PIL.INT_MAX in *;
        change (2147483647 / 4 - 1) with 536870910 in *; lia).
  cbn [mbind outcome_bind].
  assert ((fst sz <? 1) = false) as -> by (apply Z.ltb_ge; lia).
  assert ((snd sz <? 1) = false) as -> by (apply Z.ltb_ge; lia).
  assert ((PIL.MAX_XSIZE <? fst sz) = false) as -> by (apply Z.ltb_ge; lia).
  cbn [orb]. rewrite bool_decide_eq_true_2 by exact Hsize. reflexivity.
Qed.

(** [resize] returns or raises: it does not run out of fuel. *)
Lemma resize_settles (K : PIL.kernels) (im : PIL.image) (sz : Z * Z)
    (filter : PIL.resampling) :
  PIL.resize K im sz filter <> OutOfFuel.
Proof.
  unfold PIL.resize, PIL.c_int.
  destruct ((fst sz <? PIL.LLONG_MIN) || (PIL.LLONG_MAX <? fst sz)); [discriminate|].
  destruct (PIL.INT_MAX <? fst sz); [discriminate|].
  destruct (fst sz <? PIL.INT_MIN); [discriminate|].
  destruct ((snd sz <? PIL.LLONG_MIN) || (PIL.LLONG_MAX <? snd sz)); [discriminate|].
  destruct (PIL.INT_MAX <? snd sz); [discriminate|].
  destruct (snd sz <? PIL.INT_MIN); [discriminate|].
  cbn [mbind outcome_bind].
  destruct ((fst sz <? 1) || (snd sz <? 1)); [discriminate|].
  destruct (PIL.MAX_XSIZE <? fst sz); [discriminate|].
  destruct (bool_decide (PIL.size im = sz)); discriminate.
Qed.

Lemma resize_refused (K : PIL.kernels) (im : PIL.image) (sz : Z * Z)
    (filter : PIL.resampling) :
  PIL.INT_MIN <= fst sz <= PIL.INT_MAX -> PIL.INT_MIN <= snd sz <= PIL.INT_MAX ->
  fst sz < 1 \/ snd sz < 1 ->
  PIL.resize K im sz filter = Raised (ValueError "height and width must be > 0").
Proof.
  intros Hw Hh H. unfold PIL.resize.
  rewrite (c_int_in_range (fst sz) Hw), (c_int_in_range (snd sz) Hh).
  cbn [mbind outcome_bind].
  destruct (fst sz <? 1) eqn:Hlw; [reflexivity|].
  destruct (snd sz <? 1) eqn:Hlh; [reflexivity|].
  apply Z.ltb_ge in Hlw, Hlh. lia.
Qed.

(** A size outside the C integers is refused before any other test. *)
Lemma resize_overflows (K : PIL.kernels) (im : PIL.image) (sz : Z * Z)
    (filter : PIL.resampling) :
  ~ (PIL.INT_MIN <= fst sz <= PIL.INT_MAX /\ PIL.INT_MIN <= snd sz <= PIL.INT_MAX) ->
  exists msg, PIL.resize K im sz filter = Raised (OverflowError msg).
Proof.
  intros H. unfold PIL.resize.
  destruct (decide (PIL.INT_MIN <= fst sz <= PIL.INT_MAX)) as [Hw|Hw].
  - rewrite (c_int_in_range (fst sz) Hw). cbn [mbind outcome_bind].
    destruct (c_int_refused (snd sz)) as [msg ->]; [tauto|]. eauto.
  - destruct (c_int_refused (fst sz) Hw) as [msg ->]. eauto.
Qed.

Lemma resize_returns_size (K : PIL.kernels) (im out : PIL.image) (sz : Z * Z)
    (filter : PIL.resampling) :
  PIL.resize K im sz filter = Returned out ->
  PIL.size out = sz /\ PIL.im_mode out = PIL.im_mode im
  /\ 1 <= fst sz <= PIL.MAX_XSIZE /\ 1 <= snd sz <= PIL.INT_MAX.
Proof.
  intros H.
  assert (Hrange : 1 <= fst sz <= PIL.MAX_XSIZE /\ 1 <= snd sz <= PIL.INT_MAX).
  { unfold PIL.resize in H.
    destruct (PIL.c_int (fst sz)) as [xsize| |] eqn:Hx; cbn [mbind outcome_bind] in H;
      try discriminate.
    destruct (PIL.c_int (snd sz)) as [ysize| |] eqn:Hy; cbn [mbind outcome_bind] in H;
      try discriminate.
    apply c_int_returned in Hx as [-> Hx], Hy as [-> Hy].
    destruct (fst sz <? 1) eqn:Hlw; [discriminate|].
    destruct (snd sz <? 1) eqn:Hlh; [discriminate|].
    destruct (PIL.MAX_XSIZE <? fst sz) eqn:Hmax; [discriminate|].
    apply Z.ltb_ge in Hlw, Hlh, Hmax. lia. }
  destruct Hrange as [Hw Hh].
  destruct (resize_size K im sz filter Hw Hh) as (out' & Hout & Hs & Hm).
  rewrite Hout in H. injection H as <-. auto.
Qed.

(** Flattening an "RGBA" image onto a background of three byte values:
    the three steps [Image.new], [split()[3]] and [paste] with the alpha
    band as mask. *)
Lemma flatten_onto (K : PIL.kernels) (im : PIL.image) (r g b : Z) :
  PIL.im_mode im = PIL.RGBA ->
  0 <= fst (PIL.size im) <= PIL.MAX_XSIZE ->
  0 <= snd (PIL.size im) <= PIL.INT_MAX ->
  0 <= r <= 255 -> 0 <= g <= 255 -> 0 <= b <= 255 ->
  exists out,
    (bg ← PIL.new K PIL.RGB (PIL.size im) [r; g; b];
     alpha ← PIL.split_band im 3;
     PIL.paste K bg im (0, 0) (Some alpha)) = Returned out
    /\ PIL.im_mode out = PIL.RGB
    /\ PIL.size out = PIL.size im
    /\ forall x y,
         0 <= x < fst (PIL.size im) -> 0 <= y < snd (PIL.size im) ->
         PIL.getpixel out x y
         = PIL.blend_bands (nth 3 (PIL.getpixel im x y) 0) [r; g; b]
             (firstn 3 (PIL.getpixel im x y)).
Proof.
  intros Hm Hw Hh Hr Hg Hb.
  rewrite (new_blank K PIL.RGB (PIL.size im) [r; g; b] [r; g; b] Hw Hh)
    by (unfold PIL.ink; rewrite (rgba_ink_three r g b Hr Hg Hb); reflexivity).
  unfold PIL.split_band.
  rewrite Hm. cbn [orb PIL.nbands PIL.getbands length Nat.ltb Nat.leb].
  unfold mbind, outcome_bind, PIL.paste. cbn [PIL.im_mode PIL.size].
  rewrite Hm. cbn [PIL.mask_band].
  change (bool_decide (PIL.RGB = PIL.RGBA)) with false.
  change (bool_decide (PIL.RGB = PIL.RGB)) with true.
  change (bool_decide (PIL.RGBA = PIL.RGBA)) with true.
  change (bool_decide (PIL.RGBA = PIL.LA)) with false.
  cbn [andb orb]. rewrite bool_decide_eq_true_2 by reflexivity.
  cbn [negb].
  eexists. split; [reflexivity|]. cbn [PIL.im_mode PIL.size PIL.getpixel].
  repeat split. intros x y Hx Hy.
  unfold PIL.width, PIL.height.
  assert ((0 <=? x) = true) as -> by (apply Z.leb_le; lia).
  assert ((x <? 0 + fst (PIL.size im)) = true) as -> by (apply Z.ltb_lt; lia).
  assert ((0 <=? y) = true) as -> by (apply Z.leb_le; lia).
  assert ((y <? 0 + snd (PIL.size im)) = true) as -> by (apply Z.ltb_lt; lia).
  rewrite Hm.
  cbn [andb PIL.paste_pixel PIL.source_bands PIL.nbands PIL.getbands length nth].
  rewrite !Z.sub_0_r. reflexivity.
Qed.

(** [resize_image_to_match] once the resize has returned: the image as it
    is, or flattened onto white when it is "RGBA". *)
Lemma reference_image_cases (K : PIL.kernels) (B : builtins)
    (image_path target_size : string) (w : Generate.world)
    (img resized : PIL.image) (width height : Z) :
  Generate.parse_size B target_size = Returned (width, height) ->
  Generate.files w !! image_path = Some (ImageFile img) ->
  PIL.resize K img (width, height) PIL.NEAREST = Returned resized ->
  exists out,
    Generate.resize_image_to_match K B image_path target_size w
    = (Returned (PIL.PNG out), w)
    /\ PIL.size out = (width, height)
    /\ (PIL.im_mode resized <> PIL.RGBA -> out = resized)
    /\ (PIL.im_mode resized = PIL.RGBA ->
        PIL.im_mode out = PIL.RGB
        /\ forall x y, 0 <= x < width -> 0 <= y < height ->
             PIL.getpixel out x y
             = PIL.blend_bands (nth 3 (PIL.getpixel resized x y) 0) [255; 255; 255]
                 (firstn 3 (PIL.getpixel resized x y))).
Proof.
  intros Hparse Hfile Hres.
  destruct (resize_returns_size K img resized _ _ Hres) as (Hsize & Hm & Hw & Hh).
  cbn [fst snd] in Hw, Hh.
  unfold Generate.resize_image_to_match, mbind, M_bind, lift, Generate.Image_open.
  rewrite Hparse, Hfile, Hres, mode_is_RGBA.
  case_bool_decide as Hrgba.
  - destruct (flatten_onto K resized 255 255 255 Hrgba)
      as (out & Hflat & Hom & Hos & Hpx);
      try (rewrite Hsize; cbn [fst snd]; lia); try lia.
    unfold mbind, outcome_bind in Hflat. unfold Generate.WHITE.
    destruct (PIL.new K PIL.RGB (PIL.size resized) [255; 255; 255]) as [bg| |];
      try discriminate.
    destruct (PIL.split_band resized 3) as [alpha| |]; try discriminate.
    rewrite Hflat. exists out. split; [reflexivity|].
    split; [rewrite Hos; exact Hsize|]. split; [contradiction|].
    intros _. split; [exact Hom|].
    intros x y Hx Hy. apply Hpx; rewrite Hsize; cbn; lia.
  - exists resized. split; [reflexivity|]. split; [exact Hsize|].
    split; [reflexivity|contradiction].
Qed.

Lemma blend8_opaque (a b : Z) : 0 <= b <= 255 -> PIL.blend8 255 a b = b.
Proof.
  intros H. unfold PIL.blend8. rewrite !Z.shiftr_div_pow2 by lia.
  change (2 ^ 8) with 256. Z.div_mod_to_equations. lia.
Qed.

Lemma blend8_transparent (a b : Z) : 0 <= a <= 255 -> PIL.blend8 0 a b = a.
Proof.
  intros H. unfold PIL.blend8. rewrite !Z.shiftr_div_pow2 by lia.
  change (2 ^ 8) with 256. Z.div_mod_to_equations. lia.
Qed.

(** C5, as the specification words it, fails: not every requested size
    gives an image of that size.  A width of 0 is refused by the resize
    with [ValueError], and a width of 2147483648 does not fit a C integer:
    no image is prepared. *)
Lemma zero_and_huge_sizes_are_refused :
  ~ has_requested_size Samples.kernels Samples.builtins "original.png" "0x6"
      (Samples.with_original (Samples.solid PIL.RGB 2 2 [200; 30; 30]))
  /\ ~ has_requested_size Samples.kernels Samples.builtins "original.png"
        "2147483648x1"
        (Samples.with_original (Samples.solid PIL.RGB 2 2 [200; 30; 30])).
Proof.
  split.
  - intros Hclaim.
    destruct (Hclaim (Samples.solid PIL.RGB 2 2 [200; 30; 30]) 0 6 eq_refl eq_refl)
      as (out & w' & Hrun & _).
    apply (f_equal fst) in Hrun. vm_compute in Hrun. discriminate.
  - intros Hclaim.
    destruct (Hclaim (Samples.solid PIL.RGB 2 2 [200; 30; 30]) 2147483648 1
                eq_refl eq_refl) as (out & w' & Hrun & _).
    apply (f_equal fst) in Hrun. vm_compute in Hrun. discriminate.
Qed.

(** C5, amended. For every source image and every requested size that the
    resize takes, the reference image prepared for a submission has exactly
    the requested width and height, whatever the size and the aspect ratio
    of the source; the width and the height are then at least one pixel.
    A width or a height below one pixel is refused: no image is
    prepared. *)
Theorem resize_image_to_match_size (K : PIL.kernels) (B : builtins)
    (image_path target_size : string) (w : Generate.world) (img : PIL.image)
    (width height : Z) :
  Generate.parse_size B target_size = Returned (width, height) ->
  Generate.files w !! image_path = Some (ImageFile img) ->
  (forall resized,
     PIL.resize K img (width, height) PIL.NEAREST = Returned resized ->
     1 <= width /\ 1 <= height
     /\ exists out,
          Generate.resize_image_to_match K B image_path target_size w
          = (Returned (PIL.PNG out), w)
          /\ PIL.size out = (width, height))
  /\ (width < 1 \/ height < 1 ->
      exists e,
        Generate.resize_image_to_match K B image_path target_size w = (Raised e, w)).
Proof.
  intros Hparse Hfile. split.
  - intros resized Hres.
    destruct (resize_returns_size K img resized _ _ Hres) as (_ & _ & Hw & Hh).
    cbn [fst snd] in Hw, Hh.
    destruct (reference_image_cases K B image_path target_size w img resized
                width height Hparse Hfile Hres) as (out & Hrun & Hsize & _).
    split; [lia|]. split; [lia|]. exists out. auto.
  - intros Hsmall.
    unfold Generate.resize_image_to_match, mbind, M_bind, lift, Generate.Image_open.
    rewrite Hparse, Hfile.
    destruct (decide (PIL.INT_MIN <= width <= PIL.INT_MAX
                      /\ PIL.INT_MIN <= height <= PIL.INT_MAX)) as [[Hw Hh]|Hout].
    + rewrite (resize_refused K img (width, height) PIL.NEAREST Hw Hh Hsmall). eauto.
    + destruct (resize_overflows K img (width, height) PIL.NEAREST Hout) as [msg ->].
      eauto.
Qed.

Lemma resize_image_to_match_size_witness :
  Generate.parse_size Samples.builtins "1280x720" = Returned (1280, 720)
  /\ exists out,
       Generate.resize_image_to_match Samples.kernels Samples.builtins
         "original.png" "1280x720"
         (Samples.with_original (Samples.solid PIL.RGBA 32 32 [200; 30; 30; 255]))
       = (Returned (PIL.PNG out),
          Samples.with_original (Samples.solid PIL.RGBA 32 32 [200; 30; 30; 255]))
       /\ PIL.size out = (1280, 720).
Proof.
  split; [reflexivity|].
  destruct (resize_image_to_match_size Samples.kernels Samples.builtins
              "original.png" "1280x720"
              (Samples.with_original (Samples.solid PIL.RGBA 32 32 [200; 30; 30; 255]))
              (Samples.solid PIL.RGBA 32 32 [200; 30; 30; 255]) 1280 720
              eq_refl eq_refl) as [Hsized _].
  destruct (Hsized (PIL.mkImage PIL.RGBA (1280, 720)
                      (Samples.nearest PIL.NEAREST
                         (Samples.solid PIL.RGBA 32 32 [200; 30; 30; 255])
                         (1280, 720))) eq_refl) as (_ & _ & Hout).
  exact Hout.
Defined.

(** C7, as the specification words it, fails: an "LA" source -- grey with
    an alpha channel -- is not "RGBA", so it is encoded as it is, alpha
    included. *)
Lemma grey_alpha_reference_keeps_alpha :
  ~ flattens_alpha Samples.kernels Samples.builtins "original.png" "4x4"
      (Samples.with_original (Samples.solid PIL.LA 2 2 [100; 128])).
Proof.
  intros Hclaim.
  destruct (Hclaim (Samples.solid PIL.LA 2 2 [100; 128]) eq_refl eq_refl)
    as (out & w' & Hrun & Halpha).
  assert (Hkept :
    match fst (Generate.resize_image_to_match Samples.kernels Samples.builtins
                 "original.png" "4x4"
                 (Samples.with_original (Samples.solid PIL.LA 2 2 [100; 128]))) with
    | Returned (PIL.PNG o) => PIL.has_alpha (PIL.im_mode o)
    | _ => false
    end = true) by (vm_compute; reflexivity).
  rewrite Hrun in Hkept. cbn [fst] in Hkept.
  rewrite Halpha in Hkept. discriminate.
Qed.

(** C7, amended. A source image in the mode "RGBA" is composited, once
    resized, onto an opaque white background: the encoded reference image
    is "RGB", without an alpha channel, and each of its pixels is the
    resized pixel blended over white through its own alpha. *)
Theorem rgba_reference_is_flattened (K : PIL.kernels) (B : builtins)
    (image_path target_size : string) (w : Generate.world)
    (img resized : PIL.image) (width height : Z) :
  Generate.parse_size B target_size = Returned (width, height) ->
  Generate.files w !! image_path = Some (ImageFile img) ->
  PIL.im_mode img = PIL.RGBA ->
  PIL.resize K img (width, height) PIL.NEAREST = Returned resized ->
  exists out,
    Generate.resize_image_to_match K B image_path target_size w
    = (Returned (PIL.PNG out), w)
    /\ PIL.im_mode out = PIL.RGB
    /\ PIL.has_alpha (PIL.im_mode out) = false
    /\ PIL.size out = (width, height)
    /\ forall x y, 0 <= x < width -> 0 <= y < height ->
         PIL.getpixel out x y
         = PIL.blend_bands (nth 3 (PIL.getpixel resized x y) 0) [255; 255; 255]
             (firstn 3 (PIL.getpixel resized x y)).
Proof.
  intros Hparse Hfile Hmode Hres.
  destruct (resize_returns_size K img resized _ _ Hres) as (_ & Hm & _).
  destruct (reference_image_cases K B image_path target_size w img resized
              width height Hparse Hfile Hres) as (out & Hrun & Hsize & _ & Hflat).
  destruct (Hflat ltac:(congruence)) as [Hom Hpx].
  exists out. split; [exact Hrun|].
  split; [exact Hom|]. split; [rewrite Hom; reflexivity|].
  split; [exact Hsize|exact Hpx].
Qed.

Lemma rgba_reference_is_flattened_witness :
  exists out,
    Generate.resize_image_to_match Samples.kernels Samples.builtins
      "original.png" "1280x720"
      (Samples.with_original (Samples.solid PIL.RGBA 32 32 [200; 30; 30; 0]))
    = (Returned (PIL.PNG out),
       Samples.with_original (Samples.solid PIL.RGBA 32 32 [200; 30; 30; 0]))
    /\ PIL.has_alpha (PIL.im_mode out) = false
    /\ PIL.getpixel out 5 7 = [255; 255; 255].
Proof.
  destruct (rgba_reference_is_flattened Samples.kernels Samples.builtins
              "original.png" "1280x720"
              (Samples.with_original (Samples.solid PIL.RGBA 32 32 [200; 30; 30; 0]))
              (Samples.solid PIL.RGBA 32 32 [200; 30; 30; 0])
              (PIL.mkImage PIL.RGBA (1280, 720)
                 (Samples.nearest PIL.NEAREST
                    (Samples.solid PIL.RGBA 32 32 [200; 30; 30; 0]) (1280, 720)))
              1280 720 eq_refl eq_refl eq_refl eq_refl)
    as (out & Hrun & _ & Halpha & _ & Hpx).
  exists out. split; [exact Hrun|]. split; [exact Halpha|].
  rewrite (Hpx 5 7) by lia. reflexivity.
Defined.

(** ** The letterbox resize *)

(** Whatever [resize_with_padding] returns is a square "RGBA" canvas of the
    side asked for. *)
Lemma resize_with_padding_square (K : PIL.kernels) (image out : PIL.image)
    (target_size : Z) (bg_color : PIL.pixel) :
  CreateSpritesheet.resize_with_padding K image target_size bg_color = Returned out ->
  PIL.size out = (target_size, target_size) /\ PIL.im_mode out = PIL.RGBA.
Proof.
  unfold CreateSpritesheet.resize_with_padding.
  destruct (PIL.size image) as [img_width img_height].
  destruct (CreateSpritesheet.scaled_size img_width img_height target_size)
    as [[new_width new_height]| |]; cbn [mbind outcome_bind]; try discriminate.
  destruct (PIL.resize K image (new_width, new_height) PIL.LANCZOS)
    as [resized| |]; cbn [mbind outcome_bind]; try discriminate.
  destruct (PIL.new K PIL.RGBA (target_size, target_size) (bg_color ++ [255]))
    as [bg| |] eqn:Hbg; cbn [mbind outcome_bind]; try discriminate.
  apply new_returned in Hbg as (p & _ & ->).
  unfold PIL.paste. cbn [PIL.im_mode PIL.size].
  destruct (String.eqb (PIL.mode_name (PIL.im_mode resized)) "RGBA").
  - destruct (PIL.mask_band (PIL.im_mode resized)); [|discriminate].
    destruct (negb (bool_decide _)); [discriminate|].
    intros H. injection H as <-. auto.
  - intros H. injection H as <-. auto.
Qed.

(** The content is centred: on each axis the padding after it exceeds the
    padding before it by one pixel at most. *)
Lemma centred_offset (target_size new_side : Z) :
  let before := (target_size - new_side) / 2 in
  0 <= (target_size - new_side - before) - before <= 1.
Proof. cbv zeta. Z.div_mod_to_equations. lia. Qed.

(** C6. The letterbox resize does not keep the claim on every image.  A
    frame of 300 by 2 pixels scales to a height of [int(0.853...)], zero:
    Pillow refuses the size and no square comes out, whatever the
    background colour.  A frame of 49 by 49 pixels scales to 127 by 127
    ([49 * (128 / 49)] is [127.99999999999999] in binary64, and [int]
    truncates): on a background of three byte values the content stops one
    pixel short of the far edges of the canvas, whose last column and last
    row stay background. *)
Theorem letterbox_misses_thin_and_odd_images (K : PIL.kernels) (bg_color : PIL.pixel) :
  CreateSpritesheet.scaled_size 300 2 128 = Returned (128, 0)
  /\ CreateSpritesheet.resize_with_padding K
       (Samples.solid PIL.RGB 300 2 [200; 30; 30]) 128 bg_color
     = Raised (ValueError "height and width must be > 0")
  /\ CreateSpritesheet.scaled_size 49 49 128 = Returned (127, 127)
  /\ forall r g b,
       bg_color = [r; g; b] ->
       0 <= r <= 255 -> 0 <= g <= 255 -> 0 <= b <= 255 ->
       exists out,
         CreateSpritesheet.resize_with_padding K
           (Samples.solid PIL.RGBA 49 49 [200; 30; 30; 255]) 128 bg_color
         = Returned out
         /\ PIL.size out = (128, 128)
         /\ forall i, PIL.getpixel out 127 i = bg_color ++ [255]
                      /\ PIL.getpixel out i 127 = bg_color ++ [255].
Proof.
  assert (Hthin : CreateSpritesheet.scaled_size 300 2 128 = Returned (128, 0))
    by (vm_compute; reflexivity).
  assert (Hodd : CreateSpritesheet.scaled_size 49 49 128 = Returned (127, 127))
    by (vm_compute; reflexivity).
  split; [exact Hthin|]. split; [|split; [exact Hodd|]].
  - unfold CreateSpritesheet.resize_with_padding.
    change (PIL.size (Samples.solid PIL.RGB 300 2 [200; 30; 30])) with (300, 2).
    cbv beta iota. rewrite Hthin. cbn [mbind outcome_bind].
    rewrite resize_refused by (cbn; unfold PIL.INT_MIN, PIL.INT_MAX; lia).
    reflexivity.
  - intros r g b -> Hr Hg Hb.
    set (im := Samples.solid PIL.RGBA 49 49 [200; 30; 30; 255]).
    unfold CreateSpritesheet.resize_with_padding.
    change (PIL.size im) with (49, 49). cbv beta iota.
    rewrite Hodd. cbn [mbind outcome_bind].
    destruct (resize_size K im (127, 127) PIL.LANCZOS)
      as (resized & Hres & Hsize & Hmode);
      [cbn; vm_compute; split; discriminate
      |cbn; vm_compute; split; discriminate|].
    change (PIL.im_mode im) with PIL.RGBA in Hmode.
    rewrite Hres. cbn [mbind outcome_bind].
    rewrite (new_blank K PIL.RGBA (128, 128) ([r; g; b] ++ [255]) [r; g; b; 255]
               ltac:(vm_compute; split; discriminate)
               ltac:(vm_compute; split; discriminate)
               (rgba_ink_four r g b 255 Hr Hg Hb ltac:(lia))).
    cbn [mbind outcome_bind].
    unfold PIL.paste. rewrite !Hmode.
    cbn [PIL.im_mode PIL.size PIL.mode_name String.eqb Ascii.eqb Bool.eqb].
    rewrite !Hmode. cbn [PIL.mask_band].
    change (bool_decide (PIL.RGBA = PIL.RGBA)) with true. cbv iota.
    rewrite bool_decide_eq_true_2 by reflexivity. cbn [negb].
    eexists. split; [reflexivity|]. split; [reflexivity|].
    intros i. cbn [PIL.getpixel]. unfold PIL.width, PIL.height. rewrite Hsize.
    cbn [fst snd]. change ((128 - 127) / 2) with 0.
    assert ((127 <? 0 + 127) = false) as -> by reflexivity.
    rewrite !andb_false_r. cbn [andb]. split; reflexivity.
Qed.

(** On both images the letterbox claim of the specification is false. *)
Lemma letterbox_claim_fails (K : PIL.kernels) (bg_color : PIL.pixel) :
  ~ letterboxed K (Samples.solid PIL.RGB 300 2 [200; 30; 30]) 128 bg_color
  /\ ~ letterboxed K (Samples.solid PIL.RGBA 49 49 [200; 30; 30; 255]) 128 bg_color.
Proof.
  split.
  - intros (out & nw & nh & Hrun & _).
    unfold CreateSpritesheet.resize_with_padding in Hrun.
    change (PIL.size (Samples.solid PIL.RGB 300 2 [200; 30; 30])) with (300, 2) in Hrun.
    cbv beta iota in Hrun.
    replace (CreateSpritesheet.scaled_size 300 2 128) with (Returned (128, 0) : outcome (Z * Z))
      in Hrun by (vm_compute; reflexivity).
    cbn [mbind outcome_bind] in Hrun.
    rewrite resize_refused in Hrun by (cbn; unfold PIL.INT_MIN, PIL.INT_MAX; lia).
    discriminate.
  - intros (out & nw & nh & _ & Hscaled & _ & Hmax & _).
    vm_compute in Hscaled. injection Hscaled as <- <-. discriminate.
Qed.

(** On frames of the four video sizes the scaled content does reach the
    edges of a 128-pixel cell along its long side. *)
Lemma letterbox_of_video_frames :
  CreateSpritesheet.scaled_size 1280 720 128 = Returned (128, 72)
  /\ CreateSpritesheet.scaled_size 720 1280 128 = Returned (72, 128)
  /\ CreateSpritesheet.scaled_size 1792 1024 128 = Returned (128, 73)
  /\ CreateSpritesheet.scaled_size 1024 1792 128 = Returned (73, 128).
Proof. repeat split; vm_compute; reflexivity. Qed.

(** ** The sprite-sheet composer *)

(** A loop that leaves the world alone keeps what its body keeps. *)
Lemma for_fold_invariant {W A B : Type} (I : B -> Prop) (body : B -> A -> M W B)
    (w : W) (xs : list A) : forall acc,
  I acc ->
  (forall x b, In x xs -> I b -> exists b', body b x w = (Returned b', w) /\ I b') ->
  exists acc', for_fold xs acc body w = (Returned acc', w) /\ I acc'.
Proof.
  induction xs as [|x xs IH]; intros acc Hacc Hbody.
  - exists acc. split; [reflexivity|exact Hacc].
  - destruct (Hbody x acc (or_introl eq_refl) Hacc) as (b' & Hrun & Hb').
    cbn [for_fold]. unfold mbind, M_bind. rewrite Hrun.
    apply IH; [exact Hb'|]. intros y b Hy. apply Hbody. right. exact Hy.
Qed.

Lemma in_enumerate_from {A : Type} (xs : list A) : forall i j x,
  In (j, x) (enumerate_from i xs) -> In x xs.
Proof.
  induction xs as [|y xs IH]; intros i j x; cbn [enumerate_from In]; [tauto|].
  intros [H|H]; [injection H as _ <-; tauto|]. right. exact (IH _ _ _ H).
Qed.

Section Tree.
Import CreateSpritesheet.
Context (B : builtins).

Lemma lookup_set_entry nm n es : lookup_entry nm (set_entry nm n es) = Some n.
Proof.
  induction es as [|[k v] es IH]; cbn [set_entry lookup_entry].
  - rewrite String.eqb_refl. reflexivity.
  - destruct (String.eqb k nm) eqn:Hk; cbn [lookup_entry].
    + rewrite String.eqb_refl. reflexivity.
    + rewrite Hk. exact IH.
Qed.

Lemma set_entry_same nm n es : lookup_entry nm es = Some n -> set_entry nm n es = es.
Proof.
  induction es as [|[k v] es IH]; cbn [set_entry lookup_entry]; [discriminate|].
  destruct (String.eqb k nm) eqn:Hk.
  - apply String.eqb_eq in Hk. intros H. injection H as ->. subst k. reflexivity.
  - intros H. rewrite (IH H). reflexivity.
Qed.

(** Where the input directory is, the directory "output" is. *)
Lemma input_dir_has_output (w : world) es :
  resolve INPUT_DIR (Dir (cwd w)) = Some (Dir es) ->
  exists sub, lookup_entry "output" (cwd w) = Some (Dir sub)
              /\ lookup_entry "sprite_frames" sub = Some (Dir es).
Proof.
  unfold INPUT_DIR. cbn [resolve].
  destruct (lookup_entry "output" (cwd w)) as [[f|sub]|]; try discriminate.
  destruct (lookup_entry "sprite_frames" sub) as [[f|es']|] eqn:Hsf;
    try discriminate.
  intros H. injection H as <-. exists sub. split; [reflexivity|exact Hsf].
Qed.

Lemma mkdir_output (w : world) sub :
  lookup_entry "output" (cwd w) = Some (Dir sub) ->
  mkdir B (parent OUTPUT_FILE) w = (Returned tt, w).
Proof.
  intros H. unfold mkdir, OUTPUT_FILE, parent. cbn [removelast mkdir_parents].
  rewrite H. cbn [mbind outcome_bind]. rewrite (set_entry_same _ _ _ H).
  destruct w. reflexivity.
Qed.

Lemma save_output (w : world) (im : PIL.image) sub :
  lookup_entry "output" (cwd w) = Some (Dir sub) ->
  (forall es, lookup_entry "spritesheet.png" sub <> Some (Dir es)) ->
  exists tree,
    save B im OUTPUT_FILE w = (Returned tt, mkWorld tree (stdout w))
    /\ resolve OUTPUT_FILE (Dir tree) = Some (File (ImageFile im)).
Proof.
  intros Hout Hfree. unfold save, OUTPUT_FILE. cbn [write_file]. rewrite Hout.
  destruct (lookup_entry "spritesheet.png" sub) as [[f|es]|] eqn:Hsheet;
    [|exfalso; exact (Hfree es eq_refl)|];
    cbn [mbind outcome_bind];
    (eexists; split; [reflexivity|]);
    cbn [resolve]; rewrite !lookup_set_entry; reflexivity.
Qed.

End Tree.

Section Composer.
Import CreateSpritesheet.
Context (K : PIL.kernels) (B : builtins).

Lemma frames_of_tree (w1 w : world) (folder : path) :
  cwd w1 = cwd w -> frames_of w1 folder = frames_of w folder.
Proof. unfold frames_of. intros ->. reflexivity. Qed.

Lemma glob_frames_sorted (w : world) (folder : path) :
  exists found,
    glob_frames folder w = (Returned found, w)
    /\ sorted found = frames_of w folder.
Proof.
  unfold glob_frames, frames_of.
  destruct (resolve folder (Dir (cwd w))) as [[f|es]|];
    eexists; (split; [reflexivity|]); reflexivity.
Qed.

Lemma load_folder_step (w w1 : world) (folder : path)
    (animations : gmap string (list path)) (max_frames : Z) :
  cwd w1 = cwd w ->
  load_folder (animations, max_frames) folder w1
  = (Returned (<[name folder := frames_of w folder]> animations,
               Z.max max_frames (Z.of_nat (length (frames_of w folder)))),
     mkWorld (cwd w)
       (stdout w1 ++ ["  " +:+ name folder +:+ ": "
                        +:+ str_int (Z.of_nat (length (frames_of w folder)))
                        +:+ " frames"])).
Proof.
  intros Hw1.
  destruct (glob_frames_sorted w1 folder) as (found & Hglob & Hsorted).
  rewrite (frames_of_tree w1 w folder Hw1) in Hsorted.
  unfold load_folder, mbind, M_bind. rewrite Hglob.
  cbv zeta. rewrite Hsorted. unfold print, mret, M_ret. rewrite Hw1. reflexivity.
Qed.

Lemma load_frames_from (w : world) (folders : list path) :
  forall animations max_frames w1,
    cwd w1 = cwd w ->
    exists lines,
      for_fold folders (animations, max_frames) load_folder w1
      = (Returned (loaded_frames w folders animations,
                   loaded_max w folders max_frames),
         mkWorld (cwd w) (stdout w1 ++ lines)).
Proof.
  induction folders as [|folder folders IH]; intros animations max_frames w1 Hw1.
  - exists []. cbn. rewrite app_nil_r, <- Hw1. destruct w1. reflexivity.
  - cbn [for_fold]. unfold mbind, M_bind.
    rewrite (load_folder_step w w1 folder animations max_frames Hw1).
    destruct (IH (<[name folder := frames_of w folder]> animations)
                (Z.max max_frames (Z.of_nat (length (frames_of w folder))))
                (mkWorld (cwd w)
                   (stdout w1 ++ ["  " +:+ name folder +:+ ": "
                      +:+ str_int (Z.of_nat (length (frames_of w folder)))
                      +:+ " frames"])) eq_refl) as (lines & Hrest).
    rewrite Hrest. eexists. cbn [stdout loaded_frames loaded_max fold_left].
    rewrite <- app_assoc. reflexivity.
Qed.

Lemma loaded_max_is_max (w : world) (folders : list path) : forall m,
  0 <= m ->
  loaded_max w folders m
  = Z.max m (foldr Z.max 0
               (map (fun folder => Z.of_nat (length (frames_of w folder))) folders)).
Proof.
  induction folders as [|f folders IH]; intros m Hm; cbn [loaded_max fold_left map foldr].
  - lia.
  - fold (loaded_max w folders (Z.max m (Z.of_nat (length (frames_of w f))))).
    rewrite IH by lia. lia.
Qed.

Lemma loaded_frames_other (w : world) (folders : list path) (nm : string) :
  forall animations,
    ~ In nm (map name folders) ->
    loaded_frames w folders animations !! nm = animations !! nm.
Proof.
  induction folders as [|f folders IH]; intros animations Hnm;
    cbn [loaded_frames fold_left]; [reflexivity|].
  fold (loaded_frames w folders (<[name f := frames_of w f]> animations)).
  cbn [map In] in Hnm. rewrite IH by tauto.
  apply lookup_insert_ne. tauto.
Qed.

(** Folders told apart by their names find their own frames in the
    dictionary. *)
Lemma loaded_frames_lookup (w : world) (folders : list path) :
  forall animations folder,
    In folder folders ->
    (forall g, In g folders -> name g = name folder -> g = folder) ->
    loaded_frames w folders animations !! name folder
    = Some (frames_of w folder).
Proof.
  induction folders as [|f folders IH]; intros animations folder Hin Hinj;
    [destruct Hin|].
  cbn [loaded_frames fold_left].
  fold (loaded_frames w folders (<[name f := frames_of w f]> animations)).
  destruct (in_dec (fun p q : path => decide (p = q)) folder folders)
    as [Hrest|Hrest].
  - apply IH; [exact Hrest|]. intros g Hg. apply Hinj. right. exact Hg.
  - destruct Hin as [->|Hin]; [|contradiction].
    rewrite loaded_frames_other.
    + apply lookup_insert_eq.
    + intros Hnm. apply in_map_iff in Hnm as (g & Hname & Hg).
      apply Hrest. rewrite <- (Hinj g (or_intror Hg) Hname). exact Hg.
Qed.

(** Preparing a frame reads the tree and changes nothing. *)
Lemma prepare_frame_pure (folder frame_path : path) (w : world) :
  prepare_frame K B folder frame_path w
  = (prepared K B (cwd w) folder frame_path, w).
Proof.
  unfold prepared, prepare_frame, mbind, M_bind, Image_open, lift, mret, M_ret.
  cbn [cwd].
  destruct (resolve frame_path (Dir (cwd w))) as [[[data|im]|es]|]; try reflexivity.
  destruct (if String.eqb (name folder) "hatching"
            then resize_with_padding K im FRAME_SIZE BACKGROUND_COLOR
            else PIL.resize K im (FRAME_SIZE, FRAME_SIZE) PIL.LANCZOS)
    as [resized| |]; try reflexivity.
  destruct (String.eqb (PIL.mode_name (PIL.im_mode resized)) "RGBA");
    [|destruct (negb (String.eqb (PIL.mode_name (PIL.im_mode resized)) "RGB"));
      reflexivity].
  destruct (PIL.new K PIL.RGB (FRAME_SIZE, FRAME_SIZE) BACKGROUND_COLOR)
    as [bg| |]; try reflexivity.
  destruct (PIL.split_band resized 3) as [alpha| |]; reflexivity.
Qed.

Lemma paste_keeps_canvas (dst src : PIL.image) (box : Z * Z) :
  exists out,
    PIL.paste K dst src box None = Returned out
    /\ PIL.size out = PIL.size dst /\ PIL.im_mode out = PIL.im_mode dst.
Proof.
  unfold PIL.paste. destruct box as [x0 y0].
  eexists. split; [reflexivity|]. split; reflexivity.
Qed.

(** When every frame can be prepared, the pasting loops return a sheet of
    the size of the canvas they were given. *)
Lemma paste_frames_keeps_canvas (w : world) (folders : list path)
    (animations : gmap string (list path)) (spritesheet : PIL.image) :
  (forall folder, In folder folders ->
     animations !! name folder = Some (frames_of w folder)) ->
  (forall folder frame_path,
     In folder folders -> In frame_path (frames_of w folder) ->
     is_Returned (prepared K B (cwd w) folder frame_path)) ->
  forall w1, cwd w1 = cwd w ->
  exists sheet,
    paste_frames K B folders animations spritesheet w1 = (Returned sheet, w1)
    /\ PIL.size sheet = PIL.size spritesheet.
Proof.
  intros Hanim Hprep w1 Hw1. unfold paste_frames.
  apply (for_fold_invariant (fun s => PIL.size s = PIL.size spritesheet));
    [reflexivity|].
  intros [row folder] sheet Hin Hsheet.
  apply in_enumerate_from in Hin.
  unfold mbind at 1, M_bind at 1. rewrite (Hanim folder Hin).
  cbn [mret M_ret].
  apply (for_fold_invariant (fun s => PIL.size s = PIL.size spritesheet));
    [exact Hsheet|].
  intros [col frame_path] sheet' Hframe Hsheet'.
  apply in_enumerate_from in Hframe.
  unfold mbind, M_bind. rewrite prepare_frame_pure, Hw1.
  specialize (Hprep folder frame_path Hin Hframe).
  destruct (prepared K B (cwd w) folder frame_path) as [frame_resized| |];
    try contradiction.
  destruct (paste_keeps_canvas sheet' frame_resized
              (col * FRAME_SIZE, row * FRAME_SIZE)) as (out & Hout & Hs & _).
  unfold lift. rewrite Hout. exists out. split; [reflexivity|congruence].
Qed.

End Composer.

(** The ink of the background colour, on an "RGB" canvas. *)
Lemma ink_background (K : PIL.kernels) :
  PIL.ink K PIL.RGB CreateSpritesheet.BACKGROUND_COLOR
  = Returned CreateSpritesheet.BACKGROUND_COLOR.
Proof. reflexivity. Qed.

(** Outside the "hatching" folder every image file can be prepared: the
    plain resize to the cell never fails. *)
Lemma plain_frame_is_prepared (K : PIL.kernels) (B : builtins)
    (tree : list (string * CreateSpritesheet.node))
    (folder frame_path : CreateSpritesheet.path) (im : PIL.image) :
  CreateSpritesheet.name folder <> "hatching"%string ->
  CreateSpritesheet.resolve frame_path (CreateSpritesheet.Dir tree)
  = Some (CreateSpritesheet.File (ImageFile im)) ->
  exists out,
    prepared K B tree folder frame_path = Returned out
    /\ PIL.im_mode out = PIL.RGB
    /\ PIL.size out = (CreateSpritesheet.FRAME_SIZE, CreateSpritesheet.FRAME_SIZE).
Proof.
  intros Hname Hfile.
  unfold prepared, CreateSpritesheet.prepare_frame, mbind, M_bind,
    CreateSpritesheet.Image_open, lift, mret, M_ret.
  cbn [CreateSpritesheet.cwd]. rewrite Hfile.
  apply String.eqb_neq in Hname. rewrite Hname.
  destruct (resize_size K im
              (CreateSpritesheet.FRAME_SIZE, CreateSpritesheet.FRAME_SIZE)
              PIL.LANCZOS) as (resized & Hres & Hsize & Hmode);
    [vm_compute; split; discriminate|vm_compute; split; discriminate|].
  rewrite Hres, mode_is_RGBA, mode_is_RGB.
  case_bool_decide as Hrgba.
  - destruct (flatten_onto K resized 255 255 255 Hrgba)
      as (out & Hflat & Hom & Hos & _);
      try (rewrite Hsize; vm_compute; split; discriminate); try lia.
    rewrite Hsize in Hflat. unfold mbind, outcome_bind in Hflat.
    change [255; 255; 255] with CreateSpritesheet.BACKGROUND_COLOR in Hflat.
    destruct (PIL.new K PIL.RGB
                (CreateSpritesheet.FRAME_SIZE, CreateSpritesheet.FRAME_SIZE)
                CreateSpritesheet.BACKGROUND_COLOR) as [bg| |]; try discriminate.
    destruct (PIL.split_band resized 3) as [alpha| |]; try discriminate.
    cbn [fst]. rewrite Hflat. exists out. split; [reflexivity|].
    split; [exact Hom|]. rewrite Hos. exact Hsize.
  - case_bool_decide as Hrgb; cbn [negb fst].
    + exists resized. auto.
    + exists (PIL.convert K resized PIL.RGB). split; [reflexivity|].
      unfold PIL.convert. rewrite bool_decide_eq_false_2 by exact Hrgb.
      split; [reflexivity|exact Hsize].
Qed.

Section ComposerMain.
Import CreateSpritesheet.
Context (K : PIL.kernels) (B : builtins).

Lemma in_sorted (ps : list path) (p : path) : In p (sorted ps) <-> In p ps.
Proof.
  unfold sorted. rewrite <- !list_elem_of_In.
  rewrite (merge_sort_Permutation path_leb ps). reflexivity.
Qed.

Lemma length_sorted (ps : list path) : length (sorted ps) = length ps.
Proof.
  unfold sorted. apply Permutation_length, merge_sort_Permutation.
Qed.

(** An animation folder is a child of the input directory, so its name
    tells it apart. *)
Lemma animation_folder_is_child (w : world) (folder : path) :
  In folder (animation_folders w) -> folder = INPUT_DIR ++ [name folder].
Proof.
  unfold animation_folders.
  destruct (resolve INPUT_DIR (Dir (cwd w))) as [[f|es]|]; try (intros []).
  rewrite in_sorted, filter_In, in_map_iff. intros [(e & <- & _) _].
  unfold name. rewrite last_last. reflexivity.
Qed.

Lemma animation_folders_by_name (w : world) (f g : path) :
  In f (animation_folders w) -> In g (animation_folders w) ->
  name g = name f -> g = f.
Proof.
  intros Hf Hg Hname.
  rewrite (animation_folder_is_child w f Hf), (animation_folder_is_child w g Hg).
  rewrite Hname. reflexivity.
Qed.

(** [main] up to its first test. *)
Lemma main_start (w : world) es :
  resolve INPUT_DIR (Dir (cwd w)) = Some (Dir es) ->
  main K B w
  = (if bool_decide (animation_folders w = []) then
       print ("No animation folders found in " +:+ path_str INPUT_DIR)
     else
       _ ← print ("Found " +:+ str_int (Z.of_nat (length (animation_folders w)))
                    +:+ " animations: ["
                    +:+ join ", " (map (fun f => repr_str B (name f))
                                     (animation_folders w))
                    +:+ "]");
       '(animations, max_frames) ← load_frames (animation_folders w);
       if max_frames =? 0 then
         print "No frames found in any animation folder"
       else
         let num_animations := Z.of_nat (length (animation_folders w)) in
         let sheet_width := FRAME_SIZE * max_frames in
         let sheet_height := FRAME_SIZE * num_animations in
         _ ← print (nl +:+ "Creating sprite sheet: " +:+ str_int sheet_width +:+ "x"
                      +:+ str_int sheet_height +:+ " (" +:+ str_int max_frames
                      +:+ " columns x " +:+ str_int num_animations +:+ " rows)");
         spritesheet ← lift (PIL.new K PIL.RGB (sheet_width, sheet_height)
                               BACKGROUND_COLOR);
         spritesheet ← paste_frames K B (animation_folders w) animations spritesheet;
         _ ← mkdir B (parent OUTPUT_FILE);
         _ ← save B spritesheet OUTPUT_FILE;
         print (nl +:+ "Saved sprite sheet to " +:+ path_str OUTPUT_FILE)) w.
Proof.
  intros Hdir. unfold main. unfold mbind at 1, M_bind at 1, iterdir at 1.
  rewrite Hdir. unfold mbind at 1, M_bind at 1.
  unfold animation_folders. rewrite Hdir. reflexivity.
Qed.

Lemma frame_counts_zero (w : world) (folders : list path) :
  (forall folder, In folder folders -> frames_of w folder = []) ->
  foldr Z.max 0 (map (fun folder => Z.of_nat (length (frames_of w folder))) folders)
  = 0.
Proof.
  induction folders as [|f folders IH]; intros Hempty; cbn [map foldr]; [reflexivity|].
  rewrite IH by (intros g Hg; apply Hempty; right; exact Hg).
  rewrite (Hempty f (or_introl eq_refl)). reflexivity.
Qed.

End ComposerMain.

(** C8. With the input directory in place but no animation set in it, or
    with animation sets that all lack frames, the composer returns without
    composing: the directory tree is as it was -- no output file is
    written -- and the last line printed says that there is nothing to do. *)
Theorem nothing_to_compose (K : PIL.kernels) (B : builtins)
    (w : CreateSpritesheet.world) :
  CreateSpritesheet.is_dir w CreateSpritesheet.INPUT_DIR = true ->
  animation_folders w = []
  \/ (forall folder, In folder (animation_folders w) -> frames_of w folder = []) ->
  exists lines,
    CreateSpritesheet.main K B w
    = (Returned tt,
       CreateSpritesheet.mkWorld (CreateSpritesheet.cwd w)
         (CreateSpritesheet.stdout w ++ lines
            ++ [if bool_decide (animation_folders w = [])
                then "No animation folders found in output/sprite_frames"%string
                else "No frames found in any animation folder"%string])).
Proof.
  intros Hdir Hnothing. unfold CreateSpritesheet.is_dir in Hdir.
  destruct (CreateSpritesheet.resolve CreateSpritesheet.INPUT_DIR
              (CreateSpritesheet.Dir (CreateSpritesheet.cwd w)))
    as [[f|es]|] eqn:Hres; try discriminate.
  rewrite (main_start K B w es Hres).
  case_bool_decide as Hsets.
  - exists []. reflexivity.
  - destruct Hnothing as [Hnone|Hempty]; [contradiction|].
    unfold mbind at 1, M_bind at 1, CreateSpritesheet.print at 1.
    set (w1 := CreateSpritesheet.mkWorld _ _).
    destruct (load_frames_from w (animation_folders w) ∅ 0 w1 eq_refl) as (lines & Hload).
    unfold mbind at 1, M_bind at 1, CreateSpritesheet.load_frames. rewrite Hload.
    rewrite (loaded_max_is_max w (animation_folders w) 0) by lia.
    rewrite (frame_counts_zero w (animation_folders w) Hempty).
    change (Z.max 0 0) with 0. change (0 =? 0) with true. cbv iota.
    unfold CreateSpritesheet.print.
    cbn [CreateSpritesheet.cwd CreateSpritesheet.stdout].
    exists (("Found " +:+ str_int (Z.of_nat (length (animation_folders w)))
               +:+ " animations: ["
               +:+ join ", " (map (fun f => repr_str B (CreateSpritesheet.name f))
                                (animation_folders w))
               +:+ "]") :: lines).
    subst w1. cbn [CreateSpritesheet.stdout]. do 2 f_equal.
    rewrite <- !app_assoc. cbn [app]. reflexivity.
Qed.

Lemma nothing_to_compose_witness :
  (exists lines,
     CreateSpritesheet.main Samples.kernels Samples.builtins Samples.no_sets
     = (Returned tt,
        CreateSpritesheet.mkWorld (CreateSpritesheet.cwd Samples.no_sets)
          (lines ++ ["No animation folders found in output/sprite_frames"%string])))
  /\ (exists lines,
        CreateSpritesheet.main Samples.kernels Samples.builtins Samples.empty_sets
        = (Returned tt,
           CreateSpritesheet.mkWorld (CreateSpritesheet.cwd Samples.empty_sets)
             (lines ++ ["No frames found in any animation folder"%string]))).
Proof.
  split.
  - destruct (nothing_to_compose Samples.kernels Samples.builtins Samples.no_sets)
      as (lines & Hrun); [vm_compute; reflexivity|left; vm_compute; reflexivity|].
    exists lines. exact Hrun.
  - destruct (nothing_to_compose Samples.kernels Samples.builtins Samples.empty_sets)
      as (lines & Hrun); [vm_compute; reflexivity| |].
    + right. intros folder Hfolder. vm_compute in Hfolder.
      destruct Hfolder as [<-|[<-|[]]]; vm_compute; reflexivity.
    + exists lines. exact Hrun.
Defined.

(** * Further properties of the code *)

(** ** The polling loop *)

Section Polling.
Import Generate.
Context (S : service) (video_id : string) (poll_interval timeout : Z).


(** One turn of the loop on a job that is "failed". *)
Lemma poll_failed fuel elapsed w j :
  elapsed < timeout ->
  retrieve S video_id (checks w) = Ok j ->
  status j = "failed"%string ->
  exists w',
    poll S video_id poll_interval timeout (Datatypes.S fuel) elapsed w
    = (Raised (RuntimeError (failed_message j)), w')
    /\ checks w' = Datatypes.S (checks w) /\ slept w' = slept w
    /\ files w' = files w.
Proof.
  intros Hlt Hj Hf. cbn [poll].
  assert ((elapsed <? timeout) = true) as -> by (apply Z.ltb_lt; lia).
  cbn [negb]. unfold mbind, M_bind, videos_retrieve. rewrite Hj. cbn [of_reply].
  unfold print at 1. rewrite Hf. cbn [String.eqb Ascii.eqb Bool.eqb].
  eexists. split; [reflexivity|]. cbn. auto.
Qed.

(** One turn of the loop when the request for the status fails. *)
Lemma poll_request_fails fuel elapsed w msg :
  elapsed < timeout ->
  retrieve S video_id (checks w) = Fails msg ->
  poll S video_id poll_interval timeout (Datatypes.S fuel) elapsed w
  = (Raised (APIError msg),
     mkWorld (Datatypes.S (checks w)) (slept w) (stdout w) (files w)).
Proof.
  intros Hlt Hj. cbn [poll].
  assert ((elapsed <? timeout) = true) as -> by (apply Z.ltb_lt; lia).
  cbn [negb]. unfold mbind, M_bind, videos_retrieve. rewrite Hj. reflexivity.
Qed.

(** Whatever the service answers, [n] turns are enough once
    [timeout <= elapsed + n * poll_interval]: the loop ends within them. *)
Lemma poll_bounded (n : nat) : forall fuel elapsed w,
  (n <= fuel)%nat ->
  0 <= poll_interval ->
  timeout <= elapsed + Z.of_nat n * poll_interval ->
  exists m w',
    (m <= n)%nat
    /\ snd (poll S video_id poll_interval timeout fuel elapsed w) = w'
    /\ fst (poll S video_id poll_interval timeout fuel elapsed w) <> OutOfFuel
    /\ (checks w' <= checks w + n)%nat
    /\ slept w' = slept w ++ repeat poll_interval m
    /\ files w' = files w.
Proof.
  induction n as [|n IH]; intros fuel elapsed w Hfuel Hp Hge.
  - exists 0%nat, w. rewrite poll_timed_out by lia. cbn [fst snd repeat].
    rewrite app_nil_r. repeat split; auto; try discriminate; try lia.
  - destruct (Z_lt_le_dec elapsed timeout) as [Hlt|Hdone].
    2:{ exists 0%nat, w. rewrite poll_timed_out by lia. cbn [fst snd repeat].
        rewrite app_nil_r. repeat split; auto; try discriminate; try lia. }
    destruct fuel as [|fuel]; [lia|].
    destruct (retrieve S video_id (checks w)) as [j|msg] eqn:Hj.
    2:{ rewrite (poll_request_fails fuel elapsed w msg Hlt Hj).
        exists 0%nat, (mkWorld (Datatypes.S (checks w)) (slept w) (stdout w) (files w)).
        cbn [fst snd repeat checks slept files].
        rewrite app_nil_r. repeat split; auto; try discriminate; try lia. }
    destruct (String.eqb (status j) "completed") eqn:Hc.
    { apply String.eqb_eq in Hc.
      destruct (poll_completed S video_id poll_interval timeout fuel elapsed w j
                  Hlt Hj Hc) as (w' & Hrun & Hchecks & Hs & Hf).
      exists 0%nat, w'. rewrite Hrun. cbn [fst snd repeat]. rewrite app_nil_r.
      repeat split; auto; try discriminate; try lia. }
    destruct (String.eqb (status j) "failed") eqn:Hfail.
    { apply String.eqb_eq in Hfail.
      destruct (poll_failed fuel elapsed w j Hlt Hj Hfail)
        as (w' & Hrun & Hchecks & Hs & Hf).
      exists 0%nat, w'. rewrite Hrun. cbn [fst snd repeat]. rewrite app_nil_r.
      repeat split; auto; try discriminate; try lia. }
    apply String.eqb_neq in Hc, Hfail.
    destruct (decide (poll_interval <= max_sleep)) as [Hmax|Hmax].
    2:{ destruct (poll_sleep_raises S video_id poll_interval timeout fuel elapsed w j
                    Hlt ltac:(lia) Hj (conj Hc Hfail))
          as (e & w' & Hrun & _ & Hchecks & Hs & Hf).
        exists 0%nat, w'. rewrite Hrun. cbn [fst snd repeat]. rewrite app_nil_r.
        repeat split; auto; try discriminate; try lia. }
    rewrite (poll_continue S video_id poll_interval timeout fuel elapsed w j
               Hlt (conj Hp Hmax) Hj (conj Hc Hfail)).
    destruct (IH fuel (elapsed + poll_interval) (after_check poll_interval j elapsed w))
      as (m & w' & Hm & Hw' & Hout & Hchecks & Hs & Hf); [lia|exact Hp|lia|].
    exists (Datatypes.S m), w'. cbn [after_check checks slept files] in *.
    split; [lia|]. split; [exact Hw'|]. split; [exact Hout|].
    split; [lia|]. split; [|exact Hf].
    rewrite Hs, <- app_assoc. reflexivity.
Qed.

End Polling.

(** [wait_for_completion] is the loop, entered at zero after one line of
    output. *)
Lemma wait_is_poll (S : service) (video_id : string) (poll_interval timeout : Z)
    (fuel : nat) (w : Generate.world) :
  exists w0,
    Generate.wait_for_completion S video_id poll_interval timeout fuel w
    = Generate.poll S video_id poll_interval timeout fuel 0 w0
    /\ Generate.checks w0 = Generate.checks w
    /\ Generate.slept w0 = Generate.slept w
    /\ Generate.files w0 = Generate.files w.
Proof.
  unfold Generate.wait_for_completion, mbind, M_bind, Generate.print at 1.
  eexists. split; [reflexivity|]. cbn. auto.
Qed.



(** X2. With a positive interval the poll always ends, whatever the service
    answers: it makes at most [n] checks and sleeps at most [n] intervals,
    [n] being the least number with [timeout <= n * poll_interval], and it
    touches no file. *)
Theorem polling_is_bounded (S : service) (video_id : string)
    (poll_interval timeout : Z) (fuel : nat) (w : Generate.world) :
  0 < poll_interval ->
  (checks_before_timeout poll_interval timeout <= fuel)%nat ->
  let n := checks_before_timeout poll_interval timeout in
  let run := Generate.wait_for_completion S video_id poll_interval timeout fuel w in
  fst run <> OutOfFuel
  /\ (Generate.checks (snd run) <= Generate.checks w + n)%nat
  /\ (exists m, (m <= n)%nat
                /\ Generate.slept (snd run)
                   = Generate.slept w ++ repeat poll_interval m)
  /\ Generate.time_slept (snd run) - Generate.time_slept w
     <= Z.of_nat n * poll_interval
  /\ Generate.files (snd run) = Generate.files w.
Proof.
  intros Hp Hfuel n run. subst run.
  destruct (checks_before_timeout_spec poll_interval timeout Hp) as (_ & Hge & _).
  destruct (wait_is_poll S video_id poll_interval timeout fuel w)
    as (w0 & -> & Hc0 & Hs0 & Hf0).
  destruct (poll_bounded S video_id poll_interval timeout n fuel 0 w0 Hfuel
              ltac:(lia) ltac:(fold n in Hge; lia))
    as (m & w' & Hm & Hw' & Hout & Hc & Hs & Hf).
  rewrite Hw'. split; [exact Hout|]. split; [lia|].
  split; [exists m; split; [exact Hm|congruence]|].
  split; [|congruence].
  rewrite (time_slept_app w (repeat poll_interval m) w') by congruence.
  rewrite sum_repeat. nia.
Qed.

Lemma polling_is_bounded_witness :
  let run := Generate.wait_for_completion (MoreSamples.unreachable_after 7) "video_1"
               10 600 60 Samples.fresh in
  fst run <> OutOfFuel
  /\ (Generate.checks (snd run) <= 60)%nat
  /\ Generate.time_slept (snd run) <= 600.
Proof.
  destruct (polling_is_bounded (MoreSamples.unreachable_after 7) "video_1" 10 600 60
              Samples.fresh ltac:(lia) ltac:(vm_compute; lia))
    as (Hout & Hc & _ & Ht & _).
  cbv zeta. split; [exact Hout|]. split; [exact Hc|].
  change (Generate.time_slept Samples.fresh) with 0 in Ht.
  change (Z.of_nat (checks_before_timeout 10 600) * 10) with 600 in Ht. lia.
Defined.







(** ** The size string *)

Lemma split_not_nil (sep : ascii) (s : string) : split sep s <> [].
Proof.
  induction s as [|c s IH]; cbn [split]; [discriminate|].
  destruct (Ascii.eqb c sep); [discriminate|].
  destruct (split sep s); discriminate.
Qed.

Lemma join_cons (sep a b : string) (l : list string) :
  join sep (a :: b :: l) = a +:+ sep +:+ join sep (b :: l).
Proof. reflexivity. Qed.

(** Joining the parts with the separator gives the string back. *)
Lemma join_split (sep : ascii) (s : string) :
  join (String sep EmptyString) (split sep s) = s.
Proof.
  induction s as [|c s IH]; cbn [split]; [reflexivity|].
  destruct (Ascii.eqb c sep) eqn:Hc.
  - apply Ascii.eqb_eq in Hc. subst c.
    pose proof (split_not_nil sep s) as Hne.
    destruct (split sep s) as [|hd tl] eqn:Hs; [contradiction|].
    rewrite join_cons, IH. reflexivity.
  - destruct (split sep s) as [|hd tl] eqn:Hs.
    + exfalso. exact (split_not_nil sep s Hs).
    + destruct tl as [|hd' tl'].
      * cbn [join] in *. rewrite IH. reflexivity.
      * rewrite join_cons in *. rewrite <- IH. reflexivity.
Qed.

(** No part holds the separator. *)
Lemma split_parts_clean (sep : ascii) (s : string) :
  Forall (fun part => occurs sep part = false) (split sep s).
Proof.
  induction s as [|c s IH]; cbn [split].
  - repeat constructor.
  - destruct (Ascii.eqb c sep) eqn:Hc.
    + constructor; [reflexivity|exact IH].
    + destruct (split sep s) as [|hd tl]; [repeat constructor; cbn; rewrite Hc; reflexivity|].
      apply Forall_cons in IH as [Hhd Htl].
      constructor; [cbn [occurs]; rewrite Hc, Hhd; reflexivity|exact Htl].
Qed.

Lemma split_clean (sep : ascii) (s : string) :
  occurs sep s = false -> split sep s = [s].
Proof.
  induction s as [|c s IH]; cbn [split occurs]; [reflexivity|].
  intros H. apply orb_false_iff in H as [Hc Hs].
  rewrite Hc, (IH Hs). reflexivity.
Qed.

Lemma split_at_first (sep : ascii) (a b : string) :
  occurs sep a = false ->
  split sep (a +:+ String sep b) = a :: split sep b.
Proof.
  induction a as [|c a IH]; simpl; intros H.
  - rewrite Ascii.eqb_refl. reflexivity.
  - apply orb_false_iff in H as [Hc Ha]. rewrite Hc, (IH Ha). reflexivity.
Qed.

(** X6. [parse_size] accepts exactly the strings with one "x" whose two
    sides [int()] accepts: it returns [(w, h)] if and only if the string is
    [a + "x" + b] with no "x" in [a] or [b], [int(a) = w] and [int(b) = h]. *)
Theorem parse_size_accepts (B : builtins) (target_size : string) (width height : Z) :
  Generate.parse_size B target_size = Returned (width, height)
  <-> exists a b,
        target_size = a +:+ "x" +:+ b
        /\ occurs "x" a = false /\ occurs "x" b = false
        /\ int_of_str B a = Returned width /\ int_of_str B b = Returned height.
Proof.
  unfold Generate.parse_size. split.
  - pose proof (join_split "x" target_size) as Hjoin.
    pose proof (split_parts_clean "x" target_size) as Hclean.
    destruct (split "x" target_size) as [|a [|b [|c rest]]]; try discriminate.
    + destruct (int_of_str B a); discriminate.
    + intros H. exists a, b. cbn [join] in Hjoin.
      apply Forall_cons in Hclean as [Ha Hrest].
      apply Forall_cons in Hrest as [Hb _].
      split; [symmetry; exact Hjoin|]. split; [exact Ha|]. split; [exact Hb|].
      destruct (int_of_str B a) as [w| |]; try discriminate.
      destruct (int_of_str B b) as [h| |]; try discriminate.
      cbn in H. injection H as -> ->. auto.
    + destruct (int_of_str B a); try discriminate.
      destruct (int_of_str B b); try discriminate.
      destruct (int_of_str B c); discriminate.
  - intros (a & b & -> & Ha & Hb & Hw & Hh).
    change (a +:+ "x" +:+ b) with (a +:+ String "x" b).
    rewrite (split_at_first "x" a b Ha), (split_clean "x" b Hb), Hw, Hh.
    reflexivity.
Qed.

(** ** The reference image *)

(** What a returned reference image tells about the call. *)
Lemma reference_image_returned (K : PIL.kernels) (B : builtins)
    (image_path target_size : string) (w w' : Generate.world) (out : PIL.image) :
  Generate.resize_image_to_match K B image_path target_size w
  = (Returned (PIL.PNG out), w') ->
  exists width height,
    Generate.parse_size B target_size = Returned (width, height)
    /\ 1 <= width <= PIL.MAX_XSIZE /\ 1 <= height <= PIL.INT_MAX
    /\ PIL.size out = (width, height)
    /\ PIL.im_mode out <> PIL.RGBA.
Proof.
  intros Hrun.
  destruct (Generate.parse_size B target_size) as [[width height]| |] eqn:Hparse;
    try (unfold Generate.resize_image_to_match, mbind, M_bind, lift in Hrun;
         rewrite Hparse in Hrun; discriminate).
  destruct (Generate.files w !! image_path) as [[data|img]|] eqn:Hfile;
    try (unfold Generate.resize_image_to_match, mbind, M_bind, lift,
           Generate.Image_open in Hrun;
         rewrite Hparse, Hfile in Hrun; discriminate).
  destruct (PIL.resize K img (width, height) PIL.NEAREST) as [resized| |] eqn:Hres;
    try (unfold Generate.resize_image_to_match, mbind, M_bind, lift,
           Generate.Image_open in Hrun;
         rewrite Hparse, Hfile, Hres in Hrun; discriminate).
  destruct (resize_returns_size K img resized _ _ Hres) as (_ & _ & Hw & Hh).
  destruct (reference_image_cases K B image_path target_size w img resized
              width height Hparse Hfile Hres)
    as (out' & Hrun' & Hsize & Hplain & Hflat).
  rewrite Hrun' in Hrun. injection Hrun as -> _.
  exists width, height.
  split; [reflexivity|]. split; [exact Hw|]. split; [exact Hh|].
  split; [exact Hsize|].
  destruct (decide (PIL.im_mode resized = PIL.RGBA)) as [Hrgba|Hne].
  - destruct (Hflat Hrgba) as [Hom _]. rewrite Hom. discriminate.
  - rewrite (Hplain Hne). exact Hne.
Qed.

(** X7. [resize_image_to_match] only reads: whatever it returns or raises,
    the world is as it was.  The size is parsed before the file is looked
    at, so a bad size string raises the parser's error even when the file
    is missing; a missing file, or one that is no image, raises an
    [OSError]; on an image, a width or a height below one that fits a C
    integer is refused with a [ValueError], and one that does not fit a C
    integer with an [OverflowError]. *)
Theorem reference_image_failures (K : PIL.kernels) (B : builtins)
    (image_path target_size : string) (w : Generate.world) :
  let run := Generate.resize_image_to_match K B image_path target_size w in
  snd run = w
  /\ (forall e, Generate.parse_size B target_size = Raised e -> fst run = Raised e)
  /\ (forall width height,
        Generate.parse_size B target_size = Returned (width, height) ->
        (Generate.files w !! image_path = None ->
         exists msg, fst run = Raised (OSError msg))
        /\ (forall data, Generate.files w !! image_path = Some (Bytes data) ->
            exists msg, fst run = Raised (OSError msg))
        /\ (forall img, Generate.files w !! image_path = Some (ImageFile img) ->
            PIL.INT_MIN <= width <= PIL.INT_MAX ->
            PIL.INT_MIN <= height <= PIL.INT_MAX ->
            width < 1 \/ height < 1 ->
            exists msg, fst run = Raised (ValueError msg))
        /\ (forall img, Generate.files w !! image_path = Some (ImageFile img) ->
            ~ (PIL.INT_MIN <= width <= PIL.INT_MAX
               /\ PIL.INT_MIN <= height <= PIL.INT_MAX) ->
            exists msg, fst run = Raised (OverflowError msg))).
Proof.
  cbv zeta.
  destruct (Generate.parse_size B target_size) as [[width height]|e0|] eqn:Hparse.
  2:{ unfold Generate.resize_image_to_match, mbind, M_bind, lift. rewrite Hparse.
      split; [reflexivity|]. split; [|intros; discriminate].
      intros e' He. injection He as <-. reflexivity. }
  2:{ unfold Generate.resize_image_to_match, mbind, M_bind, lift. rewrite Hparse.
      split; [reflexivity|]. split; intros; discriminate. }
  destruct (Generate.files w !! image_path) as [[data|img]|] eqn:Hfile.
  - unfold Generate.resize_image_to_match, mbind, M_bind, lift, Generate.Image_open.
    rewrite Hparse, Hfile.
    split; [reflexivity|]. split; [intros; discriminate|].
    intros wd ht Heq. injection Heq as <- <-.
    split; [intros; discriminate|]. split; [eauto|].
    split; intros; discriminate.
  - destruct (PIL.resize K img (width, height) PIL.NEAREST) as [resized|e|] eqn:Hres.
    + destruct (reference_image_cases K B image_path target_size w img resized
                  width height Hparse Hfile Hres) as (out & Hrun & _).
      rewrite Hrun.
      split; [reflexivity|]. split; [intros; discriminate|].
      intros wd ht Heq. injection Heq as <- <-.
      split; [intros; discriminate|]. split; [intros; discriminate|].
      split.
      * intros img' _ Hw Hh Hsmall.
        rewrite (resize_refused K img (width, height) PIL.NEAREST Hw Hh Hsmall) in Hres.
        discriminate.
      * intros img' _ Hout.
        destruct (resize_overflows K img (width, height) PIL.NEAREST Hout) as [msg Hmsg].
        congruence.
    + unfold Generate.resize_image_to_match, mbind, M_bind, lift, Generate.Image_open.
      rewrite Hparse, Hfile, Hres.
      split; [reflexivity|]. split; [intros; discriminate|].
      intros wd ht Heq. injection Heq as <- <-.
      split; [intros; discriminate|]. split; [intros; discriminate|].
      split.
      * intros img' _ Hw Hh Hsmall.
        rewrite (resize_refused K img (width, height) PIL.NEAREST Hw Hh Hsmall) in Hres.
        injection Hres as <-. eauto.
      * intros img' _ Hout.
        destruct (resize_overflows K img (width, height) PIL.NEAREST Hout) as [msg Hmsg].
        rewrite Hmsg in Hres. injection Hres as <-. eauto.
    + exfalso. exact (resize_settles K img (width, height) PIL.NEAREST Hres).
  - unfold Generate.resize_image_to_match, mbind, M_bind, lift, Generate.Image_open.
    rewrite Hparse, Hfile.
    split; [reflexivity|]. split; [intros; discriminate|].
    intros wd ht Heq. injection Heq as <- <-.
    split; [unfold os_error; eauto|]. split; [intros; discriminate|].
    split; intros; discriminate.
Qed.

(** X8. Preparing a prepared image changes nothing: the image that
    [resize_image_to_match] returns, put in a file and prepared again for
    the same size, comes back as it is. *)
Theorem reference_image_is_stable (K : PIL.kernels) (B : builtins)
    (image_path again_path target_size : string) (w w' w2 : Generate.world)
    (out : PIL.image) :
  Generate.resize_image_to_match K B image_path target_size w
  = (Returned (PIL.PNG out), w') ->
  Generate.files w2 !! again_path = Some (ImageFile out) ->
  Generate.resize_image_to_match K B again_path target_size w2
  = (Returned (PIL.PNG out), w2).
Proof.
  intros Hrun Hfile.
  destruct (reference_image_returned K B image_path target_size w w' out Hrun)
    as (width & height & Hparse & Hw & Hh & Hsize & Hmode).
  assert (Hres : PIL.resize K out (width, height) PIL.NEAREST = Returned out)
    by (apply resize_same_size; [exact Hsize|exact Hw|exact Hh]).
  destruct (reference_image_cases K B again_path target_size w2 out out
              width height Hparse Hfile Hres) as (out' & Hrun' & _ & Hplain & _).
  rewrite Hrun', (Hplain Hmode). reflexivity.
Qed.

Lemma reference_image_is_stable_witness :
  exists out,
    Generate.resize_image_to_match Samples.kernels Samples.builtins
      "original.png" "8x6"
      (Samples.with_original (Samples.solid PIL.RGBA 2 2 [200; 30; 30; 128]))
    = (Returned (PIL.PNG out),
       Samples.with_original (Samples.solid PIL.RGBA 2 2 [200; 30; 30; 128]))
    /\ Generate.resize_image_to_match Samples.kernels Samples.builtins
         "original.png" "8x6" (Samples.with_original out)
       = (Returned (PIL.PNG out), Samples.with_original out).
Proof.
  destruct (reference_image_cases Samples.kernels Samples.builtins
              "original.png" "8x6"
              (Samples.with_original (Samples.solid PIL.RGBA 2 2 [200; 30; 30; 128]))
              (Samples.solid PIL.RGBA 2 2 [200; 30; 30; 128])
              (PIL.mkImage PIL.RGBA (8, 6)
                 (Samples.nearest PIL.NEAREST
                    (Samples.solid PIL.RGBA 2 2 [200; 30; 30; 128]) (8, 6)))
              8 6 eq_refl eq_refl eq_refl) as (out & Hrun & _).
  exists out. split; [exact Hrun|].
  apply (reference_image_is_stable Samples.kernels Samples.builtins
           "original.png" "original.png" "8x6" _ _ (Samples.with_original out) out Hrun).
  reflexivity.
Defined.

(** X9. On an "RGBA" source the white background shows exactly where the
    image is transparent: a fully opaque pixel of the resized image keeps
    its three colour values, a fully transparent one becomes white. *)
Theorem reference_image_opaque_and_clear (K : PIL.kernels) (B : builtins)
    (image_path target_size : string) (w : Generate.world)
    (img resized : PIL.image) (width height : Z) :
  Generate.parse_size B target_size = Returned (width, height) ->
  Generate.files w !! image_path = Some (ImageFile img) ->
  PIL.im_mode img = PIL.RGBA ->
  PIL.resize K img (width, height) PIL.NEAREST = Returned resized ->
  exists out,
    Generate.resize_image_to_match K B image_path target_size w
    = (Returned (PIL.PNG out), w)
    /\ forall x y r g b a,
         0 <= x < width -> 0 <= y < height ->
         PIL.getpixel resized x y = [r; g; b; a] ->
         0 <= r <= 255 -> 0 <= g <= 255 -> 0 <= b <= 255 ->
         (a = 255 -> PIL.getpixel out x y = [r; g; b])
         /\ (a = 0 -> PIL.getpixel out x y = [255; 255; 255]).
Proof.
  intros Hparse Hfile Hmode Hres.
  destruct (resize_returns_size K img resized _ _ Hres) as (_ & Hm & _).
  destruct (reference_image_cases K B image_path target_size w img resized
              width height Hparse Hfile Hres) as (out & Hrun & _ & _ & Hflat).
  destruct (Hflat ltac:(congruence)) as [_ Hpx].
  exists out. split; [exact Hrun|].
  intros x y r g b a Hx Hy Hp Hr Hg Hb.
  rewrite (Hpx x y Hx Hy), Hp. cbn [nth firstn PIL.blend_bands].
  split; intros ->.
  - rewrite !blend8_opaque by assumption. reflexivity.
  - rewrite !blend8_transparent by lia. reflexivity.
Qed.

Lemma reference_image_opaque_and_clear_witness :
  exists out,
    Generate.resize_image_to_match Samples.kernels Samples.builtins
      "original.png" "8x6"
      (Samples.with_original (Samples.solid PIL.RGBA 2 2 [200; 30; 30; 255]))
    = (Returned (PIL.PNG out),
       Samples.with_original (Samples.solid PIL.RGBA 2 2 [200; 30; 30; 255]))
    /\ PIL.getpixel out 3 4 = [200; 30; 30].
Proof.
  destruct (reference_image_opaque_and_clear Samples.kernels Samples.builtins
              "original.png" "8x6"
              (Samples.with_original (Samples.solid PIL.RGBA 2 2 [200; 30; 30; 255]))
              (Samples.solid PIL.RGBA 2 2 [200; 30; 30; 255])
              (PIL.mkImage PIL.RGBA (8, 6)
                 (Samples.nearest PIL.NEAREST
                    (Samples.solid PIL.RGBA 2 2 [200; 30; 30; 255]) (8, 6)))
              8 6 eq_refl eq_refl eq_refl eq_refl) as (out & Hrun & Hpx).
  exists out. split; [exact Hrun|].
  apply (Hpx 3 4 200 30 30 255); [lia|lia|reflexivity|lia|lia|lia|reflexivity].
Defined.

(** ** The download loops *)

(** A loop keeps what every turn keeps. *)
Lemma for_each_keeps {W A X : Type} (f : W -> X) (body : A -> M W unit)
    (xs : list A) :
  (forall x w, f (snd (body x w)) = f w) ->
  forall w, f (snd (for_each xs body w)) = f w.
Proof.
  intros Hbody. induction xs as [|x xs IH]; intros w; [reflexivity|].
  cbn [for_each]. unfold mbind, M_bind.
  specialize (Hbody x w).
  destruct (body x w) as [[[]| |] w1]; cbn [snd] in *; [|exact Hbody|exact Hbody].
  rewrite IH. exact Hbody.
Qed.

Lemma download_variant_keeps_polling (S : service) (O : os) (video_id : string)
    (item : string * string) (w : Generate.world) :
  let w' := snd (Generate.download_variant S O video_id item w) in
  Generate.checks w' = Generate.checks w /\ Generate.slept w' = Generate.slept w.
Proof.
  destruct item as [variant filepath]. cbv zeta.
  unfold Generate.download_variant, try_except, mbind, M_bind,
    Generate.videos_download_content, lift, Generate.print, Generate.open_wb,
    Generate.write.
  cbn [Generate.checks Generate.slept Generate.stdout Generate.files].
  destruct (download_content S video_id variant) as [resp|msg]; cbn [of_reply];
    [|split; reflexivity].
  destruct (read resp) as [data|msg]; cbn [of_reply]; [|split; reflexivity].
  destruct (open_wb_error O filepath) as [msg|]; split; reflexivity.
Qed.

(** X10. [download_outputs] stays within its task.  It makes no status
    check and does not sleep, and it leaves every file other than the three
    intended paths as it was; when the output directory cannot be made it
    raises the error of [os.makedirs] and has done nothing at all. *)
Theorem download_outputs_stays_within (S : service) (O : os)
    (video_id prompt_name : string) (w : Generate.world) :
  let run := Generate.download_outputs S O video_id prompt_name w in
  Generate.checks (snd run) = Generate.checks w
  /\ Generate.slept (snd run) = Generate.slept w
  /\ (forall path,
        ~ In path (map snd (Generate.variants_of prompt_name video_id)) ->
        Generate.files (snd run) !! path = Generate.files w !! path)
  /\ (forall msg, makedirs_error O "output" = Some msg ->
        run = (Raised (OSError msg), w)).
Proof.
  cbv zeta. unfold Generate.download_outputs, Generate.makedirs, Generate.OUTPUT_DIR.
  destruct (makedirs_error O "output") as [msg|] eqn:Hdir.
  { cbn. repeat split; auto. intros msg' H. injection H as <-. reflexivity. }
  unfold mbind, M_bind, mret, M_ret.
  destruct (for_each_independent snd (Generate.download_variant S O video_id)
              (variant_settled S O video_id)
              (variant_settled_more_output S O video_id)
              (download_variant_local S O video_id)
              (Generate.variants_of prompt_name video_id) w
              (variants_of_paths_distinct prompt_name video_id))
    as (w' & Hloop & Hframe & _ & _).
  pose proof (for_each_keeps Generate.checks (Generate.download_variant S O video_id)
                (Generate.variants_of prompt_name video_id)
                (fun x w0 => proj1 (download_variant_keeps_polling S O video_id x w0)) w)
    as Hchecks.
  pose proof (for_each_keeps Generate.slept (Generate.download_variant S O video_id)
                (Generate.variants_of prompt_name video_id)
                (fun x w0 => proj2 (download_variant_keeps_polling S O video_id x w0)) w)
    as Hslept.
  rewrite Hloop in *. cbn [snd] in *.
  split; [exact Hchecks|]. split; [exact Hslept|]. split; [exact Hframe|].
  intros; discriminate.
Qed.

(** ** The composer, as a function of the directory tree *)

(** A loop whose turns leave the world alone leaves it alone, and computes
    what the same turns compute in any world that gives them the same
    results. *)
Lemma for_fold_reads {W A B : Type} (body : B -> A -> M W B) (xs : list A) :
  (forall b x w, snd (body b x w) = w) ->
  forall acc w, snd (for_fold xs acc body w) = w.
Proof.
  intros Hbody. induction xs as [|x xs IH]; intros acc w; [reflexivity|].
  cbn [for_fold]. unfold mbind, M_bind.
  specialize (Hbody acc x w).
  destruct (body acc x w) as [[b| |] w1]; cbn [snd] in *; subst; auto.
Qed.

Lemma for_fold_same {W A B : Type} (body1 body2 : B -> A -> M W B)
    (w1 w2 : W) (xs : list A) :
  (forall b x, In x xs -> snd (body1 b x w1) = w1) ->
  (forall b x, In x xs -> snd (body2 b x w2) = w2) ->
  (forall b x, In x xs -> fst (body1 b x w1) = fst (body2 b x w2)) ->
  forall acc, fst (for_fold xs acc body1 w1) = fst (for_fold xs acc body2 w2).
Proof.
  induction xs as [|x xs IH]; intros H1 H2 Hsame acc; [reflexivity|].
  cbn [for_fold]. unfold mbind, M_bind.
  pose proof (H1 acc x (or_introl eq_refl)) as Hx1.
  pose proof (H2 acc x (or_introl eq_refl)) as Hx2.
  pose proof (Hsame acc x (or_introl eq_refl)) as Hx.
  destruct (body1 acc x w1) as [o1 v1], (body2 acc x w2) as [o2 v2].
  cbn [fst snd] in Hx1, Hx2, Hx. subst o1 v1 v2.
  destruct o2 as [b| |]; try reflexivity.
  apply IH; intros b' y Hy; [apply H1|apply H2|apply Hsame]; right; exact Hy.
Qed.

Section PastingIsPure.
Import CreateSpritesheet.
Context (K : PIL.kernels) (B : builtins).

(** One turn of the inner loop: the frame is prepared and pasted into its
    cell. *)
Lemma paste_cell_step (folder : path) (row : Z) (sheet : PIL.image)
    (col : Z) (frame_path : path) (w : world) :
  (frame_resized ← prepare_frame K B folder frame_path;
   lift (PIL.paste K sheet frame_resized (col * FRAME_SIZE, row * FRAME_SIZE) None)) w
  = (frame ← prepared K B (cwd w) folder frame_path;
     PIL.paste K sheet frame (col * FRAME_SIZE, row * FRAME_SIZE) None, w).
Proof.
  unfold mbind at 1, M_bind at 1. rewrite prepare_frame_pure.
  destruct (prepared K B (cwd w) folder frame_path); reflexivity.
Qed.

Lemma paste_row_reads (folder : path) (row : Z) (frames : list path)
    (sheet : PIL.image) (w : world) :
  snd (for_fold (enumerate frames) sheet
         (fun spritesheet '(col, frame_path) =>
            frame_resized ← prepare_frame K B folder frame_path;
            lift (PIL.paste K spritesheet frame_resized
                    (col * FRAME_SIZE, row * FRAME_SIZE) None)) w) = w.
Proof.
  apply for_fold_reads. intros b [col frame_path] w0.
  rewrite paste_cell_step. reflexivity.
Qed.

Lemma paste_row_same (folder : path) (row : Z) (frames : list path)
    (sheet : PIL.image) (w1 w2 : world) :
  cwd w1 = cwd w2 ->
  fst (for_fold (enumerate frames) sheet
         (fun spritesheet '(col, frame_path) =>
            frame_resized ← prepare_frame K B folder frame_path;
            lift (PIL.paste K spritesheet frame_resized
                    (col * FRAME_SIZE, row * FRAME_SIZE) None)) w1)
  = fst (for_fold (enumerate frames) sheet
           (fun spritesheet '(col, frame_path) =>
              frame_resized ← prepare_frame K B folder frame_path;
              lift (PIL.paste K spritesheet frame_resized
                      (col * FRAME_SIZE, row * FRAME_SIZE) None)) w2).
Proof.
  intros Hcwd. apply for_fold_same.
  - intros b [col p] _. rewrite paste_cell_step. reflexivity.
  - intros b [col p] _. rewrite paste_cell_step. reflexivity.
  - intros b [col p] _. rewrite !paste_cell_step, Hcwd. reflexivity.
Qed.

(** The pasting loops read the tree and change nothing. *)
Lemma paste_frames_pure (folders : list path) (animations : gmap string (list path))
    (sheet : PIL.image) (w : world) :
  paste_frames K B folders animations sheet w
  = (pasted K B (cwd w) folders animations sheet, w).
Proof.
  unfold pasted.
  assert (Hsnd : snd (paste_frames K B folders animations sheet w) = w).
  { unfold paste_frames. apply for_fold_reads. intros b [row folder] w0.
    unfold mbind at 1, M_bind at 1.
    destruct (animations !! name folder) as [frames|]; [|reflexivity].
    cbn [mret M_ret]. apply paste_row_reads. }
  assert (Hfst : fst (paste_frames K B folders animations sheet w)
                 = fst (paste_frames K B folders animations sheet (mkWorld (cwd w) []))).
  { unfold paste_frames. apply for_fold_same.
    - intros b [row folder] _. unfold mbind at 1, M_bind at 1.
      destruct (animations !! name folder) as [frames|]; [|reflexivity].
      cbn [mret M_ret]. apply paste_row_reads.
    - intros b [row folder] _. unfold mbind at 1, M_bind at 1.
      destruct (animations !! name folder) as [frames|]; [|reflexivity].
      cbn [mret M_ret]. apply paste_row_reads.
    - intros b [row folder] _. unfold mbind at 1, M_bind at 1.
      unfold mbind at 2, M_bind at 2.
      destruct (animations !! name folder) as [frames|]; [|reflexivity].
      cbn [mret M_ret]. apply paste_row_same. reflexivity. }
  destruct (paste_frames K B folders animations sheet w) as [o w'].
  cbn [fst snd] in *. subst. reflexivity.
Qed.

End PastingIsPure.

Section MainCases.
Import CreateSpritesheet.
Context (K : PIL.kernels) (B : builtins).

Lemma max_frame_count_nonneg (w : world) : 0 <= max_frame_count w.
Proof.
  unfold max_frame_count.
  induction (animation_folders w) as [|f fs IH]; cbn [map foldr]; lia.
Qed.

Lemma world_eta (w : world) : mkWorld (cwd w) (stdout w ++ []) = w.
Proof. rewrite app_nil_r. destruct w. reflexivity. Qed.

(** Every way [main] can go, as a function of the tree: the only change it
    ever makes is the writing of the sheet, after everything else has
    succeeded. *)
Lemma main_cases (w : world) :
  exists lines,
    main K B w
    = match resolve INPUT_DIR (Dir (cwd w)) with
      | Some (Dir es) =>
          if bool_decide (animation_folders w = []) || (max_frame_count w =? 0)
          then (Returned tt, mkWorld (cwd w) (stdout w ++ lines))
          else
            match sheet_of K B w with
            | Returned sheet =>
                match write_file B (path_str OUTPUT_FILE) OUTPUT_FILE (ImageFile sheet) (cwd w) with
                | Returned tree => (Returned tt, mkWorld tree (stdout w ++ lines))
                | Raised e => (Raised e, mkWorld (cwd w) (stdout w ++ lines))
                | OutOfFuel => (OutOfFuel, mkWorld (cwd w) (stdout w ++ lines))
                end
            | Raised e => (Raised e, mkWorld (cwd w) (stdout w ++ lines))
            | OutOfFuel => (OutOfFuel, mkWorld (cwd w) (stdout w ++ lines))
            end
      | Some (File _) =>
          (Raised (os_error B 20 "Not a directory" (path_str INPUT_DIR)),
           mkWorld (cwd w) (stdout w ++ lines))
      | None =>
          (Raised (lookup_error B (path_str INPUT_DIR) INPUT_DIR (Dir (cwd w))),
           mkWorld (cwd w) (stdout w ++ lines))
      end.
Proof.
  destruct (resolve INPUT_DIR (Dir (cwd w))) as [[f|es]|] eqn:Hdir.
  - exists []. rewrite world_eta. unfold main, mbind, M_bind, iterdir.
    rewrite Hdir. reflexivity.
  - rewrite (main_start K B w es Hdir).
    destruct (input_dir_has_output w es Hdir) as (sub & Hout & _).
    case_bool_decide as Hsets; cbn [orb].
    { eexists [_]. reflexivity. }
    unfold mbind at 1, M_bind at 1, print at 1.
    set (w1 := mkWorld _ _).
    destruct (load_frames_from w (animation_folders w) ∅ 0 w1 eq_refl) as (lines & Hload).
    unfold mbind at 1, M_bind at 1, load_frames. rewrite Hload.
    rewrite (loaded_max_is_max w (animation_folders w) 0) by lia.
    fold (max_frame_count w).
    rewrite Z.max_r by apply max_frame_count_nonneg.
    destruct (max_frame_count w =? 0) eqn:Hmax.
    { unfold print. subst w1. cbn [cwd stdout].
      eexists (_ :: lines ++ [_]). do 2 f_equal.
      rewrite <- !app_assoc. cbn [app]. reflexivity. }
    unfold mbind at 1, M_bind at 1, print at 1. cbn [cwd stdout].
    unfold mbind at 1, M_bind at 1, lift at 1, sheet_of.
    destruct (PIL.new K PIL.RGB
                (FRAME_SIZE * max_frame_count w,
                 FRAME_SIZE * Z.of_nat (length (animation_folders w)))
                BACKGROUND_COLOR) as [canvas| |];
      cbn [mbind outcome_bind];
      [|subst w1; cbn [stdout]; eexists (_ :: lines ++ [_]); do 2 f_equal;
        rewrite <- !app_assoc; cbn [app]; reflexivity ..].
    unfold mbind at 1, M_bind at 1. rewrite paste_frames_pure. cbn [cwd].
    destruct (pasted K B (cwd w) (animation_folders w)
                (loaded_frames w (animation_folders w) ∅) canvas) as [sheet| |];
      [|subst w1; cbn [stdout]; eexists (_ :: lines ++ [_]); do 2 f_equal;
        rewrite <- !app_assoc; cbn [app]; reflexivity ..].
    set (w2 := mkWorld _ _).
    unfold mbind at 1, M_bind at 1. rewrite (mkdir_output B w2 sub Hout).
    unfold mbind at 1, M_bind at 1, save. subst w2 w1. cbn [cwd stdout].
    destruct (write_file B (path_str OUTPUT_FILE) OUTPUT_FILE (ImageFile sheet) (cwd w)) as [tree| |].
    + unfold print. cbn [cwd stdout].
      eexists (_ :: lines ++ [_; _]). do 2 f_equal.
      rewrite <- !app_assoc. cbn [app]. reflexivity.
    + eexists (_ :: lines ++ [_]). do 2 f_equal.
      rewrite <- !app_assoc. cbn [app]. reflexivity.
    + eexists (_ :: lines ++ [_]). do 2 f_equal.
      rewrite <- !app_assoc. cbn [app]. reflexivity.
  - exists []. rewrite world_eta. unfold main, mbind, M_bind, iterdir.
    rewrite Hdir. reflexivity.
Qed.

End MainCases.

Section TreeWrites.
Import CreateSpritesheet.
Context (B : builtins).

Lemma lookup_set_entry_ne nm nm' n es :
  nm <> nm' -> lookup_entry nm' (set_entry nm n es) = lookup_entry nm' es.
Proof.
  intros Hne. induction es as [|[k v] es IH]; cbn [set_entry lookup_entry].
  - apply String.eqb_neq in Hne. rewrite Hne. reflexivity.
  - destruct (String.eqb k nm) eqn:Hk; cbn [lookup_entry].
    + apply String.eqb_eq in Hk. subst k.
      apply String.eqb_neq in Hne. rewrite Hne. reflexivity.
    + rewrite IH. reflexivity.
Qed.

Lemma resolve_app (p q : path) : forall n,
  resolve (p ++ q) n = match resolve p n with
                       | Some c => resolve q c
                       | None => None
                       end.
Proof.
  induction p as [|part p IH]; intros n; cbn [app resolve]; [reflexivity|].
  destruct n as [f|es]; [reflexivity|].
  destruct (lookup_entry part es); [apply IH|reflexivity].
Qed.

(** Writing the output file where the directory "output" is. *)
Lemma write_output (tree sub : list (string * node)) (f : file) :
  lookup_entry "output" tree = Some (Dir sub) ->
  write_file B (path_str OUTPUT_FILE) OUTPUT_FILE f tree
  = match lookup_entry "spritesheet.png" sub with
    | Some (Dir _) => Raised (os_error B 21 "Is a directory" (path_str OUTPUT_FILE))
    | _ => Returned (set_entry "output"
                       (Dir (set_entry "spritesheet.png" (File f) sub)) tree)
    end.
Proof.
  intros Hout. unfold OUTPUT_FILE. cbn [write_file]. rewrite Hout.
  destruct (lookup_entry "spritesheet.png" sub) as [[g|es]|]; reflexivity.
Qed.

(** The write leaves the input directory as it is, and done again it
    changes nothing. *)
Lemma write_output_keeps_input (tree tree' : list (string * node)) (f : file) n :
  resolve INPUT_DIR (Dir tree) = Some n ->
  write_file B (path_str OUTPUT_FILE) OUTPUT_FILE f tree = Returned tree' ->
  resolve INPUT_DIR (Dir tree') = Some n
  /\ write_file B (path_str OUTPUT_FILE) OUTPUT_FILE f tree' = Returned tree'
  /\ resolve OUTPUT_FILE (Dir tree') = Some (File f).
Proof.
  intros Hin Hwrite.
  assert (exists sub, lookup_entry "output" tree = Some (Dir sub)
                      /\ lookup_entry "sprite_frames" sub = Some n)
    as (sub & Hout & Hsf).
  { unfold INPUT_DIR in Hin. cbn [resolve] in Hin.
    destruct (lookup_entry "output" tree) as [[g|sub]|]; try discriminate.
    exists sub. split; [reflexivity|].
    destruct (lookup_entry "sprite_frames" sub); [exact Hin|discriminate]. }
  rewrite (write_output tree sub f Hout) in Hwrite.
  set (sub' := set_entry "spritesheet.png" (File f) sub) in *.
  assert (Htree : tree' = set_entry "output" (Dir sub') tree).
  { destruct (lookup_entry "spritesheet.png" sub) as [[g|es]|];
      [|discriminate|]; injection Hwrite as <-; reflexivity. }
  assert (Hout' : lookup_entry "output" tree' = Some (Dir sub'))
    by (rewrite Htree; apply lookup_set_entry).
  assert (Hsheet : lookup_entry "spritesheet.png" sub' = Some (File f))
    by apply lookup_set_entry.
  split; [|split].
  - unfold INPUT_DIR. cbn [resolve]. rewrite Hout'.
    unfold sub'. rewrite lookup_set_entry_ne by discriminate. rewrite Hsf. reflexivity.
  - rewrite (write_output tree' sub' f Hout'), Hsheet.
    rewrite (set_entry_same _ _ _ Hsheet), (set_entry_same _ _ _ Hout'). reflexivity.
  - unfold OUTPUT_FILE. cbn [resolve]. rewrite Hout', Hsheet. reflexivity.
Qed.

End TreeWrites.

Section InputOnly.
Import CreateSpritesheet.
Context (K : PIL.kernels) (B : builtins).

(** Two worlds with the same input directory. *)
Context (wa wb : world).
Hypothesis same_input :
  resolve INPUT_DIR (Dir (cwd wa)) = resolve INPUT_DIR (Dir (cwd wb)).

Lemma resolve_under_input (q : path) :
  resolve (INPUT_DIR ++ q) (Dir (cwd wa)) = resolve (INPUT_DIR ++ q) (Dir (cwd wb)).
Proof. rewrite !resolve_app, same_input. reflexivity. Qed.

Lemma animation_folders_input_only : animation_folders wa = animation_folders wb.
Proof.
  unfold animation_folders. rewrite <- same_input.
  remember (resolve INPUT_DIR (Dir (cwd wa))) as r eqn:Hr in |- *.
  destruct r as [[f|es]|]; try reflexivity.
  f_equal. apply filter_ext_in. intros p Hp.
  apply in_map_iff in Hp as (e & <- & _).
  unfold is_dir. rewrite resolve_under_input. reflexivity.
Qed.

Lemma frames_of_input_only (folder : path) :
  In folder (animation_folders wa) -> frames_of wa folder = frames_of wb folder.
Proof.
  intros Hin. rewrite (animation_folder_is_child wa folder Hin).
  unfold frames_of. rewrite resolve_under_input. reflexivity.
Qed.

Lemma max_frame_count_input_only : max_frame_count wa = max_frame_count wb.
Proof.
  unfold max_frame_count. rewrite <- animation_folders_input_only.
  f_equal. apply map_ext_in. intros folder Hin.
  rewrite (frames_of_input_only folder Hin). reflexivity.
Qed.

Lemma loaded_frames_input_only (folders : list path) :
  (forall folder, In folder folders -> In folder (animation_folders wa)) ->
  forall animations,
    loaded_frames wa folders animations = loaded_frames wb folders animations.
Proof.
  induction folders as [|f folders IH]; intros Hin animations; [reflexivity|].
  cbn [loaded_frames fold_left].
  fold (loaded_frames wa folders (<[name f := frames_of wa f]> animations)).
  fold (loaded_frames wb folders (<[name f := frames_of wb f]> animations)).
  rewrite (frames_of_input_only f (Hin f (or_introl eq_refl))).
  apply IH. intros g Hg. apply Hin. right. exact Hg.
Qed.

(** A frame is prepared from what is found at its path. *)
Lemma prepared_from_path (ta tb : list (string * node)) (folder frame_path : path) :
  resolve frame_path (Dir ta) = resolve frame_path (Dir tb) ->
  resolve frame_path (Dir ta) <> None ->
  prepared K B ta folder frame_path = prepared K B tb folder frame_path.
Proof.
  intros Hsame Hfound.
  unfold prepared, prepare_frame, mbind, M_bind, Image_open, lift, mret, M_ret.
  cbn [cwd]. rewrite Hsame in Hfound |- *.
  destruct (resolve frame_path (Dir tb)) as [[[data|im]|es]|]; try reflexivity;
    [|contradiction].
  destruct (if String.eqb (name folder) "hatching"
            then resize_with_padding K im FRAME_SIZE BACKGROUND_COLOR
            else PIL.resize K im (FRAME_SIZE, FRAME_SIZE) PIL.LANCZOS)
    as [resized| |]; try reflexivity.
  destruct (String.eqb (PIL.mode_name (PIL.im_mode resized)) "RGBA");
    [|destruct (negb (String.eqb (PIL.mode_name (PIL.im_mode resized)) "RGB"));
      reflexivity].
  destruct (PIL.new K PIL.RGB (FRAME_SIZE, FRAME_SIZE) BACKGROUND_COLOR)
    as [bg| |]; try reflexivity.
  destruct (PIL.split_band resized 3) as [alpha| |]; reflexivity.
Qed.

Lemma frame_is_under_folder (w : world) (folder frame_path : path) :
  In frame_path (frames_of w folder) -> exists nm, frame_path = folder ++ [nm].
Proof.
  unfold frames_of.
  destruct (resolve folder (Dir (cwd w))) as [[f|es]|]; try (intros []).
  rewrite in_sorted, in_map_iff. intros (e & <- & _). eauto.
Qed.

Lemma lookup_entry_found (e : string * node) (es : list (string * node)) :
  In e es -> lookup_entry (fst e) es <> None.
Proof.
  induction es as [|[k v] es IH]; [intros []|].
  intros Hin. cbn [lookup_entry].
  destruct (String.eqb k (fst e)) eqn:Hk; [discriminate|].
  destruct Hin as [<-|Hin]; [|exact (IH Hin)].
  cbn [fst] in Hk. rewrite String.eqb_refl in Hk. discriminate.
Qed.

(** A frame that the folder lists is found at its path. *)
Lemma frame_is_found (w : world) (folder frame_path : path) :
  In frame_path (frames_of w folder) ->
  resolve frame_path (Dir (cwd w)) <> None.
Proof.
  unfold frames_of.
  destruct (resolve folder (Dir (cwd w))) as [[f|es]|] eqn:Hfolder;
    try (intros []).
  rewrite in_sorted, in_map_iff. intros (e & <- & He).
  apply filter_In in He as [He _].
  rewrite resolve_app, Hfolder. cbn [resolve].
  pose proof (lookup_entry_found e es He) as Hfound.
  destruct (lookup_entry (fst e) es); [discriminate|contradiction].
Qed.

Lemma prepared_input_only (folder frame_path : path) :
  In folder (animation_folders wa) ->
  In frame_path (frames_of wa folder) ->
  prepared K B (cwd wa) folder frame_path = prepared K B (cwd wb) folder frame_path.
Proof.
  intros Hfolder Hframe.
  apply prepared_from_path; [|exact (frame_is_found wa folder frame_path Hframe)].
  destruct (frame_is_under_folder wa folder frame_path Hframe) as (nm & ->).
  rewrite (animation_folder_is_child wa folder Hfolder), <- app_assoc.
  apply resolve_under_input.
Qed.

Lemma pasted_input_only (folders : list path) (animations : gmap string (list path))
    (sheet : PIL.image) :
  (forall folder, In folder folders ->
     In folder (animation_folders wa)
     /\ animations !! name folder = Some (frames_of wa folder)) ->
  pasted K B (cwd wa) folders animations sheet
  = pasted K B (cwd wb) folders animations sheet.
Proof.
  intros Hfolders. unfold pasted, paste_frames.
  apply for_fold_same.
  - intros b [row folder] _. unfold mbind at 1, M_bind at 1.
    destruct (animations !! name folder) as [frames|]; [|reflexivity].
    cbn [mret M_ret]. apply paste_row_reads.
  - intros b [row folder] _. unfold mbind at 1, M_bind at 1.
    destruct (animations !! name folder) as [frames|]; [|reflexivity].
    cbn [mret M_ret]. apply paste_row_reads.
  - intros b [row folder] Hin. apply in_enumerate_from in Hin.
    destruct (Hfolders folder Hin) as [Hfolder Hframes].
    unfold mbind at 1, M_bind at 1. unfold mbind at 2, M_bind at 2.
    rewrite Hframes. cbn [mret M_ret].
    apply for_fold_same.
    + intros s [col p] _. rewrite paste_cell_step. reflexivity.
    + intros s [col p] _. rewrite paste_cell_step. reflexivity.
    + intros s [col p] Hp. apply in_enumerate_from in Hp.
      rewrite !paste_cell_step. cbn [fst cwd].
      rewrite (prepared_input_only folder p Hfolder Hp). reflexivity.
Qed.

Lemma sheet_of_input_only : sheet_of K B wa = sheet_of K B wb.
Proof.
  unfold sheet_of.
  rewrite <- max_frame_count_input_only, <- animation_folders_input_only.
  rewrite <- (loaded_frames_input_only (animation_folders wa) (fun _ H => H)).
  destruct (PIL.new _ _ _) as [canvas| |]; cbn [mbind outcome_bind]; try reflexivity.
  apply pasted_input_only. intros folder Hin. split; [exact Hin|].
  apply loaded_frames_lookup; [exact Hin|].
  intros g Hg. apply (animation_folders_by_name wa); assumption.
Qed.

End InputOnly.

(** ** The composer and the directory tree *)

(** X11. Whatever the composer does, the input directory is afterwards what
    it was.  The directory tree as a whole is unchanged unless the run
    returns with a sheet written: in that case the output file holds the
    composed sheet.  In particular a run that raises leaves the tree as it
    was. *)
Theorem composer_keeps_input (K : PIL.kernels) (B : builtins)
    (w : CreateSpritesheet.world) :
  let run := CreateSpritesheet.main K B w in
  CreateSpritesheet.resolve CreateSpritesheet.INPUT_DIR
    (CreateSpritesheet.Dir (CreateSpritesheet.cwd (snd run)))
  = CreateSpritesheet.resolve CreateSpritesheet.INPUT_DIR
      (CreateSpritesheet.Dir (CreateSpritesheet.cwd w))
  /\ (forall e, fst run = Raised e ->
        CreateSpritesheet.cwd (snd run) = CreateSpritesheet.cwd w)
  /\ (CreateSpritesheet.cwd (snd run) = CreateSpritesheet.cwd w
      \/ exists sheet,
           fst run = Returned tt
           /\ sheet_of K B w = Returned sheet
           /\ output_file (snd run)
              = Some (CreateSpritesheet.File (ImageFile sheet))).
Proof.
  destruct (main_cases K B w) as [lines Hrun]. cbv zeta. rewrite Hrun. clear Hrun.
  destruct (CreateSpritesheet.resolve CreateSpritesheet.INPUT_DIR
              (CreateSpritesheet.Dir (CreateSpritesheet.cwd w)))
    as [[f|es]|] eqn:Hin; cbn [fst snd CreateSpritesheet.cwd];
    try (rewrite Hin; split; [reflexivity|]; split; [reflexivity|left; reflexivity]).
  destruct (bool_decide (animation_folders w = []) || (max_frame_count w =? 0));
    cbn [fst snd CreateSpritesheet.cwd];
    try (rewrite Hin; split; [reflexivity|]; split; [reflexivity|left; reflexivity]).
  destruct (sheet_of K B w) as [sheet| |]; cbn [fst snd CreateSpritesheet.cwd];
    try (rewrite Hin; split; [reflexivity|]; split; [reflexivity|left; reflexivity]).
  destruct (CreateSpritesheet.write_file B
              (CreateSpritesheet.path_str CreateSpritesheet.OUTPUT_FILE)
              CreateSpritesheet.OUTPUT_FILE
              (ImageFile sheet) (CreateSpritesheet.cwd w)) as [tree| |] eqn:Hwrite;
    cbn [fst snd CreateSpritesheet.cwd];
    try (rewrite Hin; split; [reflexivity|]; split; [reflexivity|left; reflexivity]).
  destruct (write_output_keeps_input B _ _ _ _ Hin Hwrite) as (Hin' & _ & Hout).
  split; [exact Hin'|]. split; [discriminate|].
  right. exists sheet. split; [reflexivity|]. split; [reflexivity|]. exact Hout.
Qed.

(** X12. Running the composer again after a run that returned changes
    nothing in the directory tree: the second run returns as well, and the
    tree -- the output file included -- is the one the first run left. *)
Theorem composer_is_idempotent (K : PIL.kernels) (B : builtins)
    (w w1 : CreateSpritesheet.world) :
  CreateSpritesheet.main K B w = (Returned tt, w1) ->
  exists w2,
    CreateSpritesheet.main K B w1 = (Returned tt, w2)
    /\ CreateSpritesheet.cwd w2 = CreateSpritesheet.cwd w1.
Proof.
  intros Hrun.
  destruct (main_cases K B w) as [lines Hw]. rewrite Hw in Hrun. clear Hw.
  destruct (main_cases K B w1) as [lines1 Hw1]. rewrite Hw1. clear Hw1.
  destruct (CreateSpritesheet.resolve CreateSpritesheet.INPUT_DIR
              (CreateSpritesheet.Dir (CreateSpritesheet.cwd w)))
    as [[f|es]|] eqn:Hin; try discriminate.
  assert (Hsame : CreateSpritesheet.resolve CreateSpritesheet.INPUT_DIR
                    (CreateSpritesheet.Dir (CreateSpritesheet.cwd w))
                  = CreateSpritesheet.resolve CreateSpritesheet.INPUT_DIR
                      (CreateSpritesheet.Dir (CreateSpritesheet.cwd w1))
                  /\ (bool_decide (animation_folders w = []) || (max_frame_count w =? 0)
                      = false ->
                      exists sheet, sheet_of K B w = Returned sheet
                        /\ CreateSpritesheet.write_file B
              (CreateSpritesheet.path_str CreateSpritesheet.OUTPUT_FILE)
              CreateSpritesheet.OUTPUT_FILE
                             (ImageFile sheet) (CreateSpritesheet.cwd w1)
                           = Returned (CreateSpritesheet.cwd w1))).
  { destruct (bool_decide (animation_folders w = []) || (max_frame_count w =? 0)).
    - injection Hrun as <-. cbn [CreateSpritesheet.cwd]. split; [reflexivity|].
      discriminate.
    - destruct (sheet_of K B w) as [sheet| |]; try discriminate.
      destruct (CreateSpritesheet.write_file B
              (CreateSpritesheet.path_str CreateSpritesheet.OUTPUT_FILE)
              CreateSpritesheet.OUTPUT_FILE
                  (ImageFile sheet) (CreateSpritesheet.cwd w)) as [tree| |] eqn:Hwrite;
        try discriminate.
      injection Hrun as <-. cbn [CreateSpritesheet.cwd].
      destruct (write_output_keeps_input B _ _ _ _ Hin Hwrite) as (Hin' & Hagain & _).
      rewrite Hin, Hin'. split; [reflexivity|]. intros _. exists sheet. auto. }
  destruct Hsame as [Hsame Hsheet].
  rewrite <- Hsame, Hin.
  rewrite <- (animation_folders_input_only w w1 Hsame).
  rewrite <- (max_frame_count_input_only w w1 Hsame).
  rewrite <- (sheet_of_input_only K B w w1 Hsame).
  destruct (bool_decide (animation_folders w = []) || (max_frame_count w =? 0)).
  - eexists. split; reflexivity.
  - destruct (Hsheet eq_refl) as (sheet & -> & ->).
    eexists. split; reflexivity.
Qed.

(** The scenario "walk" and "idle": the first run writes the sheet, the
    second leaves the tree as the first left it. *)
Lemma composer_is_idempotent_witness :
  exists w1 w2,
    CreateSpritesheet.main Samples.kernels Samples.builtins Samples.walk_and_idle
    = (Returned tt, w1)
    /\ CreateSpritesheet.main Samples.kernels Samples.builtins w1 = (Returned tt, w2)
    /\ CreateSpritesheet.cwd w2 = CreateSpritesheet.cwd w1.
Proof.
  destruct (CreateSpritesheet.main Samples.kernels Samples.builtins
              Samples.walk_and_idle) as [r w1] eqn:Hrun.
  assert (Hr : r = Returned tt).
  { change r with (fst (r, w1)). rewrite <- Hrun. vm_compute. reflexivity. }
  subst r.
  destruct (composer_is_idempotent Samples.kernels Samples.builtins
              Samples.walk_and_idle w1 Hrun) as (w2 & Hagain & Htree).
  exists w1, w2. auto.
Defined.

(** ** The layout of the sheet *)

(** A loop over [enumerate] that returns has kept an invariant that each
    returning step keeps; [k] counts the steps done. *)
Lemma for_fold_enumerate_returned {W A B : Type} (body : B -> Z * A -> M W B)
    (w : W) :
  (forall b x, snd (body b x w) = w) ->
  forall (xs : list A) (I : nat -> B -> Prop) (i : Z) (acc out : B),
    I 0%nat acc ->
    (forall k x b b', xs !! k = Some x -> I k b ->
       fst (body b (i + Z.of_nat k, x) w) = Returned b' -> I (S k) b') ->
    fst (for_fold (enumerate_from i xs) acc body w) = Returned out ->
    I (length xs) out.
Proof.
  intros Hreads. induction xs as [|x xs IH]; intros I i acc out H0 Hstep Hrun.
  - cbn in Hrun. injection Hrun as <-. exact H0.
  - cbn [enumerate_from for_fold] in Hrun. unfold mbind, M_bind in Hrun.
    pose proof (Hreads acc (i, x)) as Hw.
    pose proof (Hstep 0%nat x acc) as H1.
    replace (i + Z.of_nat 0) with i in H1 by lia.
    destruct (body acc (i, x) w) as [[b| |] w1]; cbn [fst snd] in *;
      try discriminate.
    subst w1.
    apply (IH (fun k => I (S k)) (i + 1) b out).
    + apply H1; [reflexivity|exact H0|reflexivity].
    + intros k y c c' Hy Hc Hbody. apply (Hstep (S k) y c c'); [exact Hy|exact Hc|].
      replace (i + Z.of_nat (S k)) with (i + 1 + Z.of_nat k) by lia. exact Hbody.
    + exact Hrun.
Qed.

Section Layout.
Import CreateSpritesheet.
Context (K : PIL.kernels) (B : builtins).

(** A prepared frame is an "RGB" image of the size of a cell. *)
Lemma prepared_is_cell (tree : list (string * node)) (folder frame_path : path)
    (frame : PIL.image) :
  prepared K B tree folder frame_path = Returned frame ->
  PIL.im_mode frame = PIL.RGB /\ PIL.size frame = (FRAME_SIZE, FRAME_SIZE).
Proof.
  unfold prepared, prepare_frame, mbind, M_bind, Image_open, lift, mret, M_ret.
  cbn [cwd].
  destruct (resolve frame_path (Dir tree)) as [[[data|im]|es]|];
    try (cbn [fst]; discriminate).
  destruct (if String.eqb (name folder) "hatching"
            then resize_with_padding K im FRAME_SIZE BACKGROUND_COLOR
            else PIL.resize K im (FRAME_SIZE, FRAME_SIZE) PIL.LANCZOS)
    as [resized| |] eqn:Hres; try (cbn [fst]; discriminate).
  assert (Hsize : PIL.size resized = (FRAME_SIZE, FRAME_SIZE)).
  { destruct (String.eqb (name folder) "hatching").
    - apply (resize_with_padding_square K im resized _ _ Hres).
    - apply (resize_returns_size K im resized _ _ Hres). }
  rewrite mode_is_RGBA, mode_is_RGB.
  case_bool_decide as Hrgba.
  - destruct (PIL.new K PIL.RGB (FRAME_SIZE, FRAME_SIZE) BACKGROUND_COLOR)
      as [bg| |] eqn:Hbg; try (cbn [fst]; discriminate).
    apply new_returned in Hbg as (p & _ & ->).
    unfold PIL.split_band. rewrite Hrgba.
    change (3 <? PIL.nbands PIL.RGBA)%nat with true. cbv iota.
    unfold PIL.paste. cbn [PIL.im_mode PIL.size PIL.mask_band]. rewrite Hrgba.
    change (bool_decide (PIL.RGB = PIL.RGBA)) with false.
    change (bool_decide (PIL.RGB = PIL.RGB)) with true.
    change (bool_decide (PIL.RGBA = PIL.RGBA)) with true.
    rewrite orb_true_r. cbn [andb].
    rewrite bool_decide_eq_true_2 by reflexivity. cbn [negb fst].
    intros [= <-]. split; reflexivity.
  - case_bool_decide as Hrgb; cbn [negb fst]; intros [= <-].
    + split; [exact Hrgb|exact Hsize].
    + unfold PIL.convert. rewrite bool_decide_eq_false_2 by exact Hrgb.
      split; [reflexivity|exact Hsize].
Qed.

Lemma cell_test (col row x y : Z) :
  (col * FRAME_SIZE <=? x) && (x <? col * FRAME_SIZE + FRAME_SIZE)
  && (row * FRAME_SIZE <=? y) && (y <? row * FRAME_SIZE + FRAME_SIZE) = true
  <-> col * FRAME_SIZE <= x < col * FRAME_SIZE + FRAME_SIZE
      /\ row * FRAME_SIZE <= y < row * FRAME_SIZE + FRAME_SIZE.
Proof. rewrite !andb_true_iff, !Z.leb_le, !Z.ltb_lt. lia. Qed.

(** Pasting a prepared frame fills its cell and nothing else. *)
Lemma paste_cell (sheet frame out : PIL.image) (col row : Z) :
  PIL.im_mode sheet = PIL.RGB ->
  PIL.im_mode frame = PIL.RGB ->
  PIL.size frame = (FRAME_SIZE, FRAME_SIZE) ->
  PIL.paste K sheet frame (col * FRAME_SIZE, row * FRAME_SIZE) None = Returned out ->
  PIL.im_mode out = PIL.RGB
  /\ PIL.size out = PIL.size sheet
  /\ forall x y,
       PIL.getpixel out x y
       = if (col * FRAME_SIZE <=? x) && (x <? col * FRAME_SIZE + FRAME_SIZE)
            && (row * FRAME_SIZE <=? y) && (y <? row * FRAME_SIZE + FRAME_SIZE)
         then firstn 3 (PIL.getpixel frame (x - col * FRAME_SIZE) (y - row * FRAME_SIZE))
         else PIL.getpixel sheet x y.
Proof.
  intros Hsheet Hframe Hsize. unfold PIL.paste.
  rewrite Hsheet, Hframe. rewrite bool_decide_eq_true_2 by reflexivity.
  unfold PIL.width, PIL.height. rewrite Hsize, Hframe. cbn [fst snd].
  intros [= <-]. cbn [PIL.im_mode PIL.size PIL.getpixel].
  split; [reflexivity|]. split; [reflexivity|]. intros x y. reflexivity.
Qed.

Context (w : world).

(** The sheet after the first [k] frames of a row. *)
Lemma row_layout (folder : path) (row : Z) (frames : list path)
    (base out : PIL.image) :
  PIL.im_mode base = PIL.RGB ->
  fst (for_fold (enumerate frames) base
         (fun spritesheet '(col, frame_path) =>
            frame_resized ← prepare_frame K B folder frame_path;
            lift (PIL.paste K spritesheet frame_resized
                    (col * FRAME_SIZE, row * FRAME_SIZE) None)) w) = Returned out ->
  PIL.im_mode out = PIL.RGB
  /\ (forall (c : nat) frame_path dx dy,
        frames !! c = Some frame_path ->
        0 <= dx < FRAME_SIZE -> 0 <= dy < FRAME_SIZE ->
        exists frame,
          prepared K B (cwd w) folder frame_path = Returned frame
          /\ PIL.getpixel out (Z.of_nat c * FRAME_SIZE + dx) (row * FRAME_SIZE + dy)
             = firstn 3 (PIL.getpixel frame dx dy))
  /\ (forall x y,
        ~ (0 <= x < Z.of_nat (length frames) * FRAME_SIZE
           /\ row * FRAME_SIZE <= y < row * FRAME_SIZE + FRAME_SIZE) ->
        PIL.getpixel out x y = PIL.getpixel base x y).
Proof.
  intros Hbase Hrun.
  pose (I := fun (k : nat) (b : PIL.image) =>
    PIL.im_mode b = PIL.RGB
    /\ (forall (c : nat) frame_path dx dy,
          (c < k)%nat -> frames !! c = Some frame_path ->
          0 <= dx < FRAME_SIZE -> 0 <= dy < FRAME_SIZE ->
          exists frame,
            prepared K B (cwd w) folder frame_path = Returned frame
            /\ PIL.getpixel b (Z.of_nat c * FRAME_SIZE + dx) (row * FRAME_SIZE + dy)
               = firstn 3 (PIL.getpixel frame dx dy))
    /\ (forall x y,
          ~ (0 <= x < Z.of_nat k * FRAME_SIZE
             /\ row * FRAME_SIZE <= y < row * FRAME_SIZE + FRAME_SIZE) ->
          PIL.getpixel b x y = PIL.getpixel base x y)).
  assert (Hout : I (length frames) out).
  { unfold enumerate in Hrun.
    refine (for_fold_enumerate_returned _ w _ frames I 0 base out _ _ Hrun).
    - intros b [col p]. rewrite paste_cell_step. reflexivity.
    - split; [exact Hbase|]. split; [intros; lia|reflexivity].
    - intros k p b b' Hp (Hb & Hcells & Hrest) Hstep.
      rewrite paste_cell_step in Hstep. cbn [fst] in Hstep.
      destruct (prepared K B (cwd w) folder p) as [frame| |] eqn:Hprep;
        try discriminate.
      cbn [mbind outcome_bind] in Hstep.
      destruct (prepared_is_cell _ _ _ _ Hprep) as [Hmode Hsize].
      destruct (paste_cell b frame b' _ _ Hb Hmode Hsize Hstep)
        as (Hb' & _ & Hpix).
      split; [exact Hb'|]. split.
      + intros c q dx dy Hc Hq Hdx Hdy. rewrite Hpix.
        destruct (decide (c = k)) as [->|Hne].
        * assert (q = p) as -> by congruence.
          rewrite (proj2 (cell_test _ _ _ _)) by (unfold FRAME_SIZE in *; lia).
          exists frame. split; [exact Hprep|]. do 2 f_equal; lia.
        * destruct ((_ <=? _) && _ && _ && _) eqn:Hcell.
          -- apply cell_test in Hcell. unfold FRAME_SIZE in *. lia.
          -- apply Hcells; [lia|assumption..].
      + intros x y Hout. rewrite Hpix.
        destruct ((_ <=? _) && _ && _ && _) eqn:Hcell.
        * apply cell_test in Hcell. unfold FRAME_SIZE in *. lia.
        * apply Hrest. unfold FRAME_SIZE in *. lia. }
  destruct Hout as (Hmode & Hcells & Hrest).
  split; [exact Hmode|]. split; [|exact Hrest].
  intros c p dx dy Hp. apply Hcells; [|exact Hp].
  apply lookup_lt_Some in Hp. exact Hp.
Qed.

(** The sheet after the pasting loops: every cell of every row. *)
Lemma pasted_layout (folders : list path) (animations : gmap string (list path))
    (base sheet : PIL.image) :
  PIL.im_mode base = PIL.RGB ->
  (forall folder, In folder folders ->
     animations !! name folder = Some (frames_of w folder)) ->
  pasted K B (cwd w) folders animations base = Returned sheet ->
  forall (row col : nat) folder dx dy,
    folders !! row = Some folder ->
    0 <= dx < FRAME_SIZE -> 0 <= dy < FRAME_SIZE ->
    match frames_of w folder !! col with
    | Some frame_path =>
        exists frame,
          prepared K B (cwd w) folder frame_path = Returned frame
          /\ PIL.getpixel sheet (Z.of_nat col * FRAME_SIZE + dx)
               (Z.of_nat row * FRAME_SIZE + dy)
             = firstn 3 (PIL.getpixel frame dx dy)
    | None =>
        PIL.getpixel sheet (Z.of_nat col * FRAME_SIZE + dx)
          (Z.of_nat row * FRAME_SIZE + dy)
        = PIL.getpixel base (Z.of_nat col * FRAME_SIZE + dx)
            (Z.of_nat row * FRAME_SIZE + dy)
    end.
Proof.
  intros Hbase Hanim Hrun.
  pose (I := fun (r : nat) (b : PIL.image) =>
    PIL.im_mode b = PIL.RGB
    /\ (forall (row col : nat) folder dx dy,
          (row < r)%nat -> folders !! row = Some folder ->
          0 <= dx < FRAME_SIZE -> 0 <= dy < FRAME_SIZE ->
          match frames_of w folder !! col with
          | Some frame_path =>
              exists frame,
                prepared K B (cwd w) folder frame_path = Returned frame
                /\ PIL.getpixel b (Z.of_nat col * FRAME_SIZE + dx)
                     (Z.of_nat row * FRAME_SIZE + dy)
                   = firstn 3 (PIL.getpixel frame dx dy)
          | None =>
              PIL.getpixel b (Z.of_nat col * FRAME_SIZE + dx)
                (Z.of_nat row * FRAME_SIZE + dy)
              = PIL.getpixel base (Z.of_nat col * FRAME_SIZE + dx)
                  (Z.of_nat row * FRAME_SIZE + dy)
          end)
    /\ (forall x y, ~ (0 <= y < Z.of_nat r * FRAME_SIZE) ->
          PIL.getpixel b x y = PIL.getpixel base x y)).
  assert (Hout : I (length folders) sheet).
  { unfold pasted, paste_frames, enumerate in Hrun.
    refine (for_fold_enumerate_returned _ (mkWorld (cwd w) []) _ folders I 0 base sheet
              _ _ Hrun).
    - intros b [row folder]. unfold mbind at 1, M_bind at 1.
      destruct (animations !! name folder) as [frames|]; [|reflexivity].
      cbn [mret M_ret]. apply paste_row_reads.
    - split; [exact Hbase|]. split; [intros; lia|reflexivity].
    - intros r folder b b' Hfolder (Hb & Hrows & Hrest) Hstep.
      unfold mbind at 1, M_bind at 1 in Hstep.
      rewrite (Hanim folder) in Hstep
        by (apply list_elem_of_In, (list_elem_of_lookup_2 _ _ _ Hfolder)).
      cbn [mret M_ret] in Hstep.
      fold (enumerate (frames_of w folder)) in Hstep.
      rewrite (paste_row_same K B folder (0 + Z.of_nat r) (frames_of w folder) b
                 (mkWorld (cwd w) []) w eq_refl) in Hstep.
      destruct (row_layout folder (0 + Z.of_nat r) (frames_of w folder) b b' Hb Hstep)
        as (Hb' & Hcells & Hother).
      replace (0 + Z.of_nat r) with (Z.of_nat r) in * by lia.
      split; [exact Hb'|]. split.
      + intros row col g dx dy Hrow Hg Hdx Hdy.
        destruct (decide (row = r)) as [->|Hne].
        * assert (g = folder) as -> by congruence.
          destruct (frames_of w folder !! col) as [p|] eqn:Hp.
          -- apply (Hcells col p dx dy Hp Hdx Hdy).
          -- apply lookup_ge_None in Hp. rewrite Hother.
             ++ apply Hrest. unfold FRAME_SIZE in *. lia.
             ++ unfold FRAME_SIZE in *. lia.
        * assert (Hlt : (row < r)%nat) by lia.
          specialize (Hrows row col g dx dy Hlt Hg Hdx Hdy).
          rewrite Hother by (unfold FRAME_SIZE in *; lia). exact Hrows.
      + intros x y Hy. rewrite Hother by (unfold FRAME_SIZE in *; lia).
        apply Hrest. unfold FRAME_SIZE in *. lia. }
  destruct Hout as (_ & Hrows & _).
  intros row col folder dx dy Hfolder. apply Hrows; [|exact Hfolder].
  apply lookup_lt_Some in Hfolder. exact Hfolder.
Qed.

End Layout.

(** X13. The layout of the sheet.  When the composer returns and there was
    a frame to place, the output file holds a sheet in which the cell at
    row [row] and column [col] -- 128 by 128 pixels, rows counted along the
    sorted animation folders, columns along the sorted frames of the
    folder -- shows the prepared frame, pixel for pixel in its three colour
    bands; the cells of a row past its last frame show the background
    colour. *)
Theorem sheet_layout (K : PIL.kernels) (B : builtins)
    (w w' : CreateSpritesheet.world) :
  CreateSpritesheet.main K B w = (Returned tt, w') ->
  max_frame_count w <> 0 ->
  exists sheet,
    output_file w' = Some (CreateSpritesheet.File (ImageFile sheet))
    /\ forall (row col : nat) folder dx dy,
         animation_folders w !! row = Some folder ->
         0 <= dx < CreateSpritesheet.FRAME_SIZE ->
         0 <= dy < CreateSpritesheet.FRAME_SIZE ->
         let x := Z.of_nat col * CreateSpritesheet.FRAME_SIZE + dx in
         let y := Z.of_nat row * CreateSpritesheet.FRAME_SIZE + dy in
         match frames_of w folder !! col with
         | Some frame_path =>
             exists frame,
               prepared K B (CreateSpritesheet.cwd w) folder frame_path = Returned frame
               /\ PIL.getpixel sheet x y = firstn 3 (PIL.getpixel frame dx dy)
         | None => PIL.getpixel sheet x y = CreateSpritesheet.BACKGROUND_COLOR
         end.
Proof.
  intros Hrun Hmax.
  destruct (main_cases K B w) as [lines Hw]. rewrite Hw in Hrun. clear Hw.
  destruct (CreateSpritesheet.resolve CreateSpritesheet.INPUT_DIR
              (CreateSpritesheet.Dir (CreateSpritesheet.cwd w)))
    as [[f|es]|] eqn:Hin; try discriminate.
  assert (Hfolders : animation_folders w <> []).
  { intros Hnil. apply Hmax. unfold max_frame_count. rewrite Hnil. reflexivity. }
  rewrite (bool_decide_eq_false_2 _ Hfolders) in Hrun.
  apply Z.eqb_neq in Hmax. rewrite Hmax in Hrun. cbn [orb] in Hrun.
  destruct (sheet_of K B w) as [sheet| |] eqn:Hsheet; try discriminate.
  destruct (CreateSpritesheet.write_file B
              (CreateSpritesheet.path_str CreateSpritesheet.OUTPUT_FILE)
              CreateSpritesheet.OUTPUT_FILE
              (ImageFile sheet) (CreateSpritesheet.cwd w)) as [tree| |] eqn:Hwrite;
    try discriminate.
  injection Hrun as <-.
  destruct (write_output_keeps_input B _ _ _ _ Hin Hwrite) as (_ & _ & Hout).
  exists sheet. split; [exact Hout|].
  intros row col folder dx dy Hfolder Hdx Hdy. cbv zeta.
  unfold sheet_of in Hsheet.
  destruct (PIL.new K PIL.RGB
              (CreateSpritesheet.FRAME_SIZE * max_frame_count w,
               CreateSpritesheet.FRAME_SIZE * Z.of_nat (length (animation_folders w)))
              CreateSpritesheet.BACKGROUND_COLOR) as [canvas| |] eqn:Hcanvas;
    try discriminate.
  cbn [mbind outcome_bind] in Hsheet.
  assert (Hblank : PIL.im_mode canvas = PIL.RGB
                   /\ forall x y,
                        PIL.getpixel canvas x y = CreateSpritesheet.BACKGROUND_COLOR).
  { apply new_returned in Hcanvas as (p & Hink & ->).
    rewrite ink_background in Hink. injection Hink as <-. split; reflexivity. }
  destruct Hblank as [Hmode Hblank].
  pose proof (pasted_layout K B w (animation_folders w)
                (loaded_frames w (animation_folders w) ∅) canvas sheet Hmode) as Hlayout.
  specialize (Hlayout
    (fun folder Hf => loaded_frames_lookup w (animation_folders w) ∅ folder Hf
                        (fun g Hg => animation_folders_by_name w folder g Hf Hg))
    Hsheet row col folder dx dy Hfolder Hdx Hdy).
  destruct (frames_of w folder !! col) as [frame_path|]; [exact Hlayout|].
  rewrite Hlayout. apply Hblank.
Qed.

(** The scenario "walk" and "idle": the sheet is written, "idle" is the
    first row and "walk" the second, and the third cell of the "idle" row
    is blank. *)
Lemma sheet_layout_witness :
  exists w' sheet,
    CreateSpritesheet.main Samples.kernels Samples.builtins Samples.walk_and_idle
    = (Returned tt, w')
    /\ output_file w' = Some (CreateSpritesheet.File (ImageFile sheet))
    /\ PIL.getpixel sheet (0 * 128 + 5) (1 * 128 + 7) = [200; 30; 30]
    /\ PIL.getpixel sheet (2 * 128 + 5) (0 * 128 + 7) = [255; 255; 255].
Proof.
  destruct (CreateSpritesheet.main Samples.kernels Samples.builtins
              Samples.walk_and_idle) as [r w'] eqn:Hrun.
  assert (Hr : r = Returned tt).
  { change r with (fst (r, w')). rewrite <- Hrun. vm_compute. reflexivity. }
  subst r.
  destruct (sheet_layout Samples.kernels Samples.builtins Samples.walk_and_idle w' Hrun)
    as (sheet & Hfile & Hcells).
  { vm_compute. discriminate. }
  exists w', sheet. split; [reflexivity|]. split; [exact Hfile|]. split.
  - assert (Hfirst : @lookup nat CreateSpritesheet.path _ _ 0%nat
                       (frames_of Samples.walk_and_idle
                          ["output"; "sprite_frames"; "walk"]%string)
                     = @Some CreateSpritesheet.path
                         ["output"; "sprite_frames"; "walk"; "frame_0.png"]%string)
      by (vm_compute; reflexivity).
    pose proof (Hcells 1%nat 0%nat
                  ["output"; "sprite_frames"; "walk"]%string 5 7) as Hcell.
    cbv zeta in Hcell. rewrite Hfirst in Hcell.
    destruct Hcell as (frame & Hframe & Hpixel);
      [vm_compute; reflexivity
      |unfold CreateSpritesheet.FRAME_SIZE; lia
      |unfold CreateSpritesheet.FRAME_SIZE; lia|].
    change (Z.of_nat 0) with 0 in Hpixel. change (Z.of_nat 1) with 1 in Hpixel.
    unfold CreateSpritesheet.FRAME_SIZE in Hpixel. rewrite Hpixel.
    assert (Hpix : (frame' ← prepared Samples.kernels Samples.builtins
                       (CreateSpritesheet.cwd Samples.walk_and_idle)
                       ["output"; "sprite_frames"; "walk"]%string
                       ["output"; "sprite_frames"; "walk"; "frame_0.png"]%string;
                    Returned (firstn 3 (PIL.getpixel frame' 5 7)))
                   = Returned [200; 30; 30]) by (vm_compute; reflexivity).
    rewrite Hframe in Hpix. cbn [mbind outcome_bind] in Hpix.
    injection Hpix as Hpix. exact Hpix.
  - pose proof (Hcells 0%nat 2%nat
                  ["output"; "sprite_frames"; "idle"]%string 5 7) as Hcell.
    cbv zeta in Hcell.
    change (Z.of_nat 0) with 0 in Hcell. change (Z.of_nat 2) with 2 in Hcell.
    unfold CreateSpritesheet.FRAME_SIZE in Hcell.
    apply Hcell; [vm_compute; reflexivity|lia|lia].
Defined.

(** ** The size of the sheet *)

(** A loop that returns has kept what each returning turn keeps. *)
Lemma for_fold_returned {W A B : Type} (I : B -> Prop) (body : B -> A -> M W B)
    (xs : list A) :
  (forall b x w b' w', I b -> body b x w = (Returned b', w') -> I b') ->
  forall acc w out w',
    I acc -> for_fold xs acc body w = (Returned out, w') -> I out.
Proof.
  intros Hbody. induction xs as [|x xs IH]; intros acc w out w' Hacc Hrun.
  - cbn in Hrun. injection Hrun as <- _. exact Hacc.
  - cbn [for_fold] in Hrun. unfold mbind, M_bind in Hrun.
    destruct (body acc x w) as [[b| |] w1] eqn:Hstep; try discriminate.
    exact (IH b w1 out w' (Hbody acc x w b w1 Hacc Hstep) Hrun).
Qed.

(** The pasting loops keep the size of the canvas. *)
Lemma pasted_size (K : PIL.kernels) (B : builtins)
    (tree : list (string * CreateSpritesheet.node))
    (folders : list CreateSpritesheet.path)
    (animations : gmap string (list CreateSpritesheet.path))
    (canvas sheet : PIL.image) :
  pasted K B tree folders animations canvas = Returned sheet ->
  PIL.size sheet = PIL.size canvas.
Proof.
  unfold pasted, CreateSpritesheet.paste_frames. intros Hrun.
  destruct (for_fold _ _ _ _) as [r w'] eqn:Hloop. cbn [fst] in Hrun. subst r.
  refine (for_fold_returned (fun s => PIL.size s = PIL.size canvas) _ _ _
            canvas _ sheet w' eq_refl Hloop).
  intros b [row folder] w0 b' w1 Hb Hstep.
  unfold mbind at 1, M_bind at 1 in Hstep.
  destruct (animations !! CreateSpritesheet.name folder) as [frames|];
    [|discriminate].
  cbn [mret M_ret] in Hstep.
  refine (for_fold_returned (fun s => PIL.size s = PIL.size canvas) _ _ _
            b w0 b' w1 Hb Hstep).
  intros s [col frame_path] w2 s' w3 Hs Hpaste.
  unfold mbind, M_bind, lift in Hpaste.
  destruct (CreateSpritesheet.prepare_frame K B folder frame_path w2)
    as [[frame| |] w4]; try discriminate.
  destruct (paste_keeps_canvas K s frame
              (col * CreateSpritesheet.FRAME_SIZE, row * CreateSpritesheet.FRAME_SIZE))
    as (out & Hout & Hsize & _).
  rewrite Hout in Hpaste. injection Hpaste as <- _. congruence.
Qed.

(** C3. For a non-empty input -- at least one animation set, at least one
    frame -- the sheet that the composer writes has exactly the size
    [(maxFrameCount * cellSize, numAnimationSets * cellSize)], the cell
    size being the one [FRAME_SIZE] for the whole sheet: whenever the
    composer returns, the output file holds a sheet of that size.  And the
    composer does return when every frame is an image that can be
    prepared, the output path is no directory and the sheet is within the
    sizes that Pillow takes. *)
Theorem sheet_dimensions (K : PIL.kernels) (B : builtins)
    (w : CreateSpritesheet.world) :
  animation_folders w <> [] ->
  0 < max_frame_count w ->
  (forall w',
     CreateSpritesheet.main K B w = (Returned tt, w') ->
     exists sheet,
       output_file w' = Some (CreateSpritesheet.File (ImageFile sheet))
       /\ PIL.size sheet
          = (max_frame_count w * CreateSpritesheet.FRAME_SIZE,
             Z.of_nat (length (animation_folders w)) * CreateSpritesheet.FRAME_SIZE))
  /\ ((forall folder frame_path,
         In folder (animation_folders w) -> In frame_path (frames_of w folder) ->
         is_Returned (prepared K B (CreateSpritesheet.cwd w) folder frame_path)) ->
      (forall es, output_file w <> Some (CreateSpritesheet.Dir es)) ->
      max_frame_count w * CreateSpritesheet.FRAME_SIZE <= PIL.MAX_XSIZE ->
      Z.of_nat (length (animation_folders w)) * CreateSpritesheet.FRAME_SIZE
      <= PIL.INT_MAX ->
      exists w', CreateSpritesheet.main K B w = (Returned tt, w')).
Proof.
  intros Hsets Hframes.
  destruct (main_cases K B w) as [lines Hmain]. rewrite Hmain. clear Hmain.
  destruct (CreateSpritesheet.resolve CreateSpritesheet.INPUT_DIR
              (CreateSpritesheet.Dir (CreateSpritesheet.cwd w)))
    as [[f|es]|] eqn:Hdir;
    try (exfalso; apply Hsets; unfold animation_folders; rewrite Hdir; reflexivity).
  rewrite (bool_decide_eq_false_2 _ Hsets).
  assert ((max_frame_count w =? 0) = false) as -> by (apply Z.eqb_neq; lia).
  cbn [orb]. split.
  - intros w' Hrun.
    destruct (sheet_of K B w) as [sheet| |] eqn:Hsheet; try discriminate.
    destruct (CreateSpritesheet.write_file B
                (CreateSpritesheet.path_str CreateSpritesheet.OUTPUT_FILE)
                CreateSpritesheet.OUTPUT_FILE
                (ImageFile sheet) (CreateSpritesheet.cwd w)) as [tree| |] eqn:Hwrite;
      try discriminate.
    injection Hrun as <-.
    destruct (write_output_keeps_input B _ _ _ _ Hdir Hwrite) as (_ & _ & Hout).
    exists sheet. split; [exact Hout|].
    unfold sheet_of in Hsheet.
    destruct (PIL.new K PIL.RGB
                (CreateSpritesheet.FRAME_SIZE * max_frame_count w,
                 CreateSpritesheet.FRAME_SIZE * Z.of_nat (length (animation_folders w)))
                CreateSpritesheet.BACKGROUND_COLOR) as [canvas| |] eqn:Hcanvas;
      try discriminate.
    cbn [mbind outcome_bind] in Hsheet.
    apply new_returned in Hcanvas as (p & _ & ->).
    rewrite (pasted_size K B _ _ _ _ _ Hsheet). cbn [PIL.size].
    f_equal; apply Z.mul_comm.
  - intros Hprep Hfree Hwide Hhigh.
    destruct (input_dir_has_output w es Hdir) as (sub & Hout & _).
    unfold sheet_of.
    rewrite (new_blank K PIL.RGB
               (CreateSpritesheet.FRAME_SIZE * max_frame_count w,
                CreateSpritesheet.FRAME_SIZE * Z.of_nat (length (animation_folders w)))
               CreateSpritesheet.BACKGROUND_COLOR CreateSpritesheet.BACKGROUND_COLOR)
      by (try apply ink_background;
          cbn [fst snd]; unfold CreateSpritesheet.FRAME_SIZE in *; lia).
    cbn [mbind outcome_bind].
    destruct (paste_frames_keeps_canvas K B w (animation_folders w)
                (loaded_frames w (animation_folders w) ∅)
                (PIL.mkImage PIL.RGB
                   (CreateSpritesheet.FRAME_SIZE * max_frame_count w,
                    CreateSpritesheet.FRAME_SIZE
                    * Z.of_nat (length (animation_folders w)))
                   (fun _ _ => CreateSpritesheet.BACKGROUND_COLOR)))
      with (w1 := CreateSpritesheet.mkWorld (CreateSpritesheet.cwd w) [])
      as (sheet & Hpaste & _).
    { intros folder Hin. apply loaded_frames_lookup; [exact Hin|].
      intros g Hg. apply (animation_folders_by_name w); assumption. }
    { exact Hprep. }
    { reflexivity. }
    unfold pasted. rewrite Hpaste. cbn [fst].
    rewrite (write_output B (CreateSpritesheet.cwd w) sub (ImageFile sheet) Hout).
    destruct (CreateSpritesheet.lookup_entry "spritesheet.png" sub)
      as [[g|es']|] eqn:Hentry; eauto.
    exfalso. apply (Hfree es'). unfold output_file, CreateSpritesheet.OUTPUT_FILE.
    cbn [CreateSpritesheet.resolve]. rewrite Hout, Hentry. reflexivity.
Qed.

(** The scenario of the specification: "walk" with three frames, "idle"
    with two, cells of 128 pixels, a sheet of 384 by 256. *)
Lemma sheet_dimensions_witness :
  exists sheet w',
    CreateSpritesheet.main Samples.kernels Samples.builtins Samples.walk_and_idle
    = (Returned tt, w')
    /\ output_file w' = Some (CreateSpritesheet.File (ImageFile sheet))
    /\ PIL.size sheet = (384, 256).
Proof.
  destruct (sheet_dimensions Samples.kernels Samples.builtins Samples.walk_and_idle)
    as [Hsize Hreturns].
  - vm_compute. discriminate.
  - vm_compute. reflexivity.
  - destruct Hreturns as (w' & Hrun).
    + intros folder frame_path Hfolder Hframe.
      vm_compute in Hfolder.
      destruct Hfolder as [<-|[<-|[]]]; vm_compute in Hframe;
        repeat (destruct Hframe as [<-|Hframe]; [vm_compute; exact I|]);
        destruct Hframe.
    + intros es. vm_compute. discriminate.
    + vm_compute. discriminate.
    + vm_compute. discriminate.
    + destruct (Hsize w' Hrun) as (sheet & Hfile & Hdims).
      exists sheet, w'. split; [exact Hrun|]. split; [exact Hfile|].
      rewrite Hdims. vm_compute. reflexivity.
Defined.

(** The size is that of the sheets that get written.  A frame of 300 by 2
    pixels in the folder "hatching" is scaled to a height of zero, which
    Pillow refuses: on this input, one animation set with one frame, the
    composer raises [ValueError] and leaves the tree as it was, without a
    sheet. *)
Lemma thin_hatching_frame_stops_the_composer :
  0 < max_frame_count Samples.thin_hatching
  /\ exists w',
       CreateSpritesheet.main Samples.kernels Samples.builtins Samples.thin_hatching
       = (Raised (ValueError "height and width must be > 0"), w')
       /\ CreateSpritesheet.cwd w' = CreateSpritesheet.cwd Samples.thin_hatching
       /\ output_file w' = None.
Proof.
  split; [vm_compute; reflexivity|].
  destruct (CreateSpritesheet.main Samples.kernels Samples.builtins
              Samples.thin_hatching) as [r w'] eqn:Hrun.
  assert (Hr : r = Raised (ValueError "height and width must be > 0")).
  { change r with (fst (r, w')). rewrite <- Hrun. vm_compute. reflexivity. }
  assert (Hw : CreateSpritesheet.cwd w' = CreateSpritesheet.cwd Samples.thin_hatching).
  { change w' with (snd (r, w')). rewrite <- Hrun. vm_compute. reflexivity. }
  subst r. exists w'. split; [reflexivity|]. split; [exact Hw|].
  unfold output_file. rewrite Hw. reflexivity.
Qed.

(** ** What a cell shows *)

(** X14. Outside the "hatching" folder a frame that already has the size of
    a cell is not resampled: an "RGB" frame is used as it is, and an "RGBA"
    frame is flattened onto the background colour, so that a fully opaque
    pixel keeps its three colour values and a fully transparent one shows
    the background. *)
Theorem cell_sized_frame_is_kept (K : PIL.kernels) (B : builtins)
    (tree : list (string * CreateSpritesheet.node))
    (folder frame_path : CreateSpritesheet.path) (im : PIL.image) :
  CreateSpritesheet.name folder <> "hatching"%string ->
  CreateSpritesheet.resolve frame_path (CreateSpritesheet.Dir tree)
  = Some (CreateSpritesheet.File (ImageFile im)) ->
  PIL.size im = (CreateSpritesheet.FRAME_SIZE, CreateSpritesheet.FRAME_SIZE) ->
  (PIL.im_mode im = PIL.RGB -> prepared K B tree folder frame_path = Returned im)
  /\ (PIL.im_mode im = PIL.RGBA ->
      exists out,
        prepared K B tree folder frame_path = Returned out
        /\ forall x y r g b a,
             0 <= x < CreateSpritesheet.FRAME_SIZE ->
             0 <= y < CreateSpritesheet.FRAME_SIZE ->
             PIL.getpixel im x y = [r; g; b; a] ->
             0 <= r <= 255 -> 0 <= g <= 255 -> 0 <= b <= 255 ->
             (a = 255 -> PIL.getpixel out x y = [r; g; b])
             /\ (a = 0 -> PIL.getpixel out x y = CreateSpritesheet.BACKGROUND_COLOR)).
Proof.
  intros Hname Hfile Hsize.
  assert (Hprep : prepared K B tree folder frame_path
                  = if String.eqb (PIL.mode_name (PIL.im_mode im)) "RGBA" then
                      bg ← PIL.new K PIL.RGB
                             (CreateSpritesheet.FRAME_SIZE, CreateSpritesheet.FRAME_SIZE)
                             CreateSpritesheet.BACKGROUND_COLOR;
                      alpha ← PIL.split_band im 3;
                      PIL.paste K bg im (0, 0) (Some alpha)
                    else if negb (String.eqb (PIL.mode_name (PIL.im_mode im)) "RGB")
                    then Returned (PIL.convert K im PIL.RGB)
                    else Returned im).
  { unfold prepared, CreateSpritesheet.prepare_frame, mbind, M_bind,
      CreateSpritesheet.Image_open, lift, mret, M_ret.
    cbn [CreateSpritesheet.cwd]. rewrite Hfile.
    apply String.eqb_neq in Hname. rewrite Hname.
    rewrite (resize_same_size K im
               (CreateSpritesheet.FRAME_SIZE, CreateSpritesheet.FRAME_SIZE)
               PIL.LANCZOS Hsize)
      by (vm_compute; split; discriminate).
    destruct (String.eqb (PIL.mode_name (PIL.im_mode im)) "RGBA").
    - destruct (PIL.new K PIL.RGB
                  (CreateSpritesheet.FRAME_SIZE, CreateSpritesheet.FRAME_SIZE)
                  CreateSpritesheet.BACKGROUND_COLOR) as [bg| |];
        cbn [mbind outcome_bind]; try reflexivity.
      destruct (PIL.split_band im 3) as [alpha| |]; reflexivity.
    - destruct (negb (String.eqb (PIL.mode_name (PIL.im_mode im)) "RGB"));
        reflexivity. }
  rewrite Hprep. split; intros Hmode; rewrite Hmode.
  - reflexivity.
  - cbn [PIL.mode_name String.eqb Ascii.eqb Bool.eqb].
    destruct (flatten_onto K im 255 255 255 Hmode)
      as (out & Hflat & _ & _ & Hpx);
      try (rewrite Hsize; vm_compute; split; discriminate); try lia.
    rewrite Hsize in Hflat, Hpx. cbn [fst snd] in Hpx.
    exists out. split; [exact Hflat|].
    intros x y r g b a Hx Hy Hp Hr Hg Hb.
    rewrite (Hpx x y Hx Hy), Hp.
    unfold CreateSpritesheet.BACKGROUND_COLOR. cbn [nth firstn PIL.blend_bands].
    split; intros ->.
    + rewrite !blend8_opaque by assumption. reflexivity.
    + rewrite !blend8_transparent by lia. reflexivity.
Qed.

(** A red frame of 128 by 128 pixels in the folder "walk". *)
Lemma cell_sized_frame_is_kept_witness :
  prepared Samples.kernels Samples.builtins
    [("walk"%string,
      CreateSpritesheet.Dir
        [("frame_0.png"%string,
          CreateSpritesheet.File
            (ImageFile (Samples.solid PIL.RGB 128 128 [200; 30; 30])))])]
    ["walk"%string] ["walk"; "frame_0.png"]%string
  = Returned (Samples.solid PIL.RGB 128 128 [200; 30; 30]).
Proof.
  apply (cell_sized_frame_is_kept Samples.kernels Samples.builtins _ ["walk"%string]
           ["walk"; "frame_0.png"]%string
           (Samples.solid PIL.RGB 128 128 [200; 30; 30])).
  - vm_compute. discriminate.
  - reflexivity.
  - reflexivity.
  - reflexivity.
Defined.

(** X15. Whenever [resize_with_padding] returns for a background colour of
    three values between 0 and 255, the scaled sides are at least one
    pixel, the result is an "RGBA" square of the target size, and every
    pixel outside the box the scaled image was pasted into -- the box of
    the scaled size at the offsets [(target - side) // 2] -- is the
    background colour, fully opaque. *)
Theorem padding_is_background (K : PIL.kernels) (image out : PIL.image)
    (target_size : Z) (r g b : Z) :
  0 <= r <= 255 -> 0 <= g <= 255 -> 0 <= b <= 255 ->
  CreateSpritesheet.resize_with_padding K image target_size [r; g; b] = Returned out ->
  exists new_width new_height,
    CreateSpritesheet.scaled_size (PIL.width image) (PIL.height image) target_size
    = Returned (new_width, new_height)
    /\ 1 <= new_width /\ 1 <= new_height
    /\ PIL.size out = (target_size, target_size)
    /\ PIL.im_mode out = PIL.RGBA
    /\ forall x y,
         let x_offset := (target_size - new_width) / 2 in
         let y_offset := (target_size - new_height) / 2 in
         ~ (x_offset <= x < x_offset + new_width
            /\ y_offset <= y < y_offset + new_height) ->
         PIL.getpixel out x y = [r; g; b; 255].
Proof.
  intros Hr Hg Hb.
  unfold CreateSpritesheet.resize_with_padding, PIL.width, PIL.height.
  destruct (PIL.size image) as [img_width img_height]. cbn [fst snd].
  destruct (CreateSpritesheet.scaled_size img_width img_height target_size)
    as [[new_width new_height]| |]; cbn [mbind outcome_bind]; try discriminate.
  destruct (PIL.resize K image (new_width, new_height) PIL.LANCZOS)
    as [resized| |] eqn:Hres; cbn [mbind outcome_bind]; try discriminate.
  destruct (resize_returns_size K image resized _ _ Hres) as (Hsize & _ & Hw & Hh).
  cbn [fst snd] in Hw, Hh.
  destruct (PIL.new K PIL.RGBA (target_size, target_size) ([r; g; b] ++ [255]))
    as [bg| |] eqn:Hbg; cbn [mbind outcome_bind]; try discriminate.
  apply new_returned in Hbg as (p & Hink & ->).
  assert (p = [r; g; b; 255]) as ->.
  { unfold PIL.ink in Hink. cbn [app] in Hink.
    rewrite (rgba_ink_four r g b 255 Hr Hg Hb ltac:(lia)) in Hink. congruence. }
  intros Hpaste. exists new_width, new_height.
  split; [reflexivity|]. split; [lia|]. split; [lia|].
  assert (Hinside : forall (src : PIL.image) x y,
            PIL.size src = (new_width, new_height) ->
            ~ ((target_size - new_width) / 2 <= x
                 < (target_size - new_width) / 2 + new_width
               /\ (target_size - new_height) / 2 <= y
                    < (target_size - new_height) / 2 + new_height) ->
            ((target_size - new_width) / 2 <=? x)
            && (x <? (target_size - new_width) / 2 + PIL.width src)
            && ((target_size - new_height) / 2 <=? y)
            && (y <? (target_size - new_height) / 2 + PIL.height src) = false).
  { intros src x y Hsrc Hout. unfold PIL.width, PIL.height. rewrite Hsrc.
    cbn [fst snd]. apply not_true_iff_false. intros Htest. apply Hout.
    rewrite !andb_true_iff, !Z.leb_le, !Z.ltb_lt in Htest. lia. }
  unfold PIL.paste in Hpaste.
  cbn [mbind outcome_bind PIL.im_mode PIL.size PIL.getpixel] in Hpaste.
  rewrite mode_is_RGBA in Hpaste.
  case_bool_decide as Hmode.
  - rewrite Hmode in Hpaste.
    change (bool_decide (PIL.RGBA = PIL.RGBA)) with true in Hpaste.
    cbn [PIL.mask_band] in Hpaste.
    rewrite bool_decide_eq_true_2 in Hpaste by reflexivity. cbn [negb] in Hpaste.
    injection Hpaste as <-. cbn [PIL.im_mode PIL.size PIL.getpixel].
    split; [reflexivity|]. split; [reflexivity|].
    intros x y Hout. cbv zeta in Hout.
    rewrite (Hinside resized x y Hsize Hout). reflexivity.
  - rewrite (bool_decide_eq_false_2 (PIL.RGBA = PIL.im_mode resized)) in Hpaste
      by congruence.
    change (bool_decide (PIL.RGBA = PIL.RGB)) with false in Hpaste.
    cbn [andb] in Hpaste.
    injection Hpaste as <-. cbn [PIL.im_mode PIL.size PIL.getpixel].
    split; [reflexivity|]. split; [reflexivity|].
    intros x y Hout. cbv zeta in Hout.
    rewrite (Hinside (PIL.convert K resized PIL.RGBA) x y); [reflexivity| |exact Hout].
    unfold PIL.convert. case_bool_decide; [exact Hsize|]. exact Hsize.
Qed.

(** A video frame of 1280 by 720 in a cell of 128, on white: the image is
    scaled to 128 by 72 and the 28 rows above it are background. *)
Lemma padding_is_background_witness :
  exists out,
    CreateSpritesheet.resize_with_padding Samples.kernels
      (Samples.solid PIL.RGB 1280 720 [200; 30; 30]) 128 [255; 255; 255]
    = Returned out
    /\ PIL.size out = (128, 128)
    /\ PIL.getpixel out 64 27 = [255; 255; 255; 255].
Proof.
  destruct (CreateSpritesheet.resize_with_padding Samples.kernels
              (Samples.solid PIL.RGB 1280 720 [200; 30; 30]) 128 [255; 255; 255])
    as [out| |] eqn:Hrun; try (vm_compute in Hrun; discriminate).
  destruct (padding_is_background Samples.kernels _ out 128 255 255 255
              ltac:(lia) ltac:(lia) ltac:(lia) Hrun)
    as (new_width & new_height & Hscaled & _ & _ & Hsize & _ & Hpad).
  exists out. split; [reflexivity|]. split; [exact Hsize|].
  assert (Hsides : (new_width, new_height) = (128, 72)).
  { assert (Hs : CreateSpritesheet.scaled_size 1280 720 128 = Returned (128, 72))
      by (vm_compute; reflexivity).
    change (PIL.width (Samples.solid PIL.RGB 1280 720 [200; 30; 30])) with 1280
      in Hscaled.
    change (PIL.height (Samples.solid PIL.RGB 1280 720 [200; 30; 30])) with 720
      in Hscaled.
    congruence. }
  injection Hsides as -> ->.
  apply (Hpad 64 27). cbv zeta. change ((128 - 72) / 2) with 28. lia.
Defined.

(** ** The script of [generate.py] *)

Lemma bind_run {W A B : Type} (m : M W A) (k : A -> M W B) (w : W) :
  (m ≫= k) w
  = match m w with
    | (Returned a, w') => k a w'
    | (Raised e, w') => (Raised e, w')
    | (OutOfFuel, w') => (OutOfFuel, w')
    end.
Proof. reflexivity. Qed.

(** The polling loop leaves the files alone, however it ends. *)
Lemma poll_keeps_files (S : service) (video_id : string) (poll_interval timeout : Z)
    (fuel : nat) : forall elapsed w,
  Generate.files (snd (Generate.poll S video_id poll_interval timeout fuel elapsed w))
  = Generate.files w.
Proof.
  induction fuel as [|fuel IH]; intros elapsed w; cbn [Generate.poll];
    destruct (negb (elapsed <? timeout)); try reflexivity.
  unfold mbind, M_bind, Generate.videos_retrieve, Generate.print, Generate.sleep, raise.
  destruct (of_reply (retrieve S video_id (Generate.checks w))) as [j| |];
    try reflexivity.
  destruct (String.eqb (status j) "completed"); [reflexivity|].
  destruct (String.eqb (status j) "failed"); [reflexivity|].
  destruct ((poll_interval <? - Generate.max_sleep)
            || (Generate.max_sleep <? poll_interval)); [reflexivity|].
  destruct (poll_interval <? 0); [reflexivity|].
  rewrite IH. reflexivity.
Qed.

Lemma wait_keeps_files (S : service) (video_id : string) (poll_interval timeout : Z)
    (fuel : nat) (w : Generate.world) :
  Generate.files
    (snd (Generate.wait_for_completion S video_id poll_interval timeout fuel w))
  = Generate.files w.
Proof.
  unfold Generate.wait_for_completion, mbind, M_bind, Generate.print.
  rewrite poll_keeps_files. reflexivity.
Qed.

(** Preparing the reference image reads the world and changes nothing. *)
Lemma reference_image_reads (K : PIL.kernels) (B : builtins)
    (image_path target_size : string) (w : Generate.world) :
  snd (Generate.resize_image_to_match K B image_path target_size w) = w.
Proof.
  unfold Generate.resize_image_to_match, mbind, M_bind, lift, Generate.Image_open,
    mret, M_ret.
  destruct (Generate.parse_size B target_size) as [[width height]| |];
    try reflexivity.
  destruct (Generate.files w !! image_path) as [[data|img]|]; try reflexivity.
  destruct (PIL.resize K img (width, height) PIL.NEAREST) as [resized| |];
    try reflexivity.
  destruct (String.eqb (PIL.mode_name (PIL.im_mode resized)) "RGBA");
    [|reflexivity].
  destruct (PIL.new K PIL.RGB (PIL.size resized) Generate.WHITE) as [bg| |];
    try reflexivity.
  destruct (PIL.split_band resized 3) as [alpha| |]; try reflexivity.
  destruct (PIL.paste K bg resized (0, 0) (Some alpha)); reflexivity.
Qed.

(** The image is prepared from the files alone. *)
Lemma reference_image_from_files (K : PIL.kernels) (B : builtins)
    (image_path target_size : string) (w w' : Generate.world) :
  Generate.files w = Generate.files w' ->
  fst (Generate.resize_image_to_match K B image_path target_size w)
  = fst (Generate.resize_image_to_match K B image_path target_size w').
Proof.
  intros Hfiles.
  unfold Generate.resize_image_to_match, mbind, M_bind, lift, Generate.Image_open,
    mret, M_ret.
  destruct (Generate.parse_size B target_size) as [[width height]| |];
    try reflexivity.
  rewrite Hfiles.
  destruct (Generate.files w' !! image_path) as [[data|img]|]; try reflexivity.
  destruct (PIL.resize K img (width, height) PIL.NEAREST) as [resized| |];
    try reflexivity.
  destruct (String.eqb (PIL.mode_name (PIL.im_mode resized)) "RGBA");
    [|reflexivity].
  destruct (PIL.new K PIL.RGB (PIL.size resized) Generate.WHITE) as [bg| |];
    try reflexivity.
  destruct (PIL.split_band resized 3) as [alpha| |]; try reflexivity.
  destruct (PIL.paste K bg resized (0, 0) (Some alpha)); reflexivity.
Qed.

Section Script.
Import GenerateRun.
Context (K : PIL.kernels) (B : builtins) (E : environment) (O : os).

Lemma says_says (w : world) (l1 l2 : list string) :
  says (says w l1) l2 = says w (l1 ++ l2).
Proof. unfold says. cbn. rewrite <- app_assoc. reflexivity. Qed.

Lemma says_nil (w : world) : says w [] = w.
Proof.
  unfold says. rewrite app_nil_r. destruct w as [[c s o f] sub]. reflexivity.
Qed.

Lemma print_run (line : string) (w : world) :
  print line w = (Returned tt, says w [line]).
Proof. reflexivity. Qed.

(** [resolve_prompt] prints one line, and reads the file of a prompt only
    when the name is no preset, ends in ".txt" and exists. *)
Lemma resolve_prompt_run (prompt_input : string) (w : world) :
  exists line r,
    resolve_prompt B E prompt_input w = (r, says w [line])
    /\ (forall text, dict_get PROMPT_PRESETS prompt_input = Some text ->
          r = Returned text)
    /\ (dict_get PROMPT_PRESETS prompt_input = None ->
        endswith prompt_input ".txt"
        && (bool_decide (is_Some (Generate.files (base w) !! prompt_input))
            || is_dir E prompt_input) = false ->
        r = Returned prompt_input).
Proof.
  unfold resolve_prompt.
  destruct (dict_get PROMPT_PRESETS prompt_input) as [text|].
  - do 2 eexists. rewrite bind_run, print_run. cbn [mret M_ret].
    split; [reflexivity|]. split; [intros t [= <-]; reflexivity|discriminate].
  - rewrite bind_run.
    destruct (endswith prompt_input ".txt").
    + unfold path_exists. cbn [andb].
      destruct (bool_decide (is_Some (Generate.files (base w) !! prompt_input))
                || is_dir E prompt_input).
      * rewrite bind_run, print_run, bind_run.
        unfold path_read_text. cbn [base says Generate.files].
        destruct (match Generate.files (base w) !! prompt_input with
                  | Some f => read_text E f
                  | None =>
                      if is_dir E prompt_input
                      then Raised (os_error B 21 "Is a directory" prompt_input)
                      else Raised (os_error B 2 "No such file or directory"
                                     prompt_input)
                  end) as [text| |]; cbn [mret M_ret];
          (do 2 eexists; split; [reflexivity|]; split; discriminate).
      * do 2 eexists. rewrite bind_run, print_run. cbn [mret M_ret].
        split; [reflexivity|]. split; [discriminate|reflexivity].
    + cbn [mret M_ret andb].
      do 2 eexists. rewrite bind_run, print_run. cbn [mret M_ret].
      split; [reflexivity|]. split; [discriminate|reflexivity].
Qed.

(** [get_client] gives the client of a key that is set and not empty, and
    otherwise leaves with two lines printed. *)
Lemma get_client_run (w : world) :
  exists lines,
    get_client E w
    = (Returned (match api_key E with
                 | Some (String _ _ as key) => Some (OpenAI E key)
                 | _ => None
                 end), says w lines).
Proof.
  unfold get_client. destruct (api_key E) as [[|c key]|].
  - exists ["Error: OPENAI_API_KEY not found.";
            "Set it in a .env file (OPENAI_API_KEY=sk-...) or export it."]%string.
    rewrite bind_run, print_run. cbv beta iota.
    rewrite bind_run, print_run. cbv beta iota.
    rewrite says_says. reflexivity.
  - exists []. rewrite says_nil. reflexivity.
  - exists ["Error: OPENAI_API_KEY not found.";
            "Set it in a .env file (OPENAI_API_KEY=sk-...) or export it."]%string.
    rewrite bind_run, print_run. cbv beta iota.
    rewrite bind_run, print_run. cbv beta iota.
    rewrite says_says. reflexivity.
Qed.

(** The image of the script is prepared from the files alone, changes
    nothing, and when it is returned it is the one [resize_image_to_match]
    returns. *)
Lemma script_image_run (image_path size : string) (w : world) :
  snd (GenerateRun.resize_image_to_match K B E image_path size w) = w
  /\ (forall image_buf,
        fst (GenerateRun.resize_image_to_match K B E image_path size w)
        = Returned image_buf ->
        fst (Generate.resize_image_to_match K B image_path size (base w))
        = Returned image_buf)
  /\ (forall w',
        Generate.files (base w') = Generate.files (base w) ->
        fst (GenerateRun.resize_image_to_match K B E image_path size w')
        = fst (GenerateRun.resize_image_to_match K B E image_path size w)).
Proof.
  unfold GenerateRun.resize_image_to_match, on_base.
  split; [|split].
  - destruct (is_dir E image_path
              && bool_decide (Generate.files (base w) !! image_path = None));
      [reflexivity|].
    pose proof (reference_image_reads K B image_path size (base w)) as Hreads.
    destruct (Generate.resize_image_to_match K B image_path size (base w))
      as [r b]. cbn [snd] in *. subst b. destruct w; reflexivity.
  - intros image_buf.
    destruct (is_dir E image_path
              && bool_decide (Generate.files (base w) !! image_path = None)).
    + cbn [fst].
      destruct (Generate.parse_size B size) as [[width height]| |]; discriminate.
    + destruct (Generate.resize_image_to_match K B image_path size (base w))
        as [r b]. cbn [fst]. auto.
  - intros w' Hfiles. rewrite Hfiles.
    destruct (is_dir E image_path
              && bool_decide (Generate.files (base w) !! image_path = None));
      [reflexivity|].
    pose proof (reference_image_from_files K B image_path size (base w') (base w)
                  Hfiles) as Hsame.
    destruct (Generate.resize_image_to_match K B image_path size (base w'))
      as [r' b'], (Generate.resize_image_to_match K B image_path size (base w))
      as [r b]. exact Hsame.
Qed.

(** [create_video]: nothing is submitted unless the image could be
    prepared; the submission carries the arguments. *)
Lemma create_video_run (c : client) (prompt image_path model size : string)
    (seconds : Z) (w : world) :
  match fst (GenerateRun.resize_image_to_match K B E image_path size w) with
  | Returned image_buf =>
      let s := mkSubmission model ("image.png"%string, image_buf, "image/png"%string)
                 prompt size seconds in
      exists lines,
        create_video K B E c prompt image_path model size seconds w
        = match videos_create c s with
          | Ok video_id =>
              (Returned video_id,
               mkWorld (base (says w (lines ++ ["  Video ID: " +:+ video_id])))
                 (submitted w ++ [s]))
          | Fails msg =>
              (Raised (APIError msg),
               mkWorld (base (says w lines)) (submitted w ++ [s]))
          end
  | Raised e =>
      create_video K B E c prompt image_path model size seconds w = (Raised e, w)
  | OutOfFuel =>
      create_video K B E c prompt image_path model size seconds w = (OutOfFuel, w)
  end.
Proof.
  unfold create_video. rewrite bind_run.
  destruct (script_image_run image_path size w) as (Hreads & _ & _).
  destruct (GenerateRun.resize_image_to_match K B E image_path size w)
    as [[image_buf| |] w0]; cbn [fst snd] in *; subst w0; try reflexivity.
  cbv zeta.
  exists [nl +:+ "Submitting video generation job...";
          "  Model:    " +:+ model;
          "  Size:     " +:+ size;
          "  Duration: " +:+ str_int seconds +:+ "s";
          "  Image:    " +:+ image_path;
          "  Prompt:   " +:+ String.substring 0 80 prompt
            +:+ (if (80 <? String.length prompt)%nat then "..." else EmptyString)]%string.
  do 6 (rewrite bind_run, print_run; cbv beta iota; rewrite ?says_says).
  rewrite bind_run. unfold videos_create_id.
  destruct (videos_create c _) as [video_id|msg]; cbn [of_reply].
  - rewrite bind_run, print_run. cbv beta iota. cbn [mret M_ret].
    unfold says. cbn [base submitted Generate.checks Generate.slept Generate.stdout
                        Generate.files].
    rewrite <- !app_assoc. reflexivity.
  - unfold says. cbn [base submitted Generate.checks Generate.slept
                        Generate.stdout Generate.files]. reflexivity.
Qed.

Lemma append_assoc (a b c : string) : (a +:+ b) +:+ c = a +:+ (b +:+ c).
Proof.
  induction a as [|ch a IH]; [reflexivity|].
  change (String ch ((a +:+ b) +:+ c) = String ch (a +:+ (b +:+ c))).
  rewrite IH. reflexivity.
Qed.

(** [download_outputs] raises only when the output directory cannot be
    made, and has then changed nothing. *)
Lemma download_outputs_run (S : service) (video_id prompt_name : string)
    (b : Generate.world) :
  match makedirs_error O "output" with
  | Some msg =>
      Generate.download_outputs S O video_id prompt_name b = (Raised (OSError msg), b)
  | None =>
      exists b',
        Generate.download_outputs S O video_id prompt_name b
        = (Returned (Generate.variants_of prompt_name video_id), b')
        /\ Generate.checks b' = Generate.checks b
        /\ Generate.slept b' = Generate.slept b
  end.
Proof.
  destruct (makedirs_error O "output") as [msg|] eqn:Hmk.
  - unfold Generate.download_outputs, Generate.makedirs, Generate.OUTPUT_DIR.
    rewrite Hmk. reflexivity.
  - destruct (download_outputs_settles S O video_id prompt_name b Hmk)
      as (b' & Hrun & _).
    exists b'. split; [exact Hrun|].
    assert (Hsnd : b' = snd (Generate.download_outputs S O video_id prompt_name b))
      by (rewrite Hrun; reflexivity).
    unfold Generate.download_outputs, Generate.makedirs, Generate.OUTPUT_DIR in Hsnd.
    rewrite Hmk in Hsnd. rewrite bind_run in Hsnd. cbn [mret M_ret] in Hsnd.
    rewrite bind_run in Hsnd.
    pose proof (for_each_keeps Generate.checks
                  (Generate.download_variant S O video_id)
                  (Generate.variants_of prompt_name video_id)
                  (fun x w => proj1 (download_variant_keeps_polling S O video_id x w)) b)
      as Hchecks.
    pose proof (for_each_keeps Generate.slept
                  (Generate.download_variant S O video_id)
                  (Generate.variants_of prompt_name video_id)
                  (fun x w => proj2 (download_variant_keeps_polling S O video_id x w)) b)
      as Hslept.
    destruct (for_each (Generate.variants_of prompt_name video_id)
                (Generate.download_variant S O video_id) b) as [[[]| |] b''];
      cbn [snd] in *; subst b'; auto.
Qed.

(** The run of [main]: it ends before anything is submitted, with lines
    printed and nothing else changed, or it submits one job made of its
    arguments and goes on to poll and to download. *)
Lemma main_run (a : args) (fuel : nat) (w : world) :
  let run := main K B E O a fuel w in
  (exists lines, snd run = says w lines /\ fst run <> Returned Finished)
  \/ exists key prompt image_buf lines,
       api_key E = Some key /\ key <> EmptyString
       /\ bool_decide (is_Some (Generate.files (base w) !! args_image a))
          || is_dir E (args_image a) = true
       /\ fst (resolve_prompt B E (args_prompt a) w) = Returned prompt
       /\ fst (Generate.resize_image_to_match K B (args_image a) (args_size a) (base w))
          = Returned image_buf
       /\ let s := mkSubmission (args_model a)
                     ("image.png"%string, image_buf, "image/png"%string)
                     prompt (args_size a) (args_seconds a) in
          submitted (snd run) = submitted w ++ [s]
          /\ match videos_create (OpenAI E key) s with
             | Fails msg =>
                 fst run = Raised (APIError msg)
                 /\ base (snd run) = base (says w lines)
             | Ok video_id =>
                 let polled :=
                   Generate.wait_for_completion (videos (OpenAI E key)) video_id
                     DEFAULT_POLL_INTERVAL DEFAULT_TIMEOUT fuel (base (says w lines)) in
                 match fst polled with
                 | Returned _ =>
                     Generate.checks (base (snd run)) = Generate.checks (snd polled)
                     /\ Generate.slept (base (snd run)) = Generate.slept (snd polled)
                     /\ match makedirs_error O "output" with
                        | Some msg =>
                            fst run = Raised (OSError msg)
                            /\ Generate.files (base (snd run))
                               = Generate.files (base w)
                        | None =>
                            fst run = Returned Finished
                            /\ last (Generate.stdout (base (snd run)))
                               = Some ("  Sprite sheet: output/"
                                       +:+ prompt_name_of (args_prompt a) +:+ "_"
                                       +:+ video_id +:+ "_spritesheet.png")
                        end
                 | Raised e => fst run = Raised e /\ base (snd run) = snd polled
                 | OutOfFuel => fst run = OutOfFuel /\ base (snd run) = snd polled
                 end
             end.
Proof.
  cbv zeta. remember (main K B E O a fuel w) as run eqn:Hrun.
  unfold main in Hrun. rewrite bind_run in Hrun. unfold path_exists in Hrun.
  cbv beta iota in Hrun.
  destruct (bool_decide (is_Some (Generate.files (base w) !! args_image a))
            || is_dir E (args_image a)) eqn:Himage; cbn [negb] in Hrun.
  2:{ left. rewrite bind_run, print_run in Hrun. cbn [mret M_ret] in Hrun.
      subst run. cbn [fst snd]. eexists. split; [reflexivity|discriminate]. }
  rewrite bind_run in Hrun.
  destruct (resolve_prompt_run (args_prompt a) w) as (line & r & Hprompt & _ & _).
  rewrite Hprompt in Hrun |- *. cbn [fst].
  destruct r as [prompt| |];
    try (left; subst run; cbn [fst snd]; eexists; split; [reflexivity|discriminate]).
  rewrite bind_run in Hrun.
  destruct (get_client_run (says w [line])) as [lines Hclient].
  rewrite Hclient, says_says in Hrun. clear Hclient.
  destruct (api_key E) as [[|ch key]|] eqn:Hkey;
    try (left; subst run; cbn [mret M_ret fst snd]; eexists; split;
         [reflexivity|discriminate]).
  rewrite bind_run in Hrun.
  set (w1 := says w ([line] ++ lines)) in Hrun.
  set (c := OpenAI E (String ch key)) in Hrun.
  pose proof (create_video_run c prompt (args_image a) (args_model a) (args_size a)
                (args_seconds a) w1) as Hcreate.
  destruct (script_image_run (args_image a) (args_size a) w)
    as (_ & Hreturned & Hfiles).
  rewrite (Hfiles w1 eq_refl) in Hcreate.
  destruct (fst (GenerateRun.resize_image_to_match K B E (args_image a) (args_size a)
                   w)) as [image_buf| |] eqn:Himg;
    try (left; rewrite Hcreate in Hrun; subst run; cbn [fst snd]; eexists; split;
         [reflexivity|discriminate]).
  cbv zeta in Hcreate. destruct Hcreate as [lines2 Hcreate].
  rewrite Hcreate in Hrun. clear Hcreate.
  right.
  destruct (videos_create c
              (mkSubmission (args_model a)
                 ("image.png"%string, image_buf, "image/png"%string) prompt
                 (args_size a) (args_seconds a))) as [video_id|msg] eqn:Hid.
  2:{ exists (String ch key), prompt, image_buf, (([line] ++ lines) ++ lines2).
      split; [reflexivity|]. split; [discriminate|]. split; [reflexivity|].
      split; [reflexivity|]. split; [exact (Hreturned _ eq_refl)|].
      fold c. rewrite Hid. subst run. unfold w1. rewrite says_says.
      cbn [fst snd submitted base]. auto. }
  exists (String ch key), prompt, image_buf,
    (([line] ++ lines) ++ lines2 ++ ["  Video ID: " +:+ video_id]).
  split; [reflexivity|]. split; [discriminate|]. split; [reflexivity|].
  split; [reflexivity|]. split; [exact (Hreturned _ eq_refl)|].
  fold c. rewrite Hid. cbv zeta.
  unfold w1 in Hrun. rewrite says_says in Hrun.
  set (w2 := says w (([line] ++ lines) ++ lines2 ++ ["  Video ID: " +:+ video_id]))
    in *.
  rewrite bind_run in Hrun. unfold on_base at 1 in Hrun. cbn [base submitted] in Hrun.
  destruct (Generate.wait_for_completion (videos c) video_id DEFAULT_POLL_INTERVAL
              DEFAULT_TIMEOUT fuel (base w2)) as [[job| |] b3] eqn:Hwait;
    cbn [fst snd];
    try solve [subst run; cbn [fst snd submitted base]; auto].
  rewrite bind_run, print_run in Hrun. cbv beta iota in Hrun.
  rewrite bind_run in Hrun. unfold on_base at 1 in Hrun.
  cbn [base submitted says] in Hrun.
  pose proof (download_outputs_run (videos c) video_id
                (match dict_get PROMPT_PRESETS (args_prompt a) with
                 | Some _ => args_prompt a
                 | None => "custom"%string
                 end)
                (Generate.mkWorld (Generate.checks b3) (Generate.slept b3)
                   (Generate.stdout b3 ++ [nl +:+ "Downloading outputs..."])
                   (Generate.files b3))) as Hdownload.
  destruct (makedirs_error O "output") as [msg|].
  - rewrite Hdownload in Hrun. subst run.
    cbn [fst snd submitted base Generate.checks Generate.slept Generate.files].
    split; [reflexivity|]. split; [reflexivity|]. split; [reflexivity|].
    split; [reflexivity|].
    change b3 with (snd (Returned job, b3)). rewrite <- Hwait.
    rewrite wait_keeps_files. reflexivity.
  - destruct Hdownload as (b' & Hdownload & Hchecks & Hslept).
    rewrite Hdownload in Hrun.
    rewrite bind_run, print_run in Hrun. cbv beta iota in Hrun.
    rewrite bind_run, print_run in Hrun. cbv beta iota in Hrun.
    unfold mret, M_ret in Hrun. subst run.
    cbn [fst snd submitted base says Generate.checks Generate.slept Generate.stdout].
    split; [reflexivity|]. split; [exact Hchecks|]. split; [exact Hslept|].
    split; [reflexivity|].
    rewrite last_snoc. f_equal. unfold prompt_name_of, Generate.variants_of.
    cbn [dict_get String.eqb Ascii.eqb Bool.eqb default].
    unfold Generate.OUTPUT_DIR. rewrite !append_assoc. reflexivity.
Qed.

End Script.

(** X16. Files are written only by a run that ends normally: whenever
    [main] leaves through [sys.exit], raises -- the image cannot be
    prepared, the submission is refused, the job fails or times out, the
    output directory cannot be made -- or is still polling, the files are
    those it started with. *)
Theorem only_a_finished_run_writes (K : PIL.kernels) (B : builtins)
    (E : GenerateRun.environment) (O : os) (a : GenerateRun.args) (fuel : nat)
    (w : GenerateRun.world) :
  let run := GenerateRun.main K B E O a fuel w in
  fst run = Returned GenerateRun.Finished
  \/ Generate.files (GenerateRun.base (snd run)) = Generate.files (GenerateRun.base w).
Proof.
  cbv zeta.
  destruct (main_run K B E O a fuel w)
    as [(lines & -> & _)
       |(key & prompt & image_buf & lines & _ & _ & _ & _ & _ & _ & Hrest)];
    [right; reflexivity|].
  destruct (GenerateRun.videos_create _ _) as [video_id|msg].
  2:{ destruct Hrest as [_ ->]. right. reflexivity. }
  cbv zeta in Hrest.
  pose proof (wait_keeps_files (GenerateRun.videos (GenerateRun.OpenAI E key))
                video_id GenerateRun.DEFAULT_POLL_INTERVAL GenerateRun.DEFAULT_TIMEOUT
                fuel (GenerateRun.base (says w lines))) as Hfiles.
  destruct (fst (Generate.wait_for_completion _ _ _ _ _ _)) as [job| |].
  - destruct Hrest as (_ & _ & Hrest).
    destruct (makedirs_error O "output") as [msg|]; [right|left]; apply Hrest.
  - destruct Hrest as [_ ->]. right. exact Hfiles.
  - destruct Hrest as [_ ->]. right. exact Hfiles.
Qed.

(** X17. [main] submits at most one job, and contacts the service only
    with a key that is set and not empty and an image it could prepare.
    Either nothing is submitted and no status is requested, or exactly one
    job is: with the model, the size and the seconds of the command line,
    the prepared image under the name "image.png", and as its prompt the
    text of the preset when the prompt names one -- while a prompt that is
    no preset and no existing ".txt" path, a missing file included, is
    sent as it is. *)
Theorem one_submission_of_the_arguments (K : PIL.kernels) (B : builtins)
    (E : GenerateRun.environment) (O : os) (a : GenerateRun.args) (fuel : nat)
    (w : GenerateRun.world) :
  let run := GenerateRun.main K B E O a fuel w in
  (GenerateRun.submitted (snd run) = GenerateRun.submitted w
   /\ Generate.checks (GenerateRun.base (snd run))
      = Generate.checks (GenerateRun.base w))
  \/ exists key prompt image_buf,
       GenerateRun.api_key E = Some key /\ key <> EmptyString
       /\ fst (Generate.resize_image_to_match K B (GenerateRun.args_image a)
                 (GenerateRun.args_size a) (GenerateRun.base w))
          = Returned image_buf
       /\ GenerateRun.submitted (snd run)
          = GenerateRun.submitted w
              ++ [GenerateRun.mkSubmission (GenerateRun.args_model a)
                    ("image.png"%string, image_buf, "image/png"%string)
                    prompt (GenerateRun.args_size a) (GenerateRun.args_seconds a)]
       /\ (forall text,
             GenerateRun.dict_get GenerateRun.PROMPT_PRESETS (GenerateRun.args_prompt a)
             = Some text ->
             prompt = text)
       /\ (GenerateRun.dict_get GenerateRun.PROMPT_PRESETS (GenerateRun.args_prompt a)
           = None ->
           endswith (GenerateRun.args_prompt a) ".txt"
           && (bool_decide (is_Some (Generate.files (GenerateRun.base w)
                                       !! GenerateRun.args_prompt a))
               || GenerateRun.is_dir E (GenerateRun.args_prompt a)) = false ->
           prompt = GenerateRun.args_prompt a).
Proof.
  cbv zeta.
  destruct (main_run K B E O a fuel w)
    as [(lines & -> & _)
       |(key & prompt & image_buf & lines & Hkey & Hne & _ & Hprompt & Himg
         & Hsub & _)];
    [left; split; reflexivity|].
  right. exists key, prompt, image_buf.
  split; [exact Hkey|]. split; [exact Hne|]. split; [exact Himg|].
  split; [exact Hsub|].
  destruct (resolve_prompt_run B E (GenerateRun.args_prompt a) w)
    as (line & r & Hrun & Hpreset & Hraw).
  rewrite Hrun in Hprompt. cbn [fst] in Hprompt. subst r. split.
  - intros text Htext. specialize (Hpreset text Htext). congruence.
  - intros Hnone Hfile. specialize (Hraw Hnone Hfile). congruence.
Qed.

(** X18. [main] polls with the defaults of [wait_for_completion]: when the
    job it has submitted is never found finished, the run raises the
    timeout failure that names the job after exactly 60 status checks and
    600 seconds of sleep, and has written no file. *)
Theorem main_gives_up_after_ten_minutes (K : PIL.kernels) (B : builtins)
    (E : GenerateRun.environment) (O : os) (a : GenerateRun.args) (fuel : nat)
    (w : GenerateRun.world) (key video_id : string) (s : GenerateRun.submission) :
  let run := GenerateRun.main K B E O a fuel w in
  GenerateRun.api_key E = Some key ->
  GenerateRun.submitted (snd run) = GenerateRun.submitted w ++ [s] ->
  GenerateRun.videos_create (GenerateRun.OpenAI E key) s = Ok video_id ->
  never_finished (GenerateRun.videos (GenerateRun.OpenAI E key)) video_id 10 600
    (GenerateRun.base w) ->
  (60 <= fuel)%nat ->
  fst run = Raised (RuntimeError ("Timed out after 600s waiting for video " +:+ video_id))
  /\ Generate.checks (GenerateRun.base (snd run))
     = (Generate.checks (GenerateRun.base w) + 60)%nat
  /\ Generate.time_slept (GenerateRun.base (snd run))
     = Generate.time_slept (GenerateRun.base w) + 600
  /\ Generate.files (GenerateRun.base (snd run)) = Generate.files (GenerateRun.base w).
Proof.
  cbv zeta. intros Hkey Hsub Hid Hnever Hfuel.
  destruct (main_run K B E O a fuel w)
    as [(lines & Hsnd & _)
       |(key' & prompt & image_buf & lines & Hkey' & _ & _ & _ & _ & Hsub' & Hrest)].
  { rewrite Hsnd in Hsub. cbn [says GenerateRun.submitted] in Hsub.
    apply (f_equal length) in Hsub. rewrite length_app in Hsub. cbn in Hsub. lia. }
  assert (key' = key) as -> by congruence.
  rewrite Hsub in Hsub'. apply app_inv_head in Hsub'. injection Hsub' as Hs.
  rewrite <- Hs, Hid in Hrest. cbv zeta in Hrest.
  unfold GenerateRun.DEFAULT_POLL_INTERVAL, GenerateRun.DEFAULT_TIMEOUT in Hrest.
  destruct (wait_times_out (GenerateRun.videos (GenerateRun.OpenAI E key)) video_id
              10 600 (GenerateRun.base (says w lines)) fuel) as (b & Hwait & Hc & Hs').
  { unfold Generate.max_sleep. lia. }
  { exact Hnever. }
  { change (checks_before_timeout 10 600) with 60%nat. exact Hfuel. }
  change (checks_before_timeout 10 600) with 60%nat in Hc, Hs'.
  pose proof (wait_keeps_files (GenerateRun.videos (GenerateRun.OpenAI E key))
                video_id 10 600 fuel (GenerateRun.base (says w lines))) as Hfiles.
  rewrite Hwait in Hrest, Hfiles. cbn [fst snd] in Hrest, Hfiles.
  destruct Hrest as [Hfst Hbase]. rewrite Hfst, Hbase.
  split.
  { unfold Generate.timeout_message.
    change (str_int 600) with "600"%string. reflexivity. }
  split; [exact Hc|]. split; [|exact Hfiles].
  rewrite (time_slept_app _ _ _ Hs'), sum_repeat. reflexivity.
Qed.

(** The job stays "running": sixty checks, ten minutes, and the failure. *)
Lemma main_gives_up_after_ten_minutes_witness :
  let run := GenerateRun.main Samples.kernels Samples.builtins
               (RunSamples.environment_of (Samples.stuck_in "running"))
               Samples.no_refusals RunSamples.idle_args 60
               (RunSamples.start (Samples.solid PIL.RGB 2 2 [200; 30; 30])) in
  fst run = Raised (RuntimeError "Timed out after 600s waiting for video video_1")
  /\ Generate.checks (GenerateRun.base (snd run)) = 60%nat
  /\ Generate.time_slept (GenerateRun.base (snd run)) = 600
  /\ Generate.files (GenerateRun.base (snd run))
     = Generate.files
         (GenerateRun.base (RunSamples.start (Samples.solid PIL.RGB 2 2 [200; 30; 30]))).
Proof.
  cbv zeta.
  destruct (GenerateRun.submitted
              (snd (GenerateRun.main Samples.kernels Samples.builtins
                      (RunSamples.environment_of (Samples.stuck_in "running"))
                      Samples.no_refusals RunSamples.idle_args 60
                      (RunSamples.start (Samples.solid PIL.RGB 2 2 [200; 30; 30])))))
    as [|s [|s' rest]] eqn:Hsub;
    [vm_compute in Hsub; discriminate| |vm_compute in Hsub; discriminate].
  apply (main_gives_up_after_ten_minutes Samples.kernels Samples.builtins
           (RunSamples.environment_of (Samples.stuck_in "running"))
           Samples.no_refusals RunSamples.idle_args 60
           (RunSamples.start (Samples.solid PIL.RGB 2 2 [200; 30; 30]))
           "sk-test" "video_1" s).
  - reflexivity.
  - exact Hsub.
  - reflexivity.
  - intros k _. eexists. split; [reflexivity|]. split; discriminate.
  - lia.
Defined.

(** X19. A run that ends normally has submitted one job and closes with
    the line that names the sprite sheet under the id of that job and the
    short name of the prompt -- the preset, or "custom" -- whether or not
    that file was downloaded: "N/A" is never shown. *)
Theorem done_names_the_sprite_sheet (K : PIL.kernels) (B : builtins)
    (E : GenerateRun.environment) (O : os) (a : GenerateRun.args) (fuel : nat)
    (w : GenerateRun.world) :
  let run := GenerateRun.main K B E O a fuel w in
  fst run = Returned GenerateRun.Finished ->
  exists key s video_id,
    GenerateRun.api_key E = Some key
    /\ GenerateRun.submitted (snd run) = GenerateRun.submitted w ++ [s]
    /\ GenerateRun.videos_create (GenerateRun.OpenAI E key) s = Ok video_id
    /\ last (Generate.stdout (GenerateRun.base (snd run)))
       = Some ("  Sprite sheet: output/" +:+ prompt_name_of (GenerateRun.args_prompt a)
               +:+ "_" +:+ video_id +:+ "_spritesheet.png").
Proof.
  cbv zeta. intros Hdone.
  destruct (main_run K B E O a fuel w)
    as [(lines & _ & Hnot)
       |(key & prompt & image_buf & lines & Hkey & _ & _ & _ & _ & Hsub & Hrest)];
    [contradiction|].
  destruct (GenerateRun.videos_create _ _) as [video_id|msg] eqn:Hid.
  2:{ destruct Hrest as [Hfst _]. congruence. }
  cbv zeta in Hrest.
  destruct (fst (Generate.wait_for_completion _ _ _ _ _ _)) as [job| |];
    try (destruct Hrest as [Hfst _]; congruence).
  destruct Hrest as (_ & _ & Hrest).
  destruct (makedirs_error O "output") as [msg|].
  { destruct Hrest as [Hfst _]. congruence. }
  destruct Hrest as [_ Hlast].
  do 3 eexists. split; [exact Hkey|]. split; [exact Hsub|].
  split; [exact Hid|exact Hlast].
Qed.

(** The job completes at its third check and the service has none of its
    files: the run ends normally and names a sprite sheet that was not
    written. *)
Lemma done_names_the_sprite_sheet_witness :
  let run := GenerateRun.main Samples.kernels Samples.builtins
               (RunSamples.environment_of Samples.finishing)
               Samples.no_refusals RunSamples.idle_args 60
               (RunSamples.start (Samples.solid PIL.RGB 2 2 [200; 30; 30])) in
  fst run = Returned GenerateRun.Finished
  /\ last (Generate.stdout (GenerateRun.base (snd run)))
     = Some "  Sprite sheet: output/idle_video_1_spritesheet.png"%string
  /\ Generate.files (GenerateRun.base (snd run))
       !! "output/idle_video_1_spritesheet.png"%string = None.
Proof.
  cbv zeta.
  assert (Hdone : fst (GenerateRun.main Samples.kernels Samples.builtins
                         (RunSamples.environment_of Samples.finishing)
                         Samples.no_refusals RunSamples.idle_args 60
                         (RunSamples.start (Samples.solid PIL.RGB 2 2 [200; 30; 30])))
                  = Returned GenerateRun.Finished) by (vm_compute; reflexivity).
  split; [exact Hdone|].
  destruct (done_names_the_sprite_sheet Samples.kernels Samples.builtins
              (RunSamples.environment_of Samples.finishing)
              Samples.no_refusals RunSamples.idle_args 60
              (RunSamples.start (Samples.solid PIL.RGB 2 2 [200; 30; 30])) Hdone)
    as (key & s & video_id & _ & _ & Hid & Hlast).
  injection Hid as <-.
  split; [exact Hlast|].
  vm_compute. reflexivity.
Defined.

(** ** The frames of an animation folder *)

Lemma length_append (a b : string) :
  String.length (a +:+ b) = (String.length a + String.length b)%nat.
Proof.
  induction a as [|ch a IH]; [reflexivity|].
  change (Datatypes.S (String.length (a +:+ b))
          = Datatypes.S (String.length a + String.length b)).
  rewrite IH. reflexivity.
Qed.

Lemma substring_suffix (a b : string) :
  String.substring (String.length a) (String.length b) (a +:+ b) = b.
Proof.
  induction a as [|ch a IH]; [|exact IH].
  change (String.substring 0 (String.length b) b = b).
  induction b as [|ch b IH]; [reflexivity|].
  cbn [String.length String.substring]. rewrite IH. reflexivity.
Qed.

Lemma substring_split (s : string) : forall m : nat,
  (m <= String.length s)%nat ->
  s = String.substring 0 m s +:+ String.substring m (String.length s - m) s.
Proof.
  induction s as [|ch s IH]; intros m Hm.
  - cbn in Hm. assert (m = 0%nat) as -> by lia. reflexivity.
  - destruct m as [|m].
    + change (String ch s
              = String.substring 0 (Datatypes.S (String.length s)) (String ch s)).
      cbn [String.substring]. f_equal.
      rewrite <- (substring_suffix EmptyString s) at 1. reflexivity.
    + cbn [String.length] in Hm.
      change (String ch s
              = String ch (String.substring 0 m s
                           +:+ String.substring m (String.length s - m) s)).
      f_equal. apply IH. lia.
Qed.

Lemma endswith_split (s suffix : string) :
  endswith s suffix = true <-> exists a, s = a +:+ suffix.
Proof.
  unfold endswith. split.
  - intros H. apply andb_true_iff in H as [Hlen Heq].
    apply Nat.leb_le in Hlen. apply String.eqb_eq in Heq.
    exists (String.substring 0 (String.length s - String.length suffix) s).
    rewrite (substring_split s (String.length s - String.length suffix)) at 1 by lia.
    replace (String.length s - (String.length s - String.length suffix))%nat
      with (String.length suffix) by lia.
    rewrite Heq. reflexivity.
  - intros [a ->]. rewrite length_append. apply andb_true_iff. split.
    + apply Nat.leb_le. lia.
    + replace (String.length a + String.length suffix - String.length suffix)%nat
        with (String.length a) by lia.
      rewrite substring_suffix. apply String.eqb_refl.
Qed.

Lemma append_prefix_of (a : string) : forall b x y : string,
  a +:+ x = b +:+ y -> (String.length a <= String.length b)%nat ->
  exists m, b = a +:+ m.
Proof.
  induction a as [|ch a IH]; intros b x y Heq Hlen; [exists b; reflexivity|].
  destruct b as [|ch' b]; [cbn in Hlen; lia|].
  change (String ch (a +:+ x) = String ch' (b +:+ y)) in Heq.
  injection Heq as -> Heq. cbn [String.length] in Hlen.
  destruct (IH b x y Heq ltac:(lia)) as [m ->]. exists m. reflexivity.
Qed.

(** The names the pattern "frame_*.png" matches. *)
Lemma matches_frame_png_spec (nm : string) :
  CreateSpritesheet.matches_frame_png nm = true
  <-> exists mid, nm = "frame_" +:+ mid +:+ ".png".
Proof.
  unfold CreateSpritesheet.matches_frame_png. split.
  - intros H. apply andb_true_iff in H as [H Hlen].
    apply andb_true_iff in H as [Hprefix Hsuffix].
    apply Nat.leb_le in Hlen.
    apply prefix_split in Hprefix as [rest Hrest].
    apply endswith_split in Hsuffix as [a Ha].
    assert (Hla : (String.length "frame_" <= String.length a)%nat).
    { rewrite Ha, length_append in Hlen. cbn [String.length] in *. lia. }
    rewrite Hrest in Ha.
    destruct (append_prefix_of "frame_" a rest ".png" Ha Hla) as [mid ->].
    exists mid. rewrite Hrest, Ha. apply append_assoc.
  - intros [mid ->]. rewrite prefix_app. cbn [andb].
    apply andb_true_iff. split.
    + apply endswith_split. exists ("frame_" +:+ mid).
      symmetry. apply append_assoc.
    + apply Nat.leb_le. rewrite !length_append. cbn [String.length]. lia.
Qed.

(** X20. [glob("frame_*.png")] on an animation folder changes nothing and
    finds exactly the entries of the folder -- files or directories --
    whose name is "frame_", anything, ".png"; on a path that is no
    directory it finds nothing and raises no error. *)
Theorem glob_finds_the_frame_entries (w : CreateSpritesheet.world)
    (folder : CreateSpritesheet.path) :
  exists found,
    CreateSpritesheet.glob_frames folder w = (Returned found, w)
    /\ forall frame_path,
         In frame_path found
         <-> exists es mid,
               CreateSpritesheet.resolve folder
                 (CreateSpritesheet.Dir (CreateSpritesheet.cwd w))
               = Some (CreateSpritesheet.Dir es)
               /\ In ("frame_" +:+ mid +:+ ".png") (map fst es)
               /\ frame_path = folder ++ ["frame_" +:+ mid +:+ ".png"].
Proof.
  unfold CreateSpritesheet.glob_frames.
  destruct (CreateSpritesheet.resolve folder
              (CreateSpritesheet.Dir (CreateSpritesheet.cwd w)))
    as [[f|es]|];
    try (exists []; split; [reflexivity|]; intros p; split;
         [intros []|intros (es & mid & Hes & _); discriminate]).
  eexists. split; [reflexivity|]. intros p. rewrite in_map_iff. split.
  - intros ([nm n] & <- & Hin). apply filter_In in Hin as [Hin Hmatch].
    cbn [fst] in *. apply matches_frame_png_spec in Hmatch as [mid ->].
    exists es, mid. split; [reflexivity|]. split; [|reflexivity].
    apply in_map_iff. exists ("frame_" +:+ mid +:+ ".png", n). auto.
  - intros (es' & mid & [= <-] & Hin & ->).
    apply in_map_iff in Hin as ([nm n] & Hnm & Hin). cbn [fst] in Hnm. subst nm.
    exists ("frame_" +:+ mid +:+ ".png", n). split; [reflexivity|].
    apply filter_In. split; [exact Hin|].
    apply matches_frame_png_spec. exists mid. reflexivity.
Qed.
